(** * l134k.predictor: a shallow embedding of [Predictor]

    The module [src/l134k/predictor.py] is glue code around three
    collaborators: numpy, the rmgpy CNN framework (model builder, trainer,
    persistence, data splitters) and the repository's own [util] module
    (pickling and the two error metrics).  The embedding keeps that shape:

    - numpy's [float64] is Rocq's primitive binary64 [float], with its
      not-a-number and its infinities, and numpy's sums add in numpy's
      order; the power of two scalars is the C library's, an interface
      ([Numpy.Power]);
    - the label arrays of a training run are one dimensional ([list float],
      one scalar label per row, as the flattened predictions they are
      compared with) and their statistics are scalars; [normalize] is
      embedded a second time for labels of shape [(N, d)], whose statistics
      are vectors with one entry per output dimension; feature arrays are
      two dimensional ([list (list float)], one row per molecule);
    - the module is Python 2 code (implicit relative import of [util], the
      rmgpy CNN framework), and the standard library is Python 2's;
    - a file system is a finite map from paths to contents: the directories
      that the paths name exist and can be written to;
    - the rmgpy framework and the metrics of [util] are interfaces
      ([cnn_framework.Framework], [util.Metrics]) whose operations the
      methods of [Predictor] call; the operations of the framework are
      functions, so a call of them returns, and returns the same for the same
      arguments;
    - a method of [Predictor] is a computation in a state-and-exception
      monad over the attributes of the object, the files of the output
      directory and a journal of the calls made to the collaborators.

    [logging.info] calls are not modelled, except the final statistics of a
    training run, which is the only place where the computed metrics leave
    the methods. *)

From Stdlib Require Import Floats ZArith Ascii String.
From stdpp Require Import gmap strings list pretty.

(** ** numpy *)

Module Numpy.

(** A one-dimensional [float64] array and a two-dimensional one. *)
Definition array1 := list float.
Definition array2 := list (list float).

Definition float_of_nat (n : nat) : float :=
  PrimFloat.of_uint63 (Uint63.of_Z (Z.of_nat n)).

(** [np.NaN] *)
Definition NaN : float := PrimFloat.nan.

(** [a.size]: the number of elements, not of rows. *)
Definition size (a : array2) : nat := length (concat a).

(** [a.flatten()] of a two-dimensional array, row after row. *)
Definition flatten (a : array2) : array1 := concat a.

(** *** Sums

    [np.add.reduce] over [float64] along the axis that is contiguous in
    memory is numpy's pairwise summation ([pairwise_sum] in the loops of
    [umath]).  Fewer than eight elements are added from left to right,
    starting from zero.  Up to [PW_BLOCKSIZE = 128] elements are added into
    eight accumulators, which start as the first eight elements and take a
    block of eight at a time; the accumulators are then added two by two and
    the elements after the last whole block are added from left to right.
    Longer arrays are cut in two, the first part half as long, rounded down
    to a multiple of eight, and the sums of the parts are added. *)

(** [r[0] += a[i + 0]; ...; r[7] += a[i + 7]] for each whole block of eight,
    then [((r[0] + r[1]) + (r[2] + r[3])) + ((r[4] + r[5]) + (r[6] + r[7]))];
    returned with the elements that are left. *)
Fixpoint unrolled (r0 r1 r2 r3 r4 r5 r6 r7 : float) (a : array1)
    : float * array1 :=
  match a with
  | a0 :: a1 :: a2 :: a3 :: a4 :: a5 :: a6 :: a7 :: rest =>
      unrolled (r0 + a0) (r1 + a1) (r2 + a2) (r3 + a3)
               (r4 + a4) (r5 + a5) (r6 + a6) (r7 + a7) rest
  | _ => ((((r0 + r1) + (r2 + r3)) + ((r4 + r5) + (r6 + r7)))%float, a)
  end.

(** The two branches of [pairwise_sum] that do not recurse. *)
Definition pairwise_block (a : array1) : float :=
  match a with
  | a0 :: a1 :: a2 :: a3 :: a4 :: a5 :: a6 :: a7 :: rest =>
      let '(res, rest) := unrolled a0 a1 a2 a3 a4 a5 a6 a7 rest in
      fold_left PrimFloat.add rest res
  | _ => fold_left PrimFloat.add a 0%float
  end.

(** [pairwise_sum(a, n)]; [depth] bounds the number of nested cuts, and the
    length of the array is always enough ([pairwise_sum_depth] below). *)
Fixpoint pairwise_sum (depth : nat) (a : array1) : float :=
  match depth with
  | S depth =>
      if (128 <? length a)%nat then
        let n2 := (length a / 2)%nat in
        let n2 := (n2 - n2 mod 8)%nat in
        (pairwise_sum depth (take n2 a) + pairwise_sum depth (drop n2 a))%float
      else pairwise_block a
  | O => pairwise_block a
  end.

(** [np.sum(a, axis=0)] of a one-dimensional array: the result starts as
    the identity of the addition, and the pairwise sum is added to it. *)
Definition sum (a : array1) : float :=
  (0 + pairwise_sum (length a) a)%float.

(** [np.mean(a, axis=0)]: the sum over the number of rows.  On an empty
    array this is [0 / 0], not a number, as in numpy. *)
Definition mean (a : array1) : float :=
  (sum a / float_of_nat (length a))%float.

(** [np.var(a, axis=0, ddof=ddof)]: the mean of the squared deviations from
    the mean, over [max (N - ddof) 0]. *)
Definition var (ddof : nat) (a : array1) : float :=
  let mu := mean a in
  let dev := map (fun v => (v - mu)%float) a in
  (sum (map (fun d => (d * d)%float) dev)
     / float_of_nat (length a - ddof))%float.

(** [np.std(a, axis=0)]; numpy's default is [ddof=0], the population
    standard deviation. *)
Definition std (a : array1) : float := PrimFloat.sqrt (var 0 a).

(** [(a - m) / s] with the scalars [m] and [s] broadcast over [a]. *)
Definition sub_div (m s : float) (a : array1) : array1 :=
  map (fun v => ((v - m) / s)%float) a.

(** [a * s + m] with the scalars broadcast over [a]. *)
Definition mul_add (s m : float) (a : array1) : array1 :=
  map (fun v => (v * s + m)%float) a.

Definition isnan (v : float) : bool := PrimFloat.is_nan v.

(** [x ** y] on [float64] scalars.  numpy hands it to [pow] of the C
    library, which is not the correctly rounded power (its square of 2.759
    is one unit in the last place below the product), so it is an
    operation of the platform.  What is used of it is C99 F.9.4.4: a
    not-a-number base gives not-a-number, unless the exponent is zero. *)
Class Power := {
  pow : float -> float -> float;
  pow_nan x y :
    isnan x = true -> PrimFloat.eqb y 0 = false -> isnan (pow x y) = true;
}.

(** *** Labels with several output dimensions

    A [float64] array of shape [(N, d)], row after row in memory (numpy's
    default layout): [N] rows of [d] values each.  The number of columns is
    kept, since an array may have no row. *)
Record matrix := {
  cols : nat;
  rows : list array1;
}.

Definition shaped (a : matrix) : Prop :=
  Forall (fun r => length r = cols a) (rows a).

Definition column (a : matrix) (j : nat) : array1 :=
  map (fun r => nth j r 0%float) (rows a).

(** [np.add.reduce] of one column of an array with [d] columns.  Along the
    rows numpy adds pairwise only where the rows are contiguous in memory,
    which is so for a single column; with more columns it adds row after
    row, each column from left to right, starting from zero. *)
Definition sum_rows (d : nat) (c : array1) : float :=
  if (d =? 1)%nat then sum c else fold_left PrimFloat.add c 0%float.

(** [np.mean(a, axis=0)]: one mean per column. *)
Definition mean0 (a : matrix) : array1 :=
  map (fun j =>
         (sum_rows (cols a) (column a j)
            / float_of_nat (length (rows a)))%float)
      (seq 0 (cols a)).

(** [np.var(a, axis=0, ddof=ddof)] and [np.std(a, axis=0)]: per column, the
    mean of the squared deviations from the mean of the column. *)
Definition var0 (ddof : nat) (a : matrix) : array1 :=
  map (fun j =>
         let c := column a j in
         let mu :=
           (sum_rows (cols a) c / float_of_nat (length (rows a)))%float in
         (sum_rows (cols a) (map (fun v => ((v - mu) * (v - mu))%float) c)
            / float_of_nat (length (rows a) - ddof))%float)
      (seq 0 (cols a)).

Definition std0 (a : matrix) : array1 := map PrimFloat.sqrt (var0 0 a).

(** [(a - m) / s] for an array [a] of shape [(M, d')] and two vectors of
    length [d], by numpy's broadcasting: entry by entry along each row if
    [d' = d]; a single statistic is used for every entry; a single column
    is used with every statistic; any other pair of shapes cannot be
    broadcast ([None], numpy's [ValueError]). *)
Definition sub_div0 (m s : array1) (a : matrix) : option matrix :=
  let d := length m in
  if decide (cols a = d) then
    Some {| cols := d;
            rows := map (fun r =>
                      zip_with (fun v ms => ((v - fst ms) / snd ms)%float)
                               r (zip m s)) (rows a) |}
  else if decide (d = 1%nat) then
    Some {| cols := cols a;
            rows := map (map (fun v =>
                      ((v - nth 0 m 0) / nth 0 s 0)%float)) (rows a) |}
  else if decide (cols a = 1%nat) then
    Some {| cols := d;
            rows := map (fun r =>
                      map (fun ms => ((nth 0 r 0 - fst ms) / snd ms)%float)
                          (zip m s)) (rows a) |}
  else None.

End Numpy.

(** ** Python values and the standard library *)

Module Py.

(** A Python number as the callers of [kfcv_train] and [full_train] pass
    it for a ratio: [0] and [0.0] are different objects. *)
Inductive num :=
| Int (z : Z)
| Float (f : float).

Definition is_zero (n : num) : bool :=
  match n with
  | Int z => bool_decide (z = 0%Z)
  | Float f => PrimFloat.eqb f 0%float
  end.

Inductive exn :=
| Exception (msg : string)        (* [raise Exception(msg)] *)
| AttributeError (attr : string)  (* an attribute of [None] *)
| TypeError (what : string)
| ValueError (what : string)
| IOError (path : string).

(** [os.path.join(a, b)] on POSIX ([posixpath.join]). *)
Definition starts_with_slash (s : string) : bool :=
  match s with
  | String c _ => bool_decide (c = "/"%char)
  | EmptyString => false
  end.

Fixpoint ends_with_slash (s : string) : bool :=
  match s with
  | EmptyString => false
  | String c EmptyString => bool_decide (c = "/"%char)
  | String _ r => ends_with_slash r
  end.

Definition os_path_join (a b : string) : string :=
  if starts_with_slash b then b
  else if bool_decide (a = "") || ends_with_slash a then a +:+ b
  else a +:+ "/" +:+ b.

(** The truth value of an integer, as in [if a.size:]. *)
Definition truth (n : nat) : bool := negb (Nat.eqb n 0).

(** ['\n'] *)
Definition newline : string := String (ascii_of_nat 10) EmptyString.

(** [range(n)] *)
Definition range (n : Z) : list Z := seqZ 0 n.

(** ['{}'.format(i)] for an integer. *)
Definition format_int (i : Z) : string := pretty i.

End Py.

(** ** Results and the monad of a method call *)

Inductive result (A : Type) :=
| Ok (a : A)
| Raise (e : Py.exn).
Arguments Ok {A} a.
Arguments Raise {A} e.

Section Monad.
Context {S : Type}.

Definition M (A : Type) : Type := S -> result A * S.

Definition ret {A} (a : A) : M A := fun s => (Ok a, s).

Definition raise {A} (e : Py.exn) : M A := fun s => (Raise e, s).

Definition bind {A B} (c : M A) (k : A -> M B) : M B :=
  fun s =>
    match c s with
    | (Ok a, s') => k a s'
    | (Raise e, s') => (Raise e, s')
    end.

Definition gets {A} (f : S -> A) : M A := fun s => (Ok (f s), s).

Definition modify (f : S -> S) : M unit := fun s => (Ok tt, f s).

(** [for i in l: acc = body(i, acc)] *)
Fixpoint for_each {I A} (l : list I) (body : I -> A -> M A) (acc : A) : M A :=
  match l with
  | [] => ret acc
  | i :: r => bind (body i acc) (for_each r body)
  end.

End Monad.
Arguments M : clear implicits.

Declare Scope py_scope.
Delimit Scope py_scope with py.
Notation "x <- c ;; k" := (bind c (fun x => k))
  (at level 100, c at next level, right associativity) : py_scope.
Notation "c ;; k" := (bind c (fun _ => k))
  (at level 100, right associativity) : py_scope.

(** ** Files *)

(** What a file of the output directory holds.  [Blob] is whatever the
    framework's own save routine writes. *)
Inductive content (Blob : Type) :=
| Text (s : string)
| Pickled (y_mean y_std : option float)
| Artifact (b : Blob).
Arguments Text {Blob} s.
Arguments Pickled {Blob} y_mean y_std.
Arguments Artifact {Blob} b.

(** ** The collaborators *)

(** [rmgpy.cnn_framework]: [cnn_model], [data] and the Keras model object.
    An external library: its operations are taken as they are, and as
    returning. *)
Module cnn_framework.

Import Numpy.

Class Framework := {
  Model : Type;
  Settings : Type;
  Blob : Type;
  (** [model.predict(x)]: one row of outputs per row of [x] *)
  model_predict : Model -> array2 -> array2;
  (** [model.load_weights(path)] *)
  model_load_weights :
    Model -> string -> gmap string (content Blob) -> Model;
  (** [train_model(model, X_train, y_train, X_inner_val, y_inner_val,
      X_test, y_test, X_outer_val=, y_outer_val=, **settings)] returns
      [(model, loss, inner_val_loss, mean_outer_val_loss, mean_test_loss)] *)
  train_model :
    option Model -> array2 -> array1 -> array2 -> array1 ->
    array2 -> array1 -> option array2 -> option array1 -> Settings ->
    Model * list float * list float * float * float;
  (** [save_model(model, loss, inner_val_loss, mean_outer_val_loss,
      mean_test_loss, fpath)] *)
  save_model :
    option Model -> list float -> list float -> float -> float -> string ->
    gmap string (content Blob) -> gmap string (content Blob);
  (** [reset_model(model)] *)
  reset_model : option Model -> Model;
  (** [split_test_from_train_and_val(X, y, extra_data=, shuffle_seed=,
      testing_ratio=)] returns
      [(X_test, y_test, X_train, y_train, extra_test, extra_train)] *)
  split_test_from_train_and_val :
    array2 -> array1 -> list string -> Z -> Py.num ->
    array2 * array1 * array2 * array1 * list string * list string;
  (** [split_inner_val_from_train_data(X, y, shuffle_seed=,
      training_ratio=)] returns [(X_train, X_inner_val, y_train, y_inner_val)] *)
  split_inner_val_from_train_data :
    array2 -> array1 -> Z -> Py.num -> array2 * array2 * array1 * array1;
  (** [prepare_folded_data(X, y, folds, shuffle_seed=)] returns
      [(folded_Xs, folded_ys)] *)
  prepare_folded_data :
    array2 -> array1 -> Z -> Z -> list array2 * list array1;
  (** [prepare_data_one_fold(folded_Xs, folded_ys, current_fold=,
      shuffle_seed=, training_ratio=)] returns [(X_train, X_inner_val,
      X_outer_val, y_train, y_inner_val, y_outer_val)] *)
  prepare_data_one_fold :
    list array2 -> list array1 -> Z -> Z -> Py.num ->
    array2 * array2 * array2 * array1 * array1 * array1;
}.

(** The part of the framework that builds a model:
    [molecule_tensor.get_attribute_vector_size(add_extra_atom_attribute=,
    add_extra_bond_attribute=)] and [cnn_model.build_model(
    attribute_vector_size=, **model_settings)]. *)
Class Builder `{Framework} := {
  ModelSettings : Type;
  get_attribute_vector_size : bool -> bool -> Z;
  build_model : Z -> ModelSettings -> Model;
}.

End cnn_framework.

(** [util]: the repository's helper module.  The methods of [Predictor]
    call its two metrics through an interface, so that what is proved of
    them holds for any pair of metric functions. *)
Module util.

Import Numpy.

Class Metrics := {
  calculate_rmse : array1 -> array1 -> float;
  calculate_mae : array1 -> array1 -> float;
}.

(** [y_true - y_pred] for two arrays of the same length. *)
Definition diff (y_true y_pred : array1) : array1 :=
  map (fun p => (fst p - snd p)%float) (zip y_true y_pred).

(** Modelled from the spec: [util.calculate_rmse], of which the spec says
    only that it computes the RMSE of the predictions against the labels;
    this is the textbook reading over numpy,
    [np.sqrt(np.mean((y_true - y_pred) ** 2))]. *)
Definition rmse (y_true y_pred : array1) : float :=
  PrimFloat.sqrt (mean (map (fun d => (d * d)%float) (diff y_true y_pred))).

(** Modelled from the spec: [util.calculate_mae], likewise
    [np.mean(np.abs(y_true - y_pred))]. *)
Definition mae (y_true y_pred : array1) : float :=
  mean (map PrimFloat.abs (diff y_true y_pred)).

(** The instance used where a concrete pair of metrics is needed. *)
Definition numpy_metrics : Metrics :=
  {| calculate_rmse := rmse; calculate_mae := mae |}.

(** Modelled from the spec: [util.pickle_dump(path, obj)] serializes the
    pair [(y_mean, y_std)] to the file at [path], replacing it. *)
Definition pickle_dump {Blob} (path : string) (obj : option float * option float)
    (fs : gmap string (content Blob)) : gmap string (content Blob) :=
  <[path := Pickled (fst obj) (snd obj)]> fs.

(** Modelled from the spec: [util.pickle_load(path)] restores the persisted
    pair; a missing file or one that holds something else is an error. *)
Definition pickle_load {Blob} (path : string) (fs : gmap string (content Blob))
    : result (option float * option float) :=
  match fs !! path with
  | Some (Pickled m s) => Ok (m, s)
  | _ => Raise (Py.IOError path)
  end.

End util.

(** ** The class [Predictor] *)

Module Predictor.

Import Numpy cnn_framework util.
Local Open Scope py_scope.

Section Methods.
Context `{F : Framework} `{U : Metrics} `{P : Power}.

Inductive metric := RMSE | MAE.

(** The arguments of one call of the trainer. *)
Record train_call := {
  tc_model : option Model;
  tc_x_train : array2;
  tc_y_train : array1;
  tc_x_inner_val : array2;
  tc_y_inner_val : array1;
  tc_x_test : array2;
  tc_y_test : array1;
  tc_x_outer_val : option array2;
  tc_y_outer_val : option array1;
  tc_settings : Settings;
}.

(** The journal: the calls of the splitter, of the trainer and of the two
    metric functions, and the final statistics that a run logs (one row per
    subset: its label, RMSE and MAE). *)
Inductive event :=
| SplitCall (shuffle_seed : Z) (testing_ratio : Py.num)
| TrainCall (c : train_call)
| MetricCall (k : metric) (y_true y_pred : array1)
| FinalStatistics (rows : list (string * (float * float))).

(** The attributes of the object ([__init__] sets [model], [y_mean] and
    [y_std] to [None]), the files and the journal.  [T] is the type of a
    statistic, of what [np.mean(y_train, axis=0)] returns: a [float64]
    scalar for one-dimensional labels, a vector for labels with several
    output dimensions. *)
Record object (T : Type) := {
  model : option Model;
  out_dir : option string;
  y_mean : option T;
  y_std : option T;
  files : gmap string (content Blob);
  journal : list event;
}.
Arguments model {T} _.
Arguments out_dir {T} _.
Arguments y_mean {T} _.
Arguments y_std {T} _.
Arguments files {T} _.
Arguments journal {T} _.

(** The predictor of a training run: its labels are one dimensional. *)
Definition state : Type := object float.

Definition init (out_dir : option string) (fs : gmap string (content Blob))
    : state :=
  {| model := None; out_dir := out_dir; y_mean := None; y_std := None;
     files := fs; journal := [] |}.

Definition set_model (m : option Model) (s : state) : state :=
  {| model := m; out_dir := out_dir s; y_mean := y_mean s;
     y_std := y_std s; files := files s; journal := journal s |}.

Definition set_y_mean {T} (v : option T) (s : object T) : object T :=
  {| model := model s; out_dir := out_dir s; y_mean := v;
     y_std := y_std s; files := files s; journal := journal s |}.

Definition set_y_std {T} (v : option T) (s : object T) : object T :=
  {| model := model s; out_dir := out_dir s; y_mean := y_mean s;
     y_std := v; files := files s; journal := journal s |}.

Definition set_files (fs : gmap string (content Blob)) (s : state) : state :=
  {| model := model s; out_dir := out_dir s; y_mean := y_mean s;
     y_std := y_std s; files := fs; journal := journal s |}.

Definition record (e : event) (s : state) : state :=
  {| model := model s; out_dir := out_dir s; y_mean := y_mean s;
     y_std := y_std s; files := files s; journal := journal s ++ [e] |}.

(** *** Small steps shared by the methods *)

Definition os_path_exists (path : string) : M state bool :=
  fs <- gets files ;;
  ret (bool_decide (is_Some (fs !! path))).

(** [shutil.move(src, dst)] between two files: a rename that replaces
    the destination. *)
Definition shutil_move (src dst : string) : M state unit :=
  fs <- gets files ;;
  match fs !! src with
  | Some c => modify (set_files (<[dst := c]> (delete src fs)))
  | None => raise (Py.IOError src)
  end.

(** [os.path.join(self.out_dir, name)] for a relative [name].  Python 2's
    [posixpath.join(a, b)] asks [a.endswith('/')] once it has seen that [b]
    is relative and that [a] is not the empty string: on [None] this is the
    attribute error of [None]. *)
Definition join_out_dir (name : string) : M state string :=
  d <- gets out_dir ;;
  match d with
  | Some d => ret (Py.os_path_join d name)
  | None => raise (Py.AttributeError "endswith")
  end.

(** [with open(path, 'w') as f: for name in names: f.write(name + '\n')].
    The file is created or replaced: the directory of [path] is taken to
    exist and to be writable, as for every file that is written here. *)
Definition write_lines (path : string) (names : list string) : M state unit :=
  modify (fun s =>
    set_files
      (<[path := Text (foldr (fun n r => n +:+ Py.newline +:+ r) "" names)]>
         (files s)) s).

(** A call of one of the two metric functions of [util]. *)
Definition call_metric (k : metric) (y_true y_pred : array1) : M state float :=
  modify (record (MetricCall k y_true y_pred)) ;;
  ret (match k with
       | RMSE => calculate_rmse y_true y_pred
       | MAE => calculate_mae y_true y_pred
       end).

(** *** The methods *)

(** [d[key]] on a dictionary without that key. *)
Inductive key_error := KeyError (key : string).

(** [build_model(tensor_settings, **model_settings)]: the two flags are read
    from the dictionary in the order of the keyword arguments, and the model
    is assigned last. *)
Definition build_model `{B : !Builder} (tensor_settings : gmap string bool)
    (model_settings : ModelSettings) (s : state) : (key_error + unit) * state :=
  match tensor_settings !! "add_extra_atom_attribute" with
  | None => (inl (KeyError "add_extra_atom_attribute"), s)
  | Some atom =>
      match tensor_settings !! "add_extra_bond_attribute" with
      | None => (inl (KeyError "add_extra_bond_attribute"), s)
      | Some bond =>
          let attribute_vector_size := get_attribute_vector_size atom bond in
          (inr tt,
           set_model
             (Some (cnn_framework.build_model attribute_vector_size
                      model_settings)) s)
      end
  end.

Definition reset_model : M state unit :=
  modify (fun s => set_model (Some (cnn_framework.reset_model (model s))) s).

Definition load_weights (model_weights_path : string) : M state unit :=
  m <- gets model ;;
  match m with
  | None => raise (Py.AttributeError "load_weights")
  | Some m =>
      modify (fun s =>
        set_model (Some (model_load_weights m model_weights_path (files s))) s)
  end.

Definition load_mean_and_std (mean_and_std_path : string) : M state unit :=
  fs <- gets files ;;
  match pickle_load mean_and_std_path fs with
  | Ok (m, s) => modify (set_y_mean m) ;; modify (set_y_std s)
  | Raise e => raise e
  end.

Definition normalize (y_train : array1) (other_ys : list array1)
    : M state (array1 * list array1) :=
  let mu := mean y_train in
  let sd := std y_train in
  modify (set_y_mean (Some mu)) ;;
  modify (set_y_std (Some sd)) ;;
  ret (sub_div mu sd y_train, map (sub_div mu sd) other_ys).

(** [tuple((y - self.y_mean) / self.y_std for y in other_ys)] on arrays of
    shape [(M, d')]: the arrays are standardized in turn, and the first that
    cannot be broadcast against the statistics ends the call. *)
Fixpoint standardized_2d (mu sd : array1) (ys : list matrix)
    : option (list matrix) :=
  match ys with
  | [] => Some []
  | y :: ys =>
      match sub_div0 mu sd y with
      | Some y' =>
          match standardized_2d mu sd ys with
          | Some ys' => Some (y' :: ys')
          | None => None
          end
      | None => None
      end
  end.

(** [normalize] on labels of shape [(N, d)]: the same body, with numpy's
    reductions along the rows and numpy's broadcasting.  The two statistics
    are assigned before any array is standardized. *)
Definition normalize_2d (y_train : matrix) (other_ys : list matrix)
    : M (object array1) (matrix * list matrix) :=
  let mu := mean0 y_train in
  let sd := std0 y_train in
  modify (set_y_mean (Some mu)) ;;
  modify (set_y_std (Some sd)) ;;
  match sub_div0 mu sd y_train with
  | Some y_train =>
      match standardized_2d mu sd other_ys with
      | Some other_ys => ret (y_train, other_ys)
      | None => raise (Py.ValueError "operands could not be broadcast together")
      end
  | None => raise (Py.ValueError "operands could not be broadcast together")
  end.

Definition split_test (x : array2) (y : array1) (names : list string)
    (test_split : Py.num) (save_names : bool)
    : M state (array2 * array1 * array2 * array1) :=
  modify (record (SplitCall 7 test_split)) ;;
  let '(x_test, y_test, x_train, y_train, names_test, names_train) :=
    split_test_from_train_and_val x y names 7 test_split in
  (if save_names then
     names_test_path <- join_out_dir "names_test.txt" ;;
     names_train_path <- join_out_dir "names_train.txt" ;;
     write_lines names_test_path names_test ;;
     write_lines names_train_path names_train
   else ret tt) ;;
  ret (x_test, y_test, x_train, y_train).

Definition predict (x : array2) (norm : bool) : M state array1 :=
  m <- gets model ;;
  match m with
  | None => raise (Py.AttributeError "predict")
  | Some m =>
      let y_norm := flatten (model_predict m x) in
      if norm then ret y_norm
      else
        mu <- gets y_mean ;;
        sd <- gets y_std ;;
        match mu, sd with
        | Some mu, Some sd => ret (mul_add sd mu y_norm)
        | _, _ =>
            raise (Py.Exception "Missing mean and/or std of training data")
        end
  end.

(** [predict] returns a one-dimensional array, which the second
    [.flatten()] leaves as it is. *)
Definition evaluate (x : array2) (y : array1) (norm : bool)
    : M state (float * float) :=
  y_pred <- predict x norm ;;
  rmse <- call_metric RMSE y y_pred ;;
  mae <- call_metric MAE y y_pred ;;
  if norm then
    sd <- gets y_std ;;
    match sd with
    | Some sd => ret ((pow sd 2 * rmse)%float, (pow sd 2 * mae)%float)
    | None => raise (Py.TypeError "NoneType ** float")
    end
  else ret (rmse, mae).

Definition save_model (model_path : string) (loss inner_val_loss : list float)
    (mean_outer_val_loss mean_test_loss : float) : M state unit :=
  let model_structure_path := model_path +:+ ".json" in
  let model_weights_path := model_path +:+ ".h5" in
  let mean_and_std_path := model_path +:+ ".attr" in
  e <- os_path_exists model_structure_path ;;
  (if e then shutil_move model_structure_path (model_path +:+ "_backup.json")
   else ret tt) ;;
  e <- os_path_exists model_weights_path ;;
  (if e then shutil_move model_weights_path (model_path +:+ "_backup.h5")
   else ret tt) ;;
  e <- os_path_exists mean_and_std_path ;;
  (if e then shutil_move mean_and_std_path (model_path +:+ "_backup.attr")
   else ret tt) ;;
  modify (fun s =>
    set_files (cnn_framework.save_model (model s) loss inner_val_loss
                 mean_outer_val_loss mean_test_loss model_path (files s)) s) ;;
  modify (fun s =>
    set_files (pickle_dump mean_and_std_path (y_mean s, y_std s) (files s)) s).

(** The body of the loop of [kfcv_train] for one value of [fold].  The
    loop rebinds the local [y_test], so the body takes the current one
    and returns the next; the four lists of losses that the loop appends
    to are never read and are left out. *)
Definition kfcv_fold (folded_xs : list array2) (folded_ys : list array1)
    (train_ratio : Py.num) (x_test : array2)
    (pretrained_weights : option string) (train_settings : Settings)
    (fold : Z) (y_test : array1) : M state array1 :=
  let '(x_train, x_inner_val, x_outer_val, y_train, y_inner_val, y_outer_val) :=
    prepare_data_one_fold folded_xs folded_ys fold 4 train_ratio in
  r <- normalize y_train [y_inner_val; y_outer_val; y_test] ;;
  match r with
  | (y_train, [y_inner_val; y_outer_val; y_test]) =>
      m <- gets model ;;
      let '(m', loss, inner_val_loss, mean_outer_val_loss, mean_test_loss) :=
        train_model m x_train y_train x_inner_val y_inner_val x_test y_test
          (Some x_outer_val) (Some y_outer_val) train_settings in
      modify (record (TrainCall
        {| tc_model := m; tc_x_train := x_train; tc_y_train := y_train;
           tc_x_inner_val := x_inner_val; tc_y_inner_val := y_inner_val;
           tc_x_test := x_test; tc_y_test := y_test;
           tc_x_outer_val := Some x_outer_val;
           tc_y_outer_val := Some y_outer_val;
           tc_settings := train_settings |})) ;;
      modify (set_model (Some m')) ;;
      train <- evaluate x_train y_train true ;;
      inner_val <- (if Py.truth (size x_inner_val)
                    then evaluate x_inner_val y_inner_val true
                    else ret (NaN, NaN)) ;;
      outer_val <- evaluate x_outer_val y_outer_val true ;;
      test <- (if Py.truth (size x_test)
               then evaluate x_test y_test true
               else ret (NaN, NaN)) ;;
      modify (record (FinalStatistics
        [("Train", train); ("Inner val", inner_val);
         ("Outer val", outer_val); ("Test", test)])) ;;
      model_path <- join_out_dir ("model_fold_" +:+ Py.format_int fold) ;;
      save_model model_path loss inner_val_loss mean_outer_val_loss
        mean_test_loss ;;
      (match pretrained_weights with
       | Some w => load_weights w
       | None => reset_model
       end) ;;
      ret y_test
  | _ => raise (Py.ValueError "unpack")
  end.

Definition kfcv_train (x : array2) (y : array1) (names : list string)
    (folds : Z) (test_split train_ratio : Py.num)
    (test_data : option (array2 * array1)) (save_names : bool)
    (pretrained_weights : option string) (train_settings : Settings)
    : M state unit :=
  let test_split :=
    match test_data with Some _ => Py.Int 0 | None => test_split end in
  s <- split_test x y names test_split save_names ;;
  let '(x_test, y_test, x_train_and_val, y_train_and_val) := s in
  let '(x_test, y_test) :=
    match test_data with Some d => d | None => (x_test, y_test) end in
  let '(folded_xs, folded_ys) :=
    prepare_folded_data x_train_and_val y_train_and_val folds 2 in
  for_each (Py.range folds)
    (kfcv_fold folded_xs folded_ys train_ratio x_test pretrained_weights
       train_settings) y_test ;;
  ret tt.

Definition full_train (x : array2) (y : array1) (names : list string)
    (test_split train_ratio : Py.num)
    (test_data : option (array2 * array1)) (save_names : bool)
    (train_settings : Settings) : M state unit :=
  let test_split :=
    match test_data with Some _ => Py.Float 0 | None => test_split end in
  s <- split_test x y names test_split save_names ;;
  let '(x_test, y_test, x_train, y_train) := s in
  let '(x_test, y_test) :=
    match test_data with Some d => d | None => (x_test, y_test) end in
  let '(x_train, x_inner_val, y_train, y_inner_val) :=
    split_inner_val_from_train_data x_train y_train 77 train_ratio in
  r <- normalize y_train [y_inner_val; y_test] ;;
  match r with
  | (y_train, [y_inner_val; y_test]) =>
      m <- gets model ;;
      let '(m', loss, inner_val_loss, mean_outer_val_loss, mean_test_loss) :=
        train_model m x_train y_train x_inner_val y_inner_val x_test y_test
          None None train_settings in
      modify (record (TrainCall
        {| tc_model := m; tc_x_train := x_train; tc_y_train := y_train;
           tc_x_inner_val := x_inner_val; tc_y_inner_val := y_inner_val;
           tc_x_test := x_test; tc_y_test := y_test;
           tc_x_outer_val := None; tc_y_outer_val := None;
           tc_settings := train_settings |})) ;;
      modify (set_model (Some m')) ;;
      train <- evaluate x_train y_train true ;;
      inner_val <- (if Py.truth (size x_inner_val)
                    then evaluate x_inner_val y_inner_val true
                    else ret (NaN, NaN)) ;;
      test <- (if Py.truth (size x_test)
               then evaluate x_test y_test true
               else ret (NaN, NaN)) ;;
      modify (record (FinalStatistics
        [("Train", train); ("Inner val", inner_val); ("Test", test)])) ;;
      model_path <- join_out_dir "model" ;;
      save_model model_path loss inner_val_loss mean_outer_val_loss
        mean_test_loss
  | _ => raise (Py.ValueError "unpack")
  end.

End Methods.

Arguments model {F T} _.
Arguments out_dir {F T} _.
Arguments y_mean {F T} _.
Arguments y_std {F T} _.
Arguments files {F T} _.
Arguments journal {F T} _.

End Predictor.

(** ** A small concrete framework

    A one-weight linear model and splitters that do not shuffle: enough to
    run the methods on concrete data. *)
Module Sample.

Import Numpy.

(** The prediction for a row is the weight times the sum of the row. *)
Definition predict_rows (w : float) (x : array2) : array2 :=
  map (fun row => [(w * sum row)%float]) x.

Definition load (w : float) (path : string)
    (fs : gmap string (content (string * float))) : float :=
  match fs !! path with
  | Some (Artifact (_, w')) => w'
  | _ => w
  end.

(** "Training" sets the weight to one. *)
Definition train (m : option float) (x_train : array2) (y_train : array1)
    (x_inner_val : array2) (y_inner_val : array1)
    (x_test : array2) (y_test : array1)
    (x_outer_val : option array2) (y_outer_val : option array1) (_ : unit)
    : float * list float * list float * float * float :=
  (1%float, [], [], 0%float, 0%float).

Definition save (m : option float) (loss inner_val_loss : list float)
    (mean_outer_val_loss mean_test_loss : float) (fpath : string)
    (fs : gmap string (content (string * float)))
    : gmap string (content (string * float)) :=
  <[fpath +:+ ".h5" := Artifact ("weights", default 0%float m)]>
    (<[fpath +:+ ".json" := Artifact ("structure", 0%float)]> fs).

(** The first row is the test set, unless the ratio is zero. *)
Definition split_test (x : array2) (y : array1) (names : list string)
    (seed : Z) (ratio : Py.num)
    : array2 * array1 * array2 * array1 * list string * list string :=
  if Py.is_zero ratio then ([], [], x, y, [], names)
  else (take 1 x, take 1 y, drop 1 x, drop 1 y, take 1 names, drop 1 names).

(** The first row is the inner validation set. *)
Definition split_inner (x : array2) (y : array1) (seed : Z) (ratio : Py.num)
    : array2 * array2 * array1 * array1 :=
  (drop 1 x, take 1 x, drop 1 y, take 1 y).

(** Rows are dealt to the folds in turn. *)
Definition dealt {A} (k i : nat) (l : list A) : list A :=
  map snd (filter (fun p => Nat.eqb (fst p mod k) i) (zip (seq 0 (length l)) l)).

Definition folded (x : array2) (y : array1) (folds seed : Z)
    : list array2 * list array1 :=
  let k := Z.to_nat folds in
  (map (fun i => dealt k i x) (seq 0 k), map (fun i => dealt k i y) (seq 0 k)).

Definition one_fold (fxs : list array2) (fys : list array1)
    (fold seed : Z) (ratio : Py.num)
    : array2 * array2 * array2 * array1 * array1 * array1 :=
  let i := Z.to_nat fold in
  let rest_x := concat (take i fxs ++ drop (S i) fxs) in
  let rest_y := concat (take i fys ++ drop (S i) fys) in
  (drop 1 rest_x, take 1 rest_x, nth i fxs [],
   drop 1 rest_y, take 1 rest_y, nth i fys []).

Definition framework : cnn_framework.Framework :=
  {| cnn_framework.Model := float;
     cnn_framework.Settings := unit;
     cnn_framework.Blob := string * float;
     cnn_framework.model_predict := predict_rows;
     cnn_framework.model_load_weights := load;
     cnn_framework.train_model := train;
     cnn_framework.save_model := save;
     cnn_framework.reset_model := fun _ => 0%float;
     cnn_framework.split_test_from_train_and_val := split_test;
     cnn_framework.split_inner_val_from_train_data := split_inner;
     cnn_framework.prepare_folded_data := folded;
     cnn_framework.prepare_data_one_fold := one_fold |}.

(** A power for the samples: the product at the exponent two, one at the
    exponent zero. *)
Definition pow (x y : float) : float :=
  if PrimFloat.eqb y 2 then (x * x)%float
  else if PrimFloat.eqb y 0 then 1%float
  else NaN.

Definition power : Numpy.Power.
Proof.
  refine {| Numpy.pow := pow |}.
  intros x y Hx Hy. unfold pow. rewrite Hy.
  destruct (PrimFloat.eqb y 2); [|reflexivity].
  revert Hx. unfold isnan, is_nan.
  rewrite !FloatAxioms.eqb_spec, FloatAxioms.mul_spec.
  destruct (Prim2SF x) as [sg|sg| |sg m e]; cbn; try reflexivity.
  - discriminate.
  - destruct sg; discriminate.
  - rewrite Z.compare_refl.
    change (PosDef.Pos.compare_cont Eq m m) with (Pos.compare m m).
    rewrite Pos.compare_refl. destruct sg; discriminate.
Defined.


(** The sample builder: the weight of the model it builds is the size of the
    attribute vector. *)
Definition builder : @cnn_framework.Builder framework :=
  {| cnn_framework.ModelSettings := unit;
     cnn_framework.get_attribute_vector_size :=
       fun atom bond => (10 + (if atom then 2 else 0) + (if bond then 1 else 0))%Z;
     cnn_framework.build_model :=
       fun n _ =>
         (PrimFloat.of_uint63 (Uint63.of_Z n) : @cnn_framework.Model framework) |}.

(** A predictor whose model is built and whose statistics are unset, and
    one whose statistics are set. *)
Definition built : @Predictor.state framework :=
  Predictor.set_model (F := framework) (Some 1%float)
    (Predictor.init (F := framework) (Some "out") ∅).

(** Two rows of features and their labels. *)
Definition x2 : array2 := [[1; 2]; [3; 4]]%float.
Definition y2 : array1 := [2.5; 7]%float.

Definition fitted : @Predictor.state framework :=
  Predictor.set_y_std (F := framework) (Some 2%float)
    (Predictor.set_y_mean (F := framework) (Some 10%float) built).

(** Six molecules with one feature each, their labels and names, and a
    held-out pair.  Dealt to two folds, the training labels of fold 0 are
    [1; 3] and those of fold 1 are [0; 4]. *)
Definition x6 : array2 := [[6]; [4]; [0]; [1]; [4]; [3]]%float.
Definition y6 : array1 := [6; 4; 0; 1; 4; 3]%float.
Definition names6 : list string := ["a"; "b"; "c"; "d"; "e"; "f"].
Definition x_held : array2 := [[4]]%float.
Definition y_held : array1 := [7]%float.

(** Folded data whose second fold has no rows. *)
Definition folded_xs_gap : list array2 := [[[3]; [-1]; [1]]; []]%float.
Definition folded_ys_gap : list array1 := [[5; 1; 3]; []]%float.

(** The fitted predictor saved once, and then fitted again. *)
Definition saved_once : @Predictor.state framework :=
  snd (Predictor.save_model (F := framework) "out/model" [] [] 0 0 fitted).

Definition refitted : @Predictor.state framework :=
  Predictor.set_y_std (F := framework) (Some 4%float)
    (Predictor.set_y_mean (F := framework) (Some 3%float)
       (Predictor.set_model (F := framework) (Some 5%float) saved_once)).

(** Three molecules whose two last labels have mean 2 and deviation 1. *)
Definition x3 : array2 := [[5]; [1]; [3]]%float.
Definition y3 : array1 := [5; 1; 3]%float.
Definition names3 : list string := ["p"; "q"; "r"].

(** A predictor with a model and without an output directory, and the
    settings of the tensors that the builder reads. *)
Definition unhoused : @Predictor.state framework :=
  Predictor.set_model (F := framework) (Some 1%float)
    (Predictor.init (F := framework) None ∅).

Definition tensor_settings : gmap string bool :=
  <["add_extra_atom_attribute" := true]>
    (<["add_extra_bond_attribute" := false]>
       (<["padding" := true]> ∅)).

(** Labels that are off the predictions [[3; 7]] for [x2] by one. *)
Definition y_off : array1 := [2; 8]%float.

(** Ten labels of one tenth: numpy's sum of them is one, their sum from
    left to right is not. *)
Definition tenths : array1 := repeat 0x1.999999999999ap-4%float 10.

(** A predictor without a model whose statistics are set. *)
Definition unbuilt : @Predictor.state framework :=
  Predictor.set_y_std (F := framework) (Some 2%float)
    (Predictor.set_y_mean (F := framework) (Some 10%float)
       (Predictor.init (F := framework) (Some "out") ∅)).

(** Labels with two output dimensions, another array of such labels, an
    array with three columns, and a predictor for them. *)
Definition y22 : matrix := {| cols := 2; rows := [[1; 10]; [3; 30]]%float |}.
Definition y12 : matrix := {| cols := 2; rows := [[2; 25]]%float |}.
Definition y13 : matrix := {| cols := 3; rows := [[2; 25; 0]]%float |}.

Definition built_2d : @Predictor.object framework array1 :=
  {| Predictor.model := Some (1%float : @cnn_framework.Model framework);
     Predictor.out_dir := Some "out";
     Predictor.y_mean := None; Predictor.y_std := None;
     Predictor.files := ∅; Predictor.journal := [] |}.

End Sample.

(** ** Vocabulary of the statements *)

Module Spec.

Import Numpy.

(** A call returned a pair of metrics that are both not a number. *)
Definition nan_pair (r : result (float * float)) : Prop :=
  exists a b, r = Ok (a, b) /\ isnan a = true /\ isnan b = true.

(** The message of the usage error of [predict]. *)
Definition missing_statistics : Py.exn :=
  Py.Exception "Missing mean and/or std of training data".

(** [if os.path.exists(src): shutil.move(src, dst)] on the files. *)
Definition backed_up {V} (src dst : string) (fs : gmap string V) : gmap string V :=
  match fs !! src with
  | Some c => <[dst := c]> (delete src fs)
  | None => fs
  end.

(** What the framework's save routine writes to [p + ext] for a model and
    its losses. *)
Definition written `{cnn_framework.Framework} (m : option cnn_framework.Model)
    (l il : list float) (o t : float) (p ext : string)
    : option (content cnn_framework.Blob) :=
  cnn_framework.save_model m l il o t p ∅ !! (p +:+ ext).

(** What [Predictor.save_model] relies on from the framework's save routine:
    it writes the structure file and the weights file, with a content that
    the model and the losses determine, and leaves the statistics file and
    the three backup files alone. *)
Definition save_routine_contract `{cnn_framework.Framework} : Prop :=
  forall m l il o t p fs,
    (forall ext, ext ∈ [".json"; ".h5"] ->
       is_Some (written m l il o t p ext) /\
       cnn_framework.save_model m l il o t p fs !! (p +:+ ext)
         = written m l il o t p ext) /\
    (forall ext, ext ∈ [".attr"; "_backup.json"; "_backup.h5"; "_backup.attr"] ->
       cnn_framework.save_model m l il o t p fs !! (p +:+ ext)
         = fs !! (p +:+ ext)).

(** *** The events of a training run *)

Section Vocabulary.
Import cnn_framework util Predictor.
Context `{F : Framework} `{U : Metrics} `{P : Power}.

Definition extend (evs : list event) (s : state) : state :=
  {| model := model s; out_dir := out_dir s; y_mean := y_mean s;
     y_std := y_std s; files := files s; journal := journal s ++ evs |}.

Definition metric_calls (m : Model) (x : array2) (y : array1) : list event :=
  let y_pred := flatten (model_predict m x) in
  [MetricCall RMSE y y_pred; MetricCall MAE y y_pred].

Definition rescaled (sd : float) (m : Model) (x : array2) (y : array1)
    : float * float :=
  let y_pred := flatten (model_predict m x) in
  ((pow sd 2 * calculate_rmse y y_pred)%float,
   (pow sd 2 * calculate_mae y y_pred)%float).

(** The model that the trainer returns for a call. *)
Definition trained (c : train_call) : Model :=
  let '(m', _, _, _, _) :=
    train_model (tc_model c) (tc_x_train c) (tc_y_train c)
      (tc_x_inner_val c) (tc_y_inner_val c) (tc_x_test c) (tc_y_test c)
      (tc_x_outer_val c) (tc_y_outer_val c) (tc_settings c) in
  m'.

(** A subset that is evaluated only if it has elements: the metric calls
    made for it and the two values reported for it. *)
Definition guarded (m : Model) (sd : float) (x : array2) (y : array1)
    : list event * (float * float) :=
  if Py.truth (size x) then (metric_calls m x y, rescaled sd m x y)
  else ([], (NaN, NaN)).

(** What [kfcv_train] does in one fold, after the trainer has returned,
    up to the logging of the final statistics. *)
Definition fold_report (c : train_call) (sd : float)
    (x_outer_val : array2) (y_outer_val : array1) : list event :=
  let m := trained c in
  let inner_val := guarded m sd (tc_x_inner_val c) (tc_y_inner_val c) in
  let test := guarded m sd (tc_x_test c) (tc_y_test c) in
  metric_calls m (tc_x_train c) (tc_y_train c)
  ++ fst inner_val
  ++ metric_calls m x_outer_val y_outer_val
  ++ fst test
  ++ [FinalStatistics
        [("Train", rescaled sd m (tc_x_train c) (tc_y_train c));
         ("Inner val", snd inner_val);
         ("Outer val", rescaled sd m x_outer_val y_outer_val);
         ("Test", snd test)]].

(** The same for [full_train], which has no outer validation set. *)
Definition full_report (c : train_call) (sd : float) : list event :=
  let m := trained c in
  let inner_val := guarded m sd (tc_x_inner_val c) (tc_y_inner_val c) in
  let test := guarded m sd (tc_x_test c) (tc_y_test c) in
  metric_calls m (tc_x_train c) (tc_y_train c)
  ++ fst inner_val
  ++ fst test
  ++ [FinalStatistics
        [("Train", rescaled sd m (tc_x_train c) (tc_y_train c));
         ("Inner val", snd inner_val);
         ("Test", snd test)]].

(** The statistics of the training labels of a fold. *)
Definition fold_statistics (folded_xs : list array2) (folded_ys : list array1)
    (train_ratio : Py.num) (fold : Z) : float * float :=
  let '(_, _, _, y_train, _, _) :=
    prepare_data_one_fold folded_xs folded_ys fold 4 train_ratio in
  (mean y_train, std y_train).

(** Labels standardized with the statistics of a fold. *)
Definition fold_standardized (folded_xs : list array2) (folded_ys : list array1)
    (train_ratio : Py.num) (fold : Z) (y : array1) : array1 :=
  let '(mu, sd) := fold_statistics folded_xs folded_ys train_ratio fold in
  sub_div mu sd y.

(** The call of the trainer in a fold. *)
Definition fold_call (m : option Model) (folded_xs : list array2)
    (folded_ys : list array1) (train_ratio : Py.num) (x_test : array2)
    (train_settings : Settings) (fold : Z) (y_test : array1) : train_call :=
  let '(x_train, x_inner_val, x_outer_val, y_train, y_inner_val, y_outer_val) :=
    prepare_data_one_fold folded_xs folded_ys fold 4 train_ratio in
  let std_ := fold_standardized folded_xs folded_ys train_ratio fold in
  {| tc_model := m; tc_x_train := x_train; tc_y_train := std_ y_train;
     tc_x_inner_val := x_inner_val; tc_y_inner_val := std_ y_inner_val;
     tc_x_test := x_test; tc_y_test := std_ y_test;
     tc_x_outer_val := Some x_outer_val;
     tc_y_outer_val := Some (std_ y_outer_val);
     tc_settings := train_settings |}.

(** The events of a fold. *)
Definition fold_events (m : option Model) (folded_xs : list array2)
    (folded_ys : list array1) (train_ratio : Py.num) (x_test : array2)
    (train_settings : Settings) (fold : Z) (y_test : array1) : list event :=
  let '(_, _, x_outer_val, _, _, y_outer_val) :=
    prepare_data_one_fold folded_xs folded_ys fold 4 train_ratio in
  let c := fold_call m folded_xs folded_ys train_ratio x_test train_settings
             fold y_test in
  let sd := snd (fold_statistics folded_xs folded_ys train_ratio fold) in
  TrainCall c
  :: fold_report c sd x_outer_val
       (fold_standardized folded_xs folded_ys train_ratio fold y_outer_val).

(** The events of the loop over a list of folds, from the test labels that
    enter it: each fold standardizes the labels it is handed and hands them
    on; [m] is the model that the object holds when the fold starts. *)
Inductive folds_events (folded_xs : list array2) (folded_ys : list array1)
    (train_ratio : Py.num) (x_test : array2) (train_settings : Settings)
    : list Z -> array1 -> list event -> Prop :=
| folds_done y_test :
    folds_events folded_xs folded_ys train_ratio x_test train_settings
      [] y_test []
| folds_next m fold rest y_test evs :
    folds_events folded_xs folded_ys train_ratio x_test train_settings
      rest (fold_standardized folded_xs folded_ys train_ratio fold y_test) evs ->
    folds_events folded_xs folded_ys train_ratio x_test train_settings
      (fold :: rest) y_test
      (fold_events m folded_xs folded_ys train_ratio x_test train_settings
         fold y_test ++ evs).

(** The test labels handed to the successive folds. *)
Fixpoint restandardized (folded_xs : list array2) (folded_ys : list array1)
    (train_ratio : Py.num) (folds : list Z) (y_test : array1) : list array1 :=
  match folds with
  | [] => []
  | fold :: rest =>
      let y_test' :=
        fold_standardized folded_xs folded_ys train_ratio fold y_test in
      y_test' :: restandardized folded_xs folded_ys train_ratio rest y_test'
  end.

(** The four losses that the trainer returns for a call. *)
Definition losses (c : train_call) : list float * list float * float * float :=
  let '(_, loss, inner_val_loss, mean_outer_val_loss, mean_test_loss) :=
    train_model (tc_model c) (tc_x_train c) (tc_y_train c)
      (tc_x_inner_val c) (tc_y_inner_val c) (tc_x_test c) (tc_y_test c)
      (tc_x_outer_val c) (tc_y_outer_val c) (tc_settings c) in
  (loss, inner_val_loss, mean_outer_val_loss, mean_test_loss).

(** The files after [save_model(p, ...)] on a predictor that holds the model
    [m] and the statistics [st]. *)
Definition saved (m : option Model) (st : option float * option float)
    (ls : list float * list float * float * float) (p : string)
    (fs : gmap string (content Blob)) : gmap string (content Blob) :=
  let '(loss, inner_val_loss, mean_outer_val_loss, mean_test_loss) := ls in
  pickle_dump (p +:+ ".attr") st
    (cnn_framework.save_model m loss inner_val_loss mean_outer_val_loss
       mean_test_loss p
       (backed_up (p +:+ ".attr") (p +:+ "_backup.attr")
          (backed_up (p +:+ ".h5") (p +:+ "_backup.h5")
             (backed_up (p +:+ ".json") (p +:+ "_backup.json") fs)))).

(** The path of the artifact of a fold under the output directory [d]. *)
Definition fold_path (d : string) (fold : Z) : string :=
  Py.os_path_join d ("model_fold_" +:+ Py.format_int fold).

(** The predictor after a fold that ran to its end, with the output
    directory [d]. *)
Definition after_fold (d : string) (pretrained_weights : option string)
    (folded_xs : list array2) (folded_ys : list array1) (train_ratio : Py.num)
    (x_test : array2) (train_settings : Settings) (fold : Z) (y_test : array1)
    (s : state) : state :=
  let c := fold_call (model s) folded_xs folded_ys train_ratio x_test
             train_settings fold y_test in
  let st := fold_statistics folded_xs folded_ys train_ratio fold in
  let fs := saved (Some (trained c)) (Some (fst st), Some (snd st)) (losses c)
              (fold_path d fold) (files s) in
  {| model :=
       Some (match pretrained_weights with
             | Some w => model_load_weights (trained c) w fs
             | None => cnn_framework.reset_model (Some (trained c))
             end);
     out_dir := out_dir s;
     y_mean := Some (fst st);
     y_std := Some (snd st);
     files := fs;
     journal := journal s
                ++ fold_events (model s) folded_xs folded_ys train_ratio x_test
                     train_settings fold y_test |}.

(** The predictor after a fold that failed for want of an output directory:
    trained, evaluated and logged, nothing saved. *)
Definition after_unsaved_fold (folded_xs : list array2)
    (folded_ys : list array1) (train_ratio : Py.num) (x_test : array2)
    (train_settings : Settings) (fold : Z) (y_test : array1) (s : state)
    : state :=
  let c := fold_call (model s) folded_xs folded_ys train_ratio x_test
             train_settings fold y_test in
  let st := fold_statistics folded_xs folded_ys train_ratio fold in
  {| model := Some (trained c);
     out_dir := out_dir s;
     y_mean := Some (fst st);
     y_std := Some (snd st);
     files := files s;
     journal := journal s
                ++ fold_events (model s) folded_xs folded_ys train_ratio x_test
                     train_settings fold y_test |}.

(** The predictor after the loop over a list of folds. *)
Fixpoint after_folds (d : string) (pretrained_weights : option string)
    (folded_xs : list array2) (folded_ys : list array1) (train_ratio : Py.num)
    (x_test : array2) (train_settings : Settings) (folds : list Z)
    (y_test : array1) (s : state) : state :=
  match folds with
  | [] => s
  | fold :: rest =>
      after_folds d pretrained_weights folded_xs folded_ys train_ratio x_test
        train_settings rest
        (fold_standardized folded_xs folded_ys train_ratio fold y_test)
        (after_fold d pretrained_weights folded_xs folded_ys train_ratio x_test
           train_settings fold y_test s)
  end.

(** The model that the end of a fold leaves in the object, in terms of the
    call of the trainer in that fold: the reset of the trained model, or the
    trained model with the pretrained weights loaded from some files. *)
Definition handed_on (pretrained_weights : option string) (c : train_call)
    (m : option Model) : Prop :=
  match pretrained_weights with
  | None => m = Some (cnn_framework.reset_model (Some (trained c)))
  | Some w => exists fs, m = Some (model_load_weights (trained c) w fs)
  end.

(** What [split_test] writes for a list of names: each name and a newline. *)
Definition lines_text (names : list string) : string :=
  foldr (fun n r => n +:+ Py.newline +:+ r) "" names.

(** The predictor after [split_test]: the call of the splitter is journaled,
    and with [save_names] and an output directory the two files of names are
    written, the test names first. *)
Definition after_split (x : array2) (y : array1) (names : list string)
    (ratio : Py.num) (save_names : bool) (s : state) : state :=
  let '(_, _, _, _, names_test, names_train) :=
    split_test_from_train_and_val x y names 7 ratio in
  let s' := record (SplitCall 7 ratio) s in
  match save_names, out_dir s with
  | true, Some d =>
      set_files
        (<[Py.os_path_join d "names_train.txt" := Text (lines_text names_train)]>
           (<[Py.os_path_join d "names_test.txt" := Text (lines_text names_test)]>
              (files s))) s'
  | _, _ => s'
  end.

(** The call of the trainer in [full_train]. *)
Definition full_call (m : option Model) (x : array2) (y : array1)
    (names : list string) (test_split train_ratio : Py.num)
    (test_data : option (array2 * array1)) (train_settings : Settings)
    : train_call :=
  let ratio :=
    match test_data with Some _ => Py.Float 0 | None => test_split end in
  let '(x_test, y_test, x_train, y_train, _, _) :=
    split_test_from_train_and_val x y names 7 ratio in
  let '(x_test, y_test) :=
    match test_data with Some td => td | None => (x_test, y_test) end in
  let '(x_train, x_inner_val, y_train, y_inner_val) :=
    split_inner_val_from_train_data x_train y_train 77 train_ratio in
  let mu := mean y_train in
  let sd := std y_train in
  {| tc_model := m; tc_x_train := x_train;
     tc_y_train := sub_div mu sd y_train;
     tc_x_inner_val := x_inner_val;
     tc_y_inner_val := sub_div mu sd y_inner_val;
     tc_x_test := x_test; tc_y_test := sub_div mu sd y_test;
     tc_x_outer_val := None; tc_y_outer_val := None;
     tc_settings := train_settings |}.

(** The statistics that [full_train] stores: those of the training labels
    that are left once the test set and the inner validation set are taken
    out. *)
Definition full_statistics (x : array2) (y : array1) (names : list string)
    (test_split train_ratio : Py.num) (test_data : option (array2 * array1))
    : float * float :=
  let ratio :=
    match test_data with Some _ => Py.Float 0 | None => test_split end in
  let '(_, _, x_train, y_train, _, _) :=
    split_test_from_train_and_val x y names 7 ratio in
  let '(_, _, y_train, _) :=
    split_inner_val_from_train_data x_train y_train 77 train_ratio in
  (mean y_train, std y_train).

Definition train_calls (j : list event) : list train_call :=
  omap (fun e => match e with TrainCall c => Some c | _ => None end) j.

Definition split_calls (j : list event) : list (Z * Py.num) :=
  omap (fun e => match e with SplitCall seed r => Some (seed, r) | _ => None end) j.

End Vocabulary.

End Spec.

(** * Facts *)

(** ** Floating point: not-a-number is absorbing for the product *)

Lemma SFeqb_irrefl_nan f :
  SpecFloat.SFeqb f f = false -> f = SpecFloat.S754_nan.
Proof.
  unfold SpecFloat.SFeqb.
  destruct f as [sg|sg| |sg m e]; simpl; try discriminate; auto.
  - destruct sg; discriminate.
  - rewrite Z.compare_refl.
    change (PosDef.Pos.compare_cont Eq m m) with (Pos.compare m m).
    rewrite Pos.compare_refl. destruct sg; simpl; discriminate.
Qed.

Lemma isnan_spec v : Numpy.isnan v = true <-> Prim2SF v = SpecFloat.S754_nan.
Proof.
  unfold Numpy.isnan, is_nan. rewrite FloatAxioms.eqb_spec. split.
  - intros H. apply SFeqb_irrefl_nan. now destruct (SpecFloat.SFeqb _ _).
  - intros ->. reflexivity.
Qed.

Lemma isnan_mul_r a r :
  Numpy.isnan r = true -> Numpy.isnan (a * r)%float = true.
Proof.
  rewrite !isnan_spec, FloatAxioms.mul_spec. intros ->.
  destruct (Prim2SF a); reflexivity.
Qed.

(** ** numpy's sum

    The depth that [sum] gives to [pairwise_sum] is enough: more gives the
    same, so that [pairwise_sum] satisfies the equations of numpy's
    recursive function. *)

Lemma pairwise_sum_depth (d d' : nat) (a : Numpy.array1) :
  (length a <= d + 128)%nat -> (length a <= d' + 128)%nat ->
  Numpy.pairwise_sum d a = Numpy.pairwise_sum d' a.
Proof.
  revert d' a. induction d as [|d IH]; intros d' a Hd Hd'.
  - destruct d'; cbn [Numpy.pairwise_sum]; [reflexivity|].
    rewrite (proj2 (Nat.ltb_ge _ _)) by lia. reflexivity.
  - destruct d' as [|d']; cbn [Numpy.pairwise_sum].
    + rewrite (proj2 (Nat.ltb_ge _ _)) by lia. reflexivity.
    + destruct (128 <? length a)%nat eqn:E; [|reflexivity].
      apply Nat.ltb_lt in E. cbv zeta.
      pose proof (Nat.div_mod_eq (length a) 2) as H2.
      pose proof (Nat.mod_upper_bound (length a) 2 ltac:(lia)) as H2'.
      pose proof (Nat.mod_upper_bound (length a / 2) 8 ltac:(lia)) as H8.
      f_equal; apply IH; rewrite ?length_take, ?length_drop; lia.
Qed.

Lemma pairwise_sum_block (a : Numpy.array1) :
  (length a <= 128)%nat ->
  Numpy.pairwise_sum (length a) a = Numpy.pairwise_block a.
Proof.
  intros H. rewrite (pairwise_sum_depth _ 0) by lia. reflexivity.
Qed.

Lemma pairwise_sum_cut (a : Numpy.array1) :
  (128 < length a)%nat ->
  let n2 := (length a / 2 - (length a / 2) mod 8)%nat in
  Numpy.pairwise_sum (length a) a
  = (Numpy.pairwise_sum (length (take n2 a)) (take n2 a)
     + Numpy.pairwise_sum (length (drop n2 a)) (drop n2 a))%float.
Proof.
  intros H. cbv zeta. destruct (length a) as [|n] eqn:E; [lia|].
  cbn [Numpy.pairwise_sum]. rewrite E, (proj2 (Nat.ltb_lt _ _)) by lia.
  cbv zeta.
  pose proof (Nat.div_mod_eq (S n) 2) as H2.
  pose proof (Nat.mod_upper_bound (S n) 2 ltac:(lia)) as H2'.
  pose proof (Nat.mod_upper_bound (S n / 2) 8 ltac:(lia)) as H8.
  f_equal; apply pairwise_sum_depth; rewrite ?length_take, ?length_drop; lia.
Qed.

(** ** [normalize], [predict] and [evaluate] *)

Section Facts.
Import Numpy cnn_framework util Predictor Spec.
Context `{F : Framework} `{U : Metrics} `{P : Power}.

Lemma mean_unfold a : mean a = (sum a / float_of_nat (length a))%float.
Proof. reflexivity. Qed.

Lemma std_unfold a :
  std a =
  PrimFloat.sqrt
    (sum (map (fun v => ((v - mean a) * (v - mean a))%float) a)
       / float_of_nat (length a))%float.
Proof.
  unfold std, var. cbv zeta. rewrite map_map, Nat.sub_0_r. reflexivity.
Qed.

Lemma normalize_run y_train other_ys s :
  normalize y_train other_ys s =
  (Ok (sub_div (mean y_train) (std y_train) y_train,
       map (sub_div (mean y_train) (std y_train)) other_ys),
   set_y_std (Some (std y_train)) (set_y_mean (Some (mean y_train)) s)).
Proof. reflexivity. Qed.

Lemma predict_run x norm s m :
  model s = Some m ->
  predict x norm s =
    if norm then (Ok (flatten (model_predict m x)), s)
    else match y_mean s, y_std s with
         | Some mu, Some sd =>
             (Ok (mul_add sd mu (flatten (model_predict m x))), s)
         | _, _ => (Raise missing_statistics, s)
         end.
Proof.
  intros Hm. unfold predict, bind, gets, ret, raise. rewrite Hm.
  destruct norm; [reflexivity|].
  destruct (y_mean s), (y_std s); reflexivity.
Qed.

(** [evaluate] once [predict] has returned. *)
Lemma evaluate_run x y norm s y_pred :
  predict x norm s = (Ok y_pred, s) ->
  evaluate x y norm s =
    let s' := record (MetricCall MAE y y_pred)
                (record (MetricCall RMSE y y_pred) s) in
    if norm then
      match y_std s with
      | Some sd => (Ok ((pow sd 2 * calculate_rmse y y_pred)%float,
                        (pow sd 2 * calculate_mae y y_pred)%float), s')
      | None => (Raise (Py.TypeError "NoneType ** float"), s')
      end
    else (Ok (calculate_rmse y y_pred, calculate_mae y y_pred), s').
Proof.
  intros Hp. unfold evaluate, bind at 1. rewrite Hp.
  destruct norm; [|reflexivity].
  cbv zeta. destruct (y_std s) eqn:Hs;
    unfold call_metric, bind, modify, gets, ret, raise;
    cbv beta iota;
    change (y_std (record _ (record _ s))) with (y_std s);
    rewrite Hs; reflexivity.
Qed.

(** [normalize] on labels of shape [(N, d)] whose other arrays have [d]
    columns as well. *)
Lemma zip_with_seq {A B C} (f : A -> B -> C) (g : nat -> B) (r : list A) :
  forall k d, length r = d ->
  zip_with f r (map g (seq k d)) = imap (fun j v => f v (g (k + j)%nat)) r.
Proof.
  induction r as [|v r IH]; intros k d Hd; [reflexivity|].
  destruct d as [|d]; [discriminate|]. injection Hd as Hd.
  cbn [seq map zip_with imap]. rewrite Nat.add_0_r. f_equal.
  rewrite (IH (S k) d Hd). apply imap_ext. intros j w _. cbn.
  rewrite Nat.add_succ_r. reflexivity.
Qed.

Lemma zip_map_seq {A B} (f : nat -> A) (g : nat -> B) k d :
  zip (map f (seq k d)) (map g (seq k d)) = map (fun j => (f j, g j)) (seq k d).
Proof.
  revert k. induction d as [|d IH]; intros k; [reflexivity|].
  cbn. rewrite IH. reflexivity.
Qed.

Lemma sub_div0_shaped (mu sd : nat -> float) (d : nat) (y : matrix) :
  shaped y -> cols y = d ->
  sub_div0 (map mu (seq 0 d)) (map sd (seq 0 d)) y
  = Some {| cols := d;
            rows := map (imap (fun j v => ((v - mu j) / sd j)%float))
                        (rows y) |}.
Proof.
  intros Hs Hc. unfold sub_div0. cbv zeta.
  rewrite length_map, length_seq, decide_True by exact Hc.
  do 2 f_equal. apply map_ext_Forall. unfold shaped in Hs. rewrite Hc in Hs.
  eapply Forall_impl; [exact Hs|]. intros r Hr. cbv beta.
  rewrite zip_map_seq, (zip_with_seq _ _ r 0 d Hr). reflexivity.
Qed.

Lemma standardized_2d_shaped (mu sd : nat -> float) (d : nat)
    (ys : list matrix) :
  Forall (fun y => shaped y /\ cols y = d) ys ->
  standardized_2d (map mu (seq 0 d)) (map sd (seq 0 d)) ys
  = Some (map (fun y =>
                 {| cols := d;
                    rows := map (imap (fun j v => ((v - mu j) / sd j)%float))
                                (rows y) |}) ys).
Proof.
  induction 1 as [|y ys [Hs Hc] _ IH]; [reflexivity|].
  cbn [standardized_2d map]. rewrite (sub_div0_shaped _ _ _ _ Hs Hc), IH.
  reflexivity.
Qed.

Lemma std0_unfold (a : matrix) :
  std0 a =
  map (fun j =>
         let mu :=
           (sum_rows (cols a) (column a j)
              / float_of_nat (length (rows a)))%float in
         PrimFloat.sqrt
           (sum_rows (cols a)
              (map (fun v => ((v - mu) * (v - mu))%float) (column a j))
            / float_of_nat (length (rows a))))%float
      (seq 0 (cols a)).
Proof.
  unfold std0, var0. rewrite map_map, Nat.sub_0_r. reflexivity.
Qed.

(** C1. [normalize(y_train, *other_ys)] stores the population mean and the
    population standard deviation of [y_train] along its rows (numpy's sum
    over the number of rows; the square root of numpy's sum of the squared
    deviations over the number of rows), for whatever other arrays are
    passed along, and returns [y_train] and every other array standardized
    with these two statistics; nothing else of the object changes.  For
    one-dimensional labels the statistics are two scalars.  For labels of
    shape [(N, d)] they are two vectors, with the mean and the deviation of
    column [j] at index [j], and entry [j] of every row of [y_train] and of
    every other array with [d] columns is standardized with the statistics
    of column [j]. *)
Theorem normalize_train_statistics :
  (forall (y_train : array1) (other_ys : list array1) (s : state),
     let n := float_of_nat (length y_train) in
     let mu := (sum y_train / n)%float in
     let sd :=
       PrimFloat.sqrt
         (sum (map (fun v => ((v - mu) * (v - mu))%float) y_train) / n)%float in
     let standardized := map (fun v => ((v - mu) / sd)%float) in
     let s' := snd (normalize y_train other_ys s) in
     y_mean s' = Some mu /\
     y_std s' = Some sd /\
     fst (normalize y_train other_ys s)
       = Ok (standardized y_train, map standardized other_ys) /\
     (forall other_ys' : list array1,
         y_mean (snd (normalize y_train other_ys' s)) = y_mean s' /\
         y_std (snd (normalize y_train other_ys' s)) = y_std s') /\
     model s' = model s /\ out_dir s' = out_dir s /\
     files s' = files s /\ journal s' = journal s) /\
  (forall (y_train : matrix) (other_ys : list matrix) (s : object array1),
     shaped y_train ->
     Forall (fun y => shaped y /\ cols y = cols y_train) other_ys ->
     let d := cols y_train in
     let n := float_of_nat (length (rows y_train)) in
     let mu j := (sum_rows d (column y_train j) / n)%float in
     let sd j :=
       PrimFloat.sqrt
         (sum_rows d
            (map (fun v => ((v - mu j) * (v - mu j))%float) (column y_train j))
          / n)%float in
     let standardized (y : matrix) :=
       {| cols := d;
          rows := map (imap (fun j v => ((v - mu j) / sd j)%float)) (rows y) |} in
     let s' := snd (normalize_2d y_train other_ys s) in
     y_mean s' = Some (map mu (seq 0 d)) /\
     y_std s' = Some (map sd (seq 0 d)) /\
     fst (normalize_2d y_train other_ys s)
       = Ok (standardized y_train, map standardized other_ys) /\
     (forall other_ys' : list matrix,
         y_mean (snd (normalize_2d y_train other_ys' s)) = y_mean s' /\
         y_std (snd (normalize_2d y_train other_ys' s)) = y_std s') /\
     model s' = model s /\ out_dir s' = out_dir s /\
     files s' = files s /\ journal s' = journal s).
Proof.
  split.
  - intros y_train other_ys s. cbv zeta.
    repeat split; intros; rewrite ?normalize_run; cbn [fst snd];
      rewrite ?std_unfold, ?mean_unfold; reflexivity.
  - intros y_train other_ys s Hs Ho. cbv zeta.
    assert (Hrun : forall ys,
              snd (normalize_2d y_train ys s)
              = set_y_std (Some (std0 y_train))
                  (set_y_mean (Some (mean0 y_train)) s)).
    { intros ys. unfold normalize_2d, bind, modify, ret, raise. cbv zeta.
      cbn [fst snd].
      destruct (sub_div0 _ _ y_train); [|reflexivity].
      destruct (standardized_2d _ _ ys); reflexivity. }
    assert (Hfst : fst (normalize_2d y_train other_ys s)
              = match sub_div0 (mean0 y_train) (std0 y_train) y_train with
                | Some y' =>
                    match standardized_2d (mean0 y_train) (std0 y_train)
                            other_ys with
                    | Some ys' => Ok (y', ys')
                    | None => Raise (Py.ValueError
                                "operands could not be broadcast together")
                    end
                | None => Raise (Py.ValueError
                            "operands could not be broadcast together")
                end).
    { unfold normalize_2d, bind, modify, ret, raise. cbv zeta. cbn [fst snd].
      destruct (sub_div0 _ _ y_train); [|reflexivity].
      destruct (standardized_2d _ _ other_ys); reflexivity. }
    split; [rewrite Hrun; reflexivity|].
    split; [rewrite Hrun; cbn [y_std set_y_std]; rewrite std0_unfold;
            reflexivity|].
    split.
    { rewrite Hfst, std0_unfold. unfold mean0.
      rewrite (sub_div0_shaped _ _ _ _ Hs eq_refl).
      rewrite (standardized_2d_shaped _ _ _ _ Ho). reflexivity. }
    split; [intros ys; rewrite !Hrun; split; reflexivity|].
    rewrite Hrun. repeat split; reflexivity.
Qed.

(** C2. On a predictor with a model and [y_std] set, [evaluate(x, y,
    norm=True)] returns the two metrics between [y] and the flattened
    prediction, each multiplied by [y_std ** 2.0], the power of the C
    library at the exponent two; with [norm=False] it returns
    the two metrics between [y] and what [predict] returns as they are,
    that is, with [y_mean] set as well, between [y] and the denormalized
    flattened prediction. *)
Theorem evaluate_rescales (x : array2) (y : array1) (s : state)
    (m : Model) (sd : float) :
  model s = Some m ->
  y_std s = Some sd ->
  let y_norm := flatten (model_predict m x) in
  fst (evaluate x y true s)
    = Ok ((pow sd 2 * calculate_rmse y y_norm)%float,
          (pow sd 2 * calculate_mae y y_norm)%float) /\
  (forall y_pred, fst (predict x false s) = Ok y_pred ->
     fst (evaluate x y false s)
       = Ok (calculate_rmse y y_pred, calculate_mae y y_pred)) /\
  (forall mu, y_mean s = Some mu ->
     let y_pred := mul_add sd mu y_norm in
     fst (evaluate x y false s)
       = Ok (calculate_rmse y y_pred, calculate_mae y y_pred)).
Proof.
  intros Hm Hs. cbv zeta. split; [|split].
  - erewrite evaluate_run by (rewrite (predict_run _ _ _ _ Hm); reflexivity).
    cbv zeta. rewrite Hs. reflexivity.
  - intros y_pred Hp.
    assert (Hrun : predict x false s = (Ok y_pred, s)).
    { revert Hp. rewrite (predict_run _ _ _ _ Hm), Hs.
      destruct (y_mean s); cbn [fst]; intros [= <-]; reflexivity. }
    rewrite (evaluate_run _ _ _ _ _ Hrun). reflexivity.
  - intros mu Hmu.
    erewrite evaluate_run
      by (rewrite (predict_run _ _ _ _ Hm), Hmu, Hs; reflexivity).
    reflexivity.
Qed.

(** C5 (amended). [predict(x, norm=False)] runs the model first.  On a
    predictor without a model, as [__init__] leaves it, it raises the
    attribute error of [None], whether the statistics are set or not.  On a
    predictor with a model it raises the usage error when [y_mean] or
    [y_std] is unset, and otherwise returns the flattened model output times
    [y_std] plus [y_mean]; there it raises if and only if a statistic is
    unset. *)
Theorem predict_denormalizes (x : array2) (s : state) :
  (model s = None ->
     predict x false s = (Raise (Py.AttributeError "predict"), s)) /\
  (forall m, model s = Some m ->
     (y_mean s = None \/ y_std s = None ->
        predict x false s = (Raise missing_statistics, s)) /\
     (forall mu sd, y_mean s = Some mu -> y_std s = Some sd ->
        predict x false s
          = (Ok (map (fun v => (v * sd + mu)%float)
                   (flatten (model_predict m x))), s)) /\
     ((exists e, fst (predict x false s) = Raise e)
        <-> (y_mean s = None \/ y_std s = None))).
Proof.
  split.
  { intros Hm. unfold predict, bind, gets, raise. rewrite Hm. reflexivity. }
  intros m Hm. rewrite (predict_run _ _ _ _ Hm).
  destruct (y_mean s) as [mu|], (y_std s) as [sd|]; cbn [fst].
  - (* both set *)
    split; [intros [?|?]; discriminate|].
    split; [intros ? ? [= <-] [= <-]; reflexivity|].
    split; [intros [e He]; discriminate | intros [?|?]; discriminate].
  - (* y_std unset *)
    split; [reflexivity|]. split; [intros ? ? _ ?; discriminate|].
    split; eauto.
  - (* y_mean unset *)
    split; [reflexivity|]. split; [intros ? ? ?; discriminate|].
    split; eauto.
  - (* both unset *)
    split; [reflexivity|]. split; [intros ? ? ?; discriminate|].
    split; eauto.
Qed.

(** C6. On a predictor with a model and both statistics set,
    [predict(x, norm=False)] is exactly [predict(x, norm=True) * y_std +
    y_mean]; in particular right after [normalize], with the statistics of
    its training labels. *)
Theorem predict_round_trip (x : array2) (s : state) (m : Model)
    (mu sd : float) :
  model s = Some m ->
  y_mean s = Some mu ->
  y_std s = Some sd ->
  (exists y_norm,
      fst (predict x true s) = Ok y_norm /\
      fst (predict x false s)
        = Ok (map (fun v => (v * sd + mu)%float) y_norm)) /\
  (forall y_train other_ys,
      let s' := snd (normalize y_train other_ys s) in
      exists y_norm,
        fst (predict x true s') = Ok y_norm /\
        fst (predict x false s')
          = Ok (map (fun v => (v * std y_train + mean y_train)%float) y_norm)).
Proof.
  intros Hm Hmu Hsd. split.
  - exists (flatten (model_predict m x)).
    rewrite !(predict_run _ _ _ _ Hm), Hmu, Hsd. split; reflexivity.
  - intros y_train other_ys. cbv zeta.
    exists (flatten (model_predict m x)). rewrite normalize_run. cbn [snd].
    rewrite !(predict_run _ _ _ m) by exact Hm. split; reflexivity.
Qed.

(** C10. [predict(x, norm=True)] never raises the usage error; on a
    predictor with a model it returns the flattened model output whatever
    the statistics are.  So with [y_std] unset [evaluate(x, y, norm=True)]
    calls both metric functions and then fails at [y_std ** 2.0] with a
    type error, not with the usage error. *)
Theorem predict_norm_skips_check (x : array2) (y : array1) (s : state) :
  fst (predict x true s) <> Raise missing_statistics /\
  (forall m, model s = Some m ->
     predict x true s = (Ok (flatten (model_predict m x)), s) /\
     (y_std s = None ->
        let y_pred := flatten (model_predict m x) in
        evaluate x y true s
          = (Raise (Py.TypeError "NoneType ** float"),
             record (MetricCall MAE y y_pred)
               (record (MetricCall RMSE y y_pred) s)))).
Proof.
  split.
  - unfold predict, bind, gets, ret, raise.
    destruct (model s); cbn; discriminate.
  - intros m Hm. split; [apply (predict_run _ true _ _ Hm)|].
    intros Hs. cbv zeta.
    erewrite evaluate_run by (apply (predict_run _ true _ _ Hm)).
    cbv zeta. rewrite Hs. reflexivity.
Qed.


End Facts.

(** *** The same facts on the sample framework *)

Section SampleFacts.
Import Numpy cnn_framework util Predictor Spec.
Local Existing Instance Sample.framework.
Local Existing Instance numpy_metrics.
Local Existing Instance Sample.power.

Lemma normalize_train_statistics_witness :
  (let r := normalize Sample.tenths [] Sample.built in
   sum Sample.tenths = 1%float /\
   y_mean (snd r) = Some 0x1.999999999999ap-4%float /\
   y_std (snd r) = Some 0%float /\
   fst r = Ok (repeat NaN 10, [])) /\
  (shaped Sample.y22 /\
   Forall (fun y => shaped y /\ cols y = cols Sample.y22) [Sample.y12]) /\
  (let r := normalize_2d Sample.y22 [Sample.y12] Sample.built_2d in
   y_mean (snd r) = Some [2; 20]%float /\
   y_std (snd r) = Some [1; 10]%float /\
   fst r = Ok ({| cols := 2; rows := [[-1; -1]; [1; 1]]%float |},
               [{| cols := 2; rows := [[0; 0.5]]%float |}])).
Proof.
  assert (H22 : shaped Sample.y22)
    by (repeat constructor).
  assert (H12 : Forall (fun y => shaped y /\ cols y = cols Sample.y22)
                  [Sample.y12])
    by (repeat constructor).
  destruct (normalize_train_statistics (F := Sample.framework)) as [H1 H2].
  destruct (H1 Sample.tenths [] Sample.built) as (Hmu & Hsd & Hr & _).
  destruct (H2 Sample.y22 [Sample.y12] Sample.built_2d H22 H12)
    as (Kmu & Ksd & Kr & _).
  split; [split; [reflexivity|]; split; [exact Hmu|]; split;
          [exact Hsd | exact Hr]|].
  split; [split; [exact H22 | exact H12]|].
  split; [exact Kmu|]. split; [exact Ksd | exact Kr].
Defined.

(** Broadcasting in [normalize] on two-dimensional labels: a single pair of
    statistics is used for every entry of an array with more columns; an
    array whose number of columns is neither that of the statistics nor one
    ends the call with numpy's error, the statistics being assigned. *)
Example normalize_2d_broadcasts :
  fst (normalize_2d {| cols := 1; rows := [[1]; [3]]%float |} [Sample.y12]
         Sample.built_2d)
    = Ok ({| cols := 1; rows := [[-1]; [1]]%float |},
          [{| cols := 2; rows := [[0; 23]]%float |}]) /\
  (let r := normalize_2d Sample.y22 [Sample.y13] Sample.built_2d in
   fst r = Raise (Py.ValueError "operands could not be broadcast together") /\
   y_mean (snd r) = Some [2; 20]%float /\
   y_std (snd r) = Some [1; 10]%float).
Proof. repeat split; reflexivity. Qed.

Lemma evaluate_rescales_witness :
  (model Sample.fitted = Some 1%float /\ y_std Sample.fitted = Some 2%float) /\
  pow 2 2 = 4%float /\
  fst (evaluate Sample.x2 Sample.y_off true Sample.fitted)
    = Ok (4, 4)%float /\
  fst (evaluate Sample.x2 Sample.y_off false Sample.fitted)
    = Ok (rmse Sample.y_off [16; 24], 15)%float.
Proof.
  split; [split; reflexivity|]. split; [reflexivity|].
  destruct (evaluate_rescales Sample.x2 Sample.y_off Sample.fitted 1%float
              2%float eq_refl eq_refl) as (H1 & _ & H3).
  split; [exact H1 | exact (H3 10%float eq_refl)].
Defined.

Lemma predict_denormalizes_witness :
  (model Sample.built = Some 1%float /\ y_mean Sample.built = None) /\
  predict Sample.x2 false Sample.built = (Raise missing_statistics, Sample.built).
Proof.
  split; [split; reflexivity|].
  apply (proj1 (proj2 (predict_denormalizes Sample.x2 Sample.built)
                  1%float eq_refl)).
  left. reflexivity.
Defined.

(** C5 as stated fails on a predictor without a model: with both statistics
    set [predict(x)] raises instead of returning the denormalized output,
    and with none set what it raises is not the usage error. *)
Lemma predict_without_model :
  (model Sample.unbuilt = None /\
   y_mean Sample.unbuilt = Some 10%float /\
   y_std Sample.unbuilt = Some 2%float /\
   predict Sample.x2 false Sample.unbuilt
     = (Raise (Py.AttributeError "predict"), Sample.unbuilt)) /\
  (let s0 := init (Some "out") ∅ in
   y_mean s0 = None /\ y_std s0 = None /\
   fst (predict Sample.x2 false s0) = Raise (Py.AttributeError "predict") /\
   fst (predict Sample.x2 false s0) <> Raise missing_statistics).
Proof.
  split; [repeat split; reflexivity|].
  cbv zeta. repeat split; try reflexivity. discriminate.
Qed.

Lemma predict_round_trip_witness :
  (model Sample.fitted = Some 1%float /\
   y_mean Sample.fitted = Some 10%float /\
   y_std Sample.fitted = Some 2%float) /\
  exists y_norm,
    fst (predict Sample.x2 true Sample.fitted) = Ok y_norm /\
    fst (predict Sample.x2 false Sample.fitted)
      = Ok (map (fun v => (v * 2 + 10)%float) y_norm).
Proof.
  split; [repeat split; reflexivity|].
  exact (proj1 (predict_round_trip Sample.x2 Sample.fitted 1%float 10%float 2%float
                  eq_refl eq_refl eq_refl)).
Defined.

Lemma predict_norm_skips_check_witness :
  (model Sample.built = Some 1%float /\ y_std Sample.built = None) /\
  evaluate Sample.x2 Sample.y2 true Sample.built
    = (Raise (Py.TypeError "NoneType ** float"),
       record (MetricCall MAE Sample.y2 [3; 7]%float)
         (record (MetricCall RMSE Sample.y2 [3; 7]%float) Sample.built)).
Proof.
  split; [split; reflexivity|].
  exact (proj2 (proj2 (predict_norm_skips_check Sample.x2 Sample.y2 Sample.built)
                  1%float eq_refl) eq_refl).
Defined.



End SampleFacts.

Section SaveFacts.
Import Numpy cnn_framework util Predictor Spec.
Context `{F : Framework} `{U : Metrics} `{P : Power}.

(** ** [save_model] *)

Lemma backup_run src dst (k : M state unit) s :
  (e <- os_path_exists src ;;
   (if e then shutil_move src dst else ret tt) ;; k)%py s
  = k (set_files (backed_up src dst (files s)) s).
Proof.
  unfold os_path_exists, shutil_move, bind, gets, ret, modify, raise, backed_up.
  cbn. destruct (files s !! src) as [c|] eqn:E.
  - rewrite bool_decide_eq_true_2 by eauto. cbn. rewrite E. reflexivity.
  - rewrite bool_decide_eq_false_2 by (intros [? ?]; discriminate).
    destruct s; reflexivity.
Qed.

Lemma save_model_run p l il o t s :
  save_model p l il o t s =
  (Ok tt,
   set_files
     (pickle_dump (p +:+ ".attr") (y_mean s, y_std s)
        (cnn_framework.save_model (model s) l il o t p
           (backed_up (p +:+ ".attr") (p +:+ "_backup.attr")
              (backed_up (p +:+ ".h5") (p +:+ "_backup.h5")
                 (backed_up (p +:+ ".json") (p +:+ "_backup.json") (files s))))))
     s).
Proof.
  unfold save_model. cbv zeta. rewrite !backup_run. reflexivity.
Qed.

Lemma lookup_backed_up {V} src dst (fs : gmap string V) q :
  src <> dst ->
  backed_up src dst fs !! q =
    if decide (q = dst) then
      match fs !! src with Some c => Some c | None => fs !! dst end
    else if decide (q = src) then None
    else fs !! q.
Proof.
  intros Hne. unfold backed_up.
  destruct (fs !! src) as [c|] eqn:E.
  - destruct (decide (q = dst)) as [->|Hd]; [apply lookup_insert_eq|].
    rewrite lookup_insert_ne by congruence.
    destruct (decide (q = src)) as [->|Hs]; [apply lookup_delete_eq|].
    apply lookup_delete_ne. congruence.
  - destruct (decide (q = dst)) as [->|Hd]; [reflexivity|].
    destruct (decide (q = src)) as [->|Hs]; [assumption|reflexivity].
Qed.

Lemma path_neq (p a b : string) : a <> b -> p +:+ a <> p +:+ b.
Proof. intros Hab H. apply Hab. exact (String.app_inj p _ _ H). Qed.

Ltac paths := apply path_neq; discriminate.

Ltac pick_path :=
  repeat first
    [ rewrite decide_True by reflexivity
    | rewrite decide_False by paths ].

(** The three backup files after a call, in terms of the files before it. *)
Lemma lookup_backup_after_save p l il o t s ext :
  save_routine_contract ->
  ext ∈ ["json"; "h5"; "attr"] ->
  files (snd (save_model p l il o t s)) !! (p +:+ "_backup." +:+ ext) =
    match files s !! (p +:+ "." +:+ ext) with
    | Some c => Some c
    | None => files s !! (p +:+ "_backup." +:+ ext)
    end.
Proof.
  intros HC Hext. rewrite save_model_run. cbn [snd files set_files].
  unfold pickle_dump.
  destruct (HC (model s) l il o t p
    (backed_up (p +:+ ".attr") (p +:+ "_backup.attr")
       (backed_up (p +:+ ".h5") (p +:+ "_backup.h5")
          (backed_up (p +:+ ".json") (p +:+ "_backup.json") (files s)))))
    as [_ Hframe].
  repeat (apply elem_of_cons in Hext as [->|Hext]);
    [ | | | apply elem_of_nil in Hext; contradiction ];
    (rewrite lookup_insert_ne by paths);
    (rewrite (Hframe _) by (cbn; set_solver));
    rewrite !lookup_backed_up by paths; pick_path; reflexivity.
Qed.

(** The three primary files after a call. *)
Lemma lookup_primary_after_save p l il o t s :
  save_routine_contract ->
  let fs' := files (snd (save_model p l il o t s)) in
  fs' !! (p +:+ ".json") = written (model s) l il o t p ".json" /\
  fs' !! (p +:+ ".h5") = written (model s) l il o t p ".h5" /\
  fs' !! (p +:+ ".attr") = Some (Pickled (y_mean s) (y_std s)).
Proof.
  intros HC. cbv zeta. rewrite save_model_run. cbn [snd files set_files].
  unfold pickle_dump. cbn [fst snd].
  repeat split.
  - rewrite lookup_insert_ne by paths. apply HC. set_solver.
  - rewrite lookup_insert_ne by paths. apply HC. set_solver.
  - apply lookup_insert_eq.
Qed.

(** C7. Provided the framework's save routine writes its own two files and
    leaves the others alone: [save_model(p, ...)] returns; each of [p.json],
    [p.h5], [p.attr] that existed before the call is afterwards found, with
    the content it had, at its [_backup] name, whatever was there before, and
    a backup whose primary did not exist is left as it was; the three
    primaries hold what this call wrote.  So after two calls in succession on
    [p] the three backups hold what the first call wrote, the three primaries
    what the second call wrote, and all six files exist. *)
Theorem save_model_keeps_one_backup (p : string) :
  save_routine_contract ->
  (forall l il o t s,
     let s' := snd (save_model p l il o t s) in
     fst (save_model p l il o t s) = Ok tt /\
     (forall ext, ext ∈ ["json"; "h5"; "attr"] ->
        files s' !! (p +:+ "_backup." +:+ ext) =
          match files s !! (p +:+ "." +:+ ext) with
          | Some c => Some c
          | None => files s !! (p +:+ "_backup." +:+ ext)
          end) /\
     files s' !! (p +:+ ".json") = written (model s) l il o t p ".json" /\
     files s' !! (p +:+ ".h5") = written (model s) l il o t p ".h5" /\
     files s' !! (p +:+ ".attr") = Some (Pickled (y_mean s) (y_std s))) /\
  (forall l1 il1 o1 t1 s1 l2 il2 o2 t2 s2,
     files s2 = files (snd (save_model p l1 il1 o1 t1 s1)) ->
     let s2' := snd (save_model p l2 il2 o2 t2 s2) in
     (files s2' !! (p +:+ "_backup.json")
        = written (model s1) l1 il1 o1 t1 p ".json" /\
      files s2' !! (p +:+ "_backup.h5")
        = written (model s1) l1 il1 o1 t1 p ".h5" /\
      files s2' !! (p +:+ "_backup.attr")
        = Some (Pickled (y_mean s1) (y_std s1))) /\
     (files s2' !! (p +:+ ".json")
        = written (model s2) l2 il2 o2 t2 p ".json" /\
      files s2' !! (p +:+ ".h5")
        = written (model s2) l2 il2 o2 t2 p ".h5" /\
      files s2' !! (p +:+ ".attr")
        = Some (Pickled (y_mean s2) (y_std s2))) /\
     (forall ext, ext ∈ [".json"; ".h5"; ".attr";
                          "_backup.json"; "_backup.h5"; "_backup.attr"] ->
        is_Some (files s2' !! (p +:+ ext)))).
Proof.
  intros HC. split.
  - intros l il o t s. cbv zeta. split; [rewrite save_model_run; reflexivity|].
    split; [intros ext Hext; apply lookup_backup_after_save; assumption|].
    apply lookup_primary_after_save. assumption.
  - intros l1 il1 o1 t1 s1 l2 il2 o2 t2 s2 Hfs. cbv zeta.
    destruct (lookup_primary_after_save p l1 il1 o1 t1 s1 HC) as (Hj1 & Hh1 & Ha1).
    destruct (lookup_primary_after_save p l2 il2 o2 t2 s2 HC) as (Hj2 & Hh2 & Ha2).
    cbv zeta in *. rewrite <- Hfs in Hj1, Hh1, Ha1.
    assert (Hw : forall m l il o t ext, ext ∈ [".json"; ".h5"] ->
                   is_Some (written m l il o t p ext)).
    { intros m l il o t ext Hext. apply (HC m l il o t p ∅ ). assumption. }
    assert (Hb : forall ext c, ext ∈ ["json"; "h5"; "attr"] ->
              files s2 !! (p +:+ "." +:+ ext) = Some c ->
              files (snd (save_model p l2 il2 o2 t2 s2))
                !! (p +:+ "_backup." +:+ ext) = Some c).
    { intros ext c Hext Hc.
      rewrite (lookup_backup_after_save _ _ _ _ _ _ _ HC Hext), Hc. reflexivity. }
    assert (HJ : is_Some (written (model s1) l1 il1 o1 t1 p ".json"))
      by (apply Hw; set_solver).
    assert (HH : is_Some (written (model s1) l1 il1 o1 t1 p ".h5"))
      by (apply Hw; set_solver).
    destruct HJ as [cj Hcj], HH as [ch Hch].
    assert (B1 := Hb "json" cj ltac:(set_solver) ltac:(rewrite <- Hcj; exact Hj1)).
    assert (B2 := Hb "h5" ch ltac:(set_solver) ltac:(rewrite <- Hch; exact Hh1)).
    assert (B3 := Hb "attr" _ ltac:(set_solver) Ha1).
    split; [|split].
    + rewrite Hcj, Hch. repeat split; [exact B1 | exact B2 | exact B3].
    + auto.
    + intros ext Hext.
      repeat (apply elem_of_cons in Hext as [->|Hext]);
        [ | | | | | | apply elem_of_nil in Hext; contradiction ].
      * rewrite Hj2. apply Hw. set_solver.
      * rewrite Hh2. apply Hw. set_solver.
      * rewrite Ha2. eauto.
      * exists cj. exact B1.
      * exists ch. exact B2.
      * eexists. exact B3.
Qed.
(** What [save_model] persists of the statistics, [load_mean_and_std] restores,
    on any predictor. *)
Remark load_mean_and_std_after_save p l il o t s s' :
  save_routine_contract ->
  files s' = files (snd (save_model p l il o t s)) ->
  exists s'',
    load_mean_and_std (p +:+ ".attr") s' = (Ok tt, s'') /\
    y_mean s'' = y_mean s /\ y_std s'' = y_std s.
Proof.
  intros HC Hfs.
  destruct (lookup_primary_after_save p l il o t s HC) as (_ & _ & Ha).
  cbv zeta in Ha. rewrite <- Hfs in Ha.
  unfold load_mean_and_std, bind, gets, pickle_load. rewrite Ha.
  eexists. split; [reflexivity|]. split; reflexivity.
Qed.

End SaveFacts.

Lemma sample_save_contract : Spec.save_routine_contract (H := Sample.framework).
Proof.
  intros m l il o t p fs. unfold Spec.written. cbn. unfold Sample.save. split.
  - intros ext Hext.
    repeat (apply elem_of_cons in Hext as [->|Hext]);
      [ | | apply elem_of_nil in Hext; contradiction ].
    + rewrite !(lookup_insert_ne (<[_ := _]> _) (p +:+ ".h5") (p +:+ ".json"))
        by (apply path_neq; discriminate).
      rewrite !lookup_insert_eq. eauto.
    + rewrite !lookup_insert_eq. eauto.
  - intros ext Hext.
    repeat (apply elem_of_cons in Hext as [->|Hext]);
      [ | | | | apply elem_of_nil in Hext; contradiction ];
      rewrite !lookup_insert_ne by (apply path_neq; discriminate);
      reflexivity.
Qed.

Lemma save_model_keeps_one_backup_witness :
  (Spec.save_routine_contract (H := Sample.framework) /\
   Predictor.files Sample.refitted = Predictor.files Sample.saved_once) /\
  let s2' := snd (Predictor.save_model "out/model" [] [] 0 0 Sample.refitted) in
  Predictor.files s2' !! "out/model_backup.attr"
    = Some (Pickled (Some 10%float) (Some 2%float)) /\
  Predictor.files s2' !! "out/model.attr"
    = Some (Pickled (Some 3%float) (Some 4%float)).
Proof.
  split; [split; [exact sample_save_contract | reflexivity]|].
  destruct (proj2 (save_model_keeps_one_backup "out/model" sample_save_contract)
              [] [] 0%float 0%float Sample.fitted
              [] [] 0%float 0%float Sample.refitted eq_refl)
    as ((_ & _ & Hb) & (_ & _ & Ha) & _).
  split; [exact Hb | exact Ha].
Defined.

(** ** [kfcv_train] and [full_train] *)

Section FoldFacts.
Import Numpy cnn_framework util Predictor Spec.
Context `{F : Framework} `{U : Metrics} `{P : Power}.

Lemma bind_ok {S A B} (c : M S A) (k : A -> M S B) s a s' :
  c s = (Ok a, s') -> bind c k s = k a s'.
Proof. intros H. unfold bind. rewrite H. reflexivity. Qed.

Lemma bind_raise {S A B} (c : M S A) (k : A -> M S B) s e s' :
  c s = (Raise e, s') -> bind c k s = (Raise e, s').
Proof. intros H. unfold bind. rewrite H. reflexivity. Qed.

Lemma evaluate_norm_run x y s m sd :
  model s = Some m -> y_std s = Some sd ->
  evaluate x y true s = (Ok (rescaled sd m x y), extend (metric_calls m x y) s).
Proof.
  intros Hm Hs.
  erewrite evaluate_run by (apply (predict_run _ true _ _ Hm)).
  cbv zeta. rewrite Hs. unfold rescaled, extend, metric_calls, record. cbn.
  rewrite <- app_assoc. reflexivity.
Qed.

Lemma extend_extend evs evs' (s : state) :
  extend evs' (extend evs s) = extend (evs ++ evs') s.
Proof. unfold extend. cbn. rewrite <- app_assoc. reflexivity. Qed.

Lemma record_extend e (s : state) : record e s = extend [e] s.
Proof. reflexivity. Qed.

Lemma guarded_run m sd x y s :
  model s = Some m -> y_std s = Some sd ->
  (if Py.truth (size x) then evaluate x y true else ret (NaN, NaN)) s
  = (Ok (snd (guarded m sd x y)), extend (fst (guarded m sd x y)) s).
Proof.
  intros Hm Hs. unfold guarded. destruct (Py.truth (size x)).
  - apply evaluate_norm_run; assumption.
  - unfold ret, extend. cbn. rewrite app_nil_r. destruct s; reflexivity.
Qed.

Lemma join_out_dir_run name s :
  join_out_dir name s =
    match out_dir s with
    | Some d => (Ok (Py.os_path_join d name), s)
    | None => (Raise (Py.AttributeError "endswith"), s)
    end.
Proof.
  unfold join_out_dir, bind, gets, ret, raise. destruct (out_dir s); reflexivity.
Qed.

Ltac step :=
  erewrite bind_ok
    by first [ apply normalize_run
             | apply evaluate_norm_run; reflexivity
             | apply guarded_run; reflexivity
             | apply save_model_run
             | reflexivity ].

(** One turn of the loop of [kfcv_train]: its events, its outcome, and the
    output directory, which it does not change. *)
Lemma kfcv_fold_run fxs fys tr x_test pw ts fold y_test s :
  let r := kfcv_fold fxs fys tr x_test pw ts fold y_test s in
  journal (snd r)
    = journal s ++ fold_events (model s) fxs fys tr x_test ts fold y_test /\
  out_dir (snd r) = out_dir s /\
  fst r = match out_dir s with
          | Some _ => Ok (fold_standardized fxs fys tr fold y_test)
          | None => Raise (Py.AttributeError "endswith")
          end.
Proof.
  unfold kfcv_fold, fold_events, fold_call, fold_standardized, fold_statistics.
  destruct (prepare_data_one_fold fxs fys fold 4 tr)
    as [[[[[x_train x_inner_val] x_outer_val] y_train] y_inner_val] y_outer_val].
  cbv zeta. cbn [tc_x_outer_val tc_y_outer_val snd].
  step. cbn [map]. step.
  set (mu := mean y_train). set (sd := std y_train).
  unfold fold_report, trained.
  cbn [tc_model tc_x_train tc_y_train tc_x_inner_val tc_y_inner_val tc_x_test
       tc_y_test tc_x_outer_val tc_y_outer_val tc_settings].
  change (model (set_y_std (Some sd) (set_y_mean (Some mu) s))) with (model s).
  destruct (train_model (model s) x_train (sub_div mu sd y_train) x_inner_val
              (sub_div mu sd y_inner_val) x_test (sub_div mu sd y_test)
              (Some x_outer_val) (Some (sub_div mu sd y_outer_val)) ts)
    as [[[[m' loss] il] o] t].
  cbv zeta. do 7 step.
  destruct (out_dir s) as [d|] eqn:Hd.
  - erewrite bind_ok by (rewrite join_out_dir_run; cbn [out_dir extend record set_model set_y_std set_y_mean]; rewrite Hd; reflexivity).
    step.
    destruct pw as [w|].
    + unfold load_weights. step. cbn [model set_files set_model].
      unfold bind, modify, ret. cbn. rewrite <- !app_assoc. auto.
    + unfold reset_model, bind, modify, ret. cbn. rewrite <- !app_assoc. auto.
  - erewrite bind_raise by (rewrite join_out_dir_run; cbn [out_dir extend record set_model set_y_std set_y_mean]; rewrite Hd; reflexivity).
    cbn. rewrite <- !app_assoc. auto.
Qed.

Lemma split_test_run x y names ratio save_names s d :
  out_dir s = Some d ->
  exists s',
    split_test x y names ratio save_names s
      = (Ok (let '(x_test, y_test, x_train, y_train, _, _) :=
               split_test_from_train_and_val x y names 7 ratio in
             (x_test, y_test, x_train, y_train)), s') /\
    journal s' = journal s ++ [SplitCall 7 ratio] /\
    out_dir s' = Some d /\ model s' = model s.
Proof.
  intros Hd. unfold split_test. step.
  destruct (split_test_from_train_and_val x y names 7 ratio)
    as [[[[[x_test y_test] x_train] y_train] names_test] names_train].
  destruct save_names.
  - erewrite bind_ok; [eexists; split; [reflexivity|]|].
    2:{ erewrite bind_ok by (rewrite join_out_dir_run; cbn; rewrite Hd; reflexivity).
        erewrite bind_ok by (rewrite join_out_dir_run; cbn; rewrite Hd; reflexivity).
        unfold write_lines. step. reflexivity. }
    cbn. auto.
  - step. eexists; split; [reflexivity|]. cbn. auto.
Qed.

Lemma for_each_folds fxs fys tr x_test pw ts fl : forall y_test s d,
  out_dir s = Some d ->
  exists s' evs,
    for_each fl (kfcv_fold fxs fys tr x_test pw ts) y_test s
      = (Ok (fold_left (fun y f => fold_standardized fxs fys tr f y) fl y_test),
         s') /\
    out_dir s' = Some d /\
    journal s' = journal s ++ evs /\
    folds_events fxs fys tr x_test ts fl y_test evs.
Proof.
  induction fl as [|f r IH]; intros y_test s d Hd.
  - exists s, []. cbn. rewrite app_nil_r. repeat split; [assumption|constructor].
  - destruct (kfcv_fold_run fxs fys tr x_test pw ts f y_test s) as (Hj & Ho & Hr).
    cbv zeta in *. rewrite Hd in Hr, Ho.
    destruct (kfcv_fold fxs fys tr x_test pw ts f y_test s) as [res s1] eqn:E.
    cbn [fst snd] in *. subst res.
    destruct (IH (fold_standardized fxs fys tr f y_test) s1 d Ho)
      as (s' & evs & Hrun & Ho' & Hj' & Hev).
    exists s', (fold_events (model s) fxs fys tr x_test ts f y_test ++ evs).
    cbn [for_each fold_left]. erewrite bind_ok by exact E.
    rewrite Hrun, Hj', Hj, <- app_assoc.
    repeat split; [assumption|]. constructor. assumption.
Qed.

Lemma kfcv_train_run x y names folds test_split tr test_data save_names pw ts s d :
  out_dir s = Some d ->
  let ratio := match test_data with Some _ => Py.Int 0 | None => test_split end in
  let '(x_test, y_test, x_tv, y_tv, _, _) :=
    split_test_from_train_and_val x y names 7 ratio in
  let '(x_test, y_test) :=
    match test_data with Some td => td | None => (x_test, y_test) end in
  let '(fxs, fys) := prepare_folded_data x_tv y_tv folds 2 in
  exists s' evs,
    kfcv_train x y names folds test_split tr test_data save_names pw ts s
      = (Ok tt, s') /\
    journal s' = journal s ++ SplitCall 7 ratio :: evs /\
    folds_events fxs fys tr x_test ts (Py.range folds) y_test evs.
Proof.
  intros Hd ratio. unfold kfcv_train. fold ratio.
  destruct (split_test_run x y names ratio save_names s d Hd)
    as (s1 & Hrun & Hj & Ho & _).
  destruct (split_test_from_train_and_val x y names 7 ratio)
    as [[[[[x_test y_test] x_tv] y_tv] names_test] names_train].
  erewrite bind_ok by exact Hrun. cbv beta iota.
  destruct (match test_data with Some td => td | None => (x_test, y_test) end)
    as [x_test' y_test'].
  destruct (prepare_folded_data x_tv y_tv folds 2) as [fxs fys].
  destruct (for_each_folds fxs fys tr x_test' pw ts (Py.range folds) y_test' s1 d Ho)
    as (s' & evs & Hloop & _ & Hj' & Hev).
  exists s', evs. erewrite bind_ok by exact Hloop.
  split; [reflexivity|]. split; [|assumption].
  rewrite Hj', Hj, <- app_assoc. reflexivity.
Qed.

Lemma full_train_run x y names test_split tr test_data save_names ts s d :
  out_dir s = Some d ->
  let ratio := match test_data with Some _ => Py.Float 0 | None => test_split end in
  let '(x_test, y_test, x_train, y_train, _, _) :=
    split_test_from_train_and_val x y names 7 ratio in
  let '(x_test, y_test) :=
    match test_data with Some td => td | None => (x_test, y_test) end in
  let '(x_train, x_inner_val, y_train, y_inner_val) :=
    split_inner_val_from_train_data x_train y_train 77 tr in
  let mu := mean y_train in
  let sd := std y_train in
  let c :=
    {| tc_model := model s; tc_x_train := x_train;
       tc_y_train := sub_div mu sd y_train;
       tc_x_inner_val := x_inner_val;
       tc_y_inner_val := sub_div mu sd y_inner_val;
       tc_x_test := x_test; tc_y_test := sub_div mu sd y_test;
       tc_x_outer_val := None; tc_y_outer_val := None;
       tc_settings := ts |} in
  exists s',
    full_train x y names test_split tr test_data save_names ts s = (Ok tt, s') /\
    journal s' = journal s ++ SplitCall 7 ratio :: TrainCall c :: full_report c sd.
Proof.
  intros Hd ratio. unfold full_train. fold ratio.
  destruct (split_test_run x y names ratio save_names s d Hd)
    as (s1 & Hrun & Hj & Ho & Hm).
  destruct (split_test_from_train_and_val x y names 7 ratio)
    as [[[[[x_test y_test] x_tr] y_tr] names_test] names_train].
  erewrite bind_ok by exact Hrun. cbv beta iota.
  destruct (match test_data with Some td => td | None => (x_test, y_test) end)
    as [x_test' y_test'].
  destruct (split_inner_val_from_train_data x_tr y_tr 77 tr)
    as [[[x_train x_inner_val] y_train] y_inner_val].
  cbv zeta. step. cbn [map]. step.
  set (mu := mean y_train). set (sd := std y_train).
  unfold full_report, trained.
  cbn [tc_model tc_x_train tc_y_train tc_x_inner_val tc_y_inner_val tc_x_test
       tc_y_test tc_x_outer_val tc_y_outer_val tc_settings].
  change (model (set_y_std (Some sd) (set_y_mean (Some mu) s1))) with (model s1).
  rewrite Hm.
  destruct (train_model (model s) x_train (sub_div mu sd y_train) x_inner_val
              (sub_div mu sd y_inner_val) x_test' (sub_div mu sd y_test')
              None None ts)
    as [[[[m' loss] il] o] t].
  do 6 step.
  erewrite bind_ok
    by (rewrite join_out_dir_run;
        cbn [out_dir extend record set_model set_y_std set_y_mean];
        rewrite Ho; reflexivity).
  rewrite save_model_run. eexists. split; [reflexivity|].
  cbn. rewrite Hj, <- !app_assoc. reflexivity.
Qed.

(** *** What the events of the folds say about the test labels *)

Lemma fold_call_test m fxs fys tr x_test ts f y_test :
  tc_x_test (fold_call m fxs fys tr x_test ts f y_test) = x_test /\
  tc_y_test (fold_call m fxs fys tr x_test ts f y_test)
    = fold_standardized fxs fys tr f y_test.
Proof.
  unfold fold_call.
  destruct (prepare_data_one_fold fxs fys f 4 tr) as [[[[[? ?] ?] ?] ?] ?].
  split; reflexivity.
Qed.

Lemma fold_events_calls m fxs fys tr x_test ts f y_test :
  train_calls (fold_events m fxs fys tr x_test ts f y_test)
    = [fold_call m fxs fys tr x_test ts f y_test] /\
  split_calls (fold_events m fxs fys tr x_test ts f y_test) = [].
Proof.
  unfold fold_events, fold_call, fold_report, guarded, metric_calls.
  destruct (prepare_data_one_fold fxs fys f 4 tr) as [[[[[? ?] ?] ?] ?] ?].
  cbn [tc_x_outer_val tc_y_outer_val tc_x_inner_val tc_x_test].
  destruct (Py.truth (size _)), (Py.truth (size x_test)); split; reflexivity.
Qed.

Lemma fold_events_test_metrics m fxs fys tr x_test ts f y_test :
  Py.truth (size x_test) = true ->
  let c := fold_call m fxs fys tr x_test ts f y_test in
  let y_pred := flatten (model_predict (trained c) x_test) in
  MetricCall RMSE (tc_y_test c) y_pred
    ∈ fold_events m fxs fys tr x_test ts f y_test /\
  MetricCall MAE (tc_y_test c) y_pred
    ∈ fold_events m fxs fys tr x_test ts f y_test.
Proof.
  intros Hsize. unfold fold_events, fold_call, fold_report, guarded, metric_calls.
  destruct (prepare_data_one_fold fxs fys f 4 tr) as [[[[[? ?] ?] ?] ?] ?].
  cbn [tc_x_outer_val tc_y_outer_val tc_x_inner_val tc_x_test tc_y_test
       tc_y_inner_val tc_x_train tc_y_train].
  rewrite Hsize. cbn [fst snd].
  split; rewrite !elem_of_cons, !elem_of_app, !elem_of_cons; tauto.
Qed.

Lemma folds_events_calls fxs fys tr x_test ts fl y_test evs :
  folds_events fxs fys tr x_test ts fl y_test evs ->
  split_calls evs = [] /\
  length (train_calls evs) = length fl /\
  Forall (fun c => tc_x_test c = x_test) (train_calls evs) /\
  map tc_y_test (train_calls evs) = restandardized fxs fys tr fl y_test /\
  (Py.truth (size x_test) = true ->
   forall c, c ∈ train_calls evs ->
     let y_pred := flatten (model_predict (trained c) x_test) in
     MetricCall RMSE (tc_y_test c) y_pred ∈ evs /\
     MetricCall MAE (tc_y_test c) y_pred ∈ evs).
Proof.
  induction 1 as [y_test|m f r y_test evs _ (IHs & IHl & IHx & IHy & IHm)].
  - split; [reflexivity|]. split; [reflexivity|]. split; [constructor|].
    split; [reflexivity|]. intros _ c0 Hc. cbn in Hc.
    apply elem_of_nil in Hc. contradiction.
  - destruct (fold_events_calls m fxs fys tr x_test ts f y_test) as [Hc Hs].
    destruct (fold_call_test m fxs fys tr x_test ts f y_test) as [Hx Hy].
    unfold train_calls, split_calls in *. rewrite !omap_app, Hc, Hs, IHs.
    cbn [app length map restandardized]. rewrite IHl, IHy, Hy.
    split; [reflexivity|]. split; [reflexivity|].
    split; [constructor; assumption|]. split; [reflexivity|].
    intros Hsize c0 [->|Hin]%elem_of_cons; cbv zeta; rewrite !elem_of_app.
    + destruct (fold_events_test_metrics m fxs fys tr x_test ts f y_test Hsize).
      split; left; assumption.
    + destruct (IHm Hsize c0 Hin). split; right; assumption.
Qed.

Lemma restandardized_lookup fxs fys tr fl : forall y_test (i : nat),
  i < length fl ->
  restandardized fxs fys tr fl y_test !! i
    = Some (fold_left (fun y f => fold_standardized fxs fys tr f y)
              (take (S i) fl) y_test).
Proof.
  induction fl as [|f r IH]; intros y_test i Hi; cbn in Hi; [lia|].
  destruct i as [|i]; [reflexivity|].
  cbn [restandardized take fold_left]. rewrite lookup_cons.
  apply IH. lia.
Qed.

Lemma take_range (folds : Z) (i : nat) :
  (Z.of_nat i < folds)%Z ->
  take (S i) (Py.range folds) = Py.range (Z.of_nat i + 1).
Proof.
  intros Hi. unfold Py.range.
  replace folds with ((Z.of_nat i + 1) + (folds - (Z.of_nat i + 1)))%Z at 1 by lia.
  rewrite seqZ_app by lia.
  apply take_app_length'. rewrite length_seqZ. lia.
Qed.
End FoldFacts.

Section TrainingFacts.
Import Numpy cnn_framework util Predictor Spec.
Context `{F : Framework} `{U : Metrics} `{P : Power}.

(** C4 (amended). In every fold of [kfcv_train] the training subset and the
    outer validation subset are evaluated by [evaluate], whatever their
    size; the inner validation subset and the test subset are evaluated by
    [evaluate] if they have elements ([x.size] is not zero), and otherwise
    no metric function is called for them and not-a-number is reported for
    both of their metrics.  Where [evaluate] is called it makes the two
    metric calls and returns the two rescaled metrics. *)
Theorem kfcv_fold_guards (fxs : list array2) (fys : list array1)
    (tr : Py.num) (x_test : array2) (pw : option string) (ts : Settings)
    (fold : Z) (y_test : array1) (s : state) :
  let '(x_train, x_inner_val, x_outer_val, y_train, y_inner_val, y_outer_val) :=
    prepare_data_one_fold fxs fys fold 4 tr in
  let mu := mean y_train in
  let sd := std y_train in
  let c :=
    {| tc_model := model s; tc_x_train := x_train;
       tc_y_train := sub_div mu sd y_train;
       tc_x_inner_val := x_inner_val;
       tc_y_inner_val := sub_div mu sd y_inner_val;
       tc_x_test := x_test; tc_y_test := sub_div mu sd y_test;
       tc_x_outer_val := Some x_outer_val;
       tc_y_outer_val := Some (sub_div mu sd y_outer_val);
       tc_settings := ts |} in
  let m := trained c in
  let train := (metric_calls m x_train (tc_y_train c),
                rescaled sd m x_train (tc_y_train c)) in
  let inner_val :=
    if Py.truth (size x_inner_val)
    then (metric_calls m x_inner_val (tc_y_inner_val c),
          rescaled sd m x_inner_val (tc_y_inner_val c))
    else ([], (NaN, NaN)) in
  let outer_val := (metric_calls m x_outer_val (sub_div mu sd y_outer_val),
                    rescaled sd m x_outer_val (sub_div mu sd y_outer_val)) in
  let test :=
    if Py.truth (size x_test)
    then (metric_calls m x_test (tc_y_test c), rescaled sd m x_test (tc_y_test c))
    else ([], (NaN, NaN)) in
  journal (snd (kfcv_fold fxs fys tr x_test pw ts fold y_test s))
    = journal s
      ++ [TrainCall c]
      ++ fst train ++ fst inner_val ++ fst outer_val ++ fst test
      ++ [FinalStatistics
            [("Train", snd train); ("Inner val", snd inner_val);
             ("Outer val", snd outer_val); ("Test", snd test)]] /\
  (forall x y st,
     model st = Some m -> y_std st = Some sd ->
     evaluate x y true st
       = (Ok (rescaled sd m x y), extend (metric_calls m x y) st)).
Proof.
  destruct (kfcv_fold_run fxs fys tr x_test pw ts fold y_test s) as (Hj & _).
  cbv zeta in Hj. rewrite Hj. clear Hj.
  unfold fold_events, fold_call, fold_standardized, fold_statistics, fold_report,
    guarded.
  destruct (prepare_data_one_fold fxs fys fold 4 tr)
    as [[[[[x_train x_inner_val] x_outer_val] y_train] y_inner_val] y_outer_val].
  cbv zeta.
  cbn [tc_model tc_x_train tc_y_train tc_x_inner_val tc_y_inner_val tc_x_test
       tc_y_test tc_x_outer_val tc_y_outer_val tc_settings fst snd].
  split; [reflexivity|].
  intros x y st Hm Hs. apply evaluate_norm_run; assumption.
Qed.


(** C8. With a test pair supplied and an output directory set, [kfcv_train]
    and [full_train] return, whatever [test_split] the caller passed; the one
    call of the splitter is made with a ratio of zero ([0] in [kfcv_train],
    [0.0] in [full_train]); and all that follows is computed from the
    supplied pair, not from the test subset of the split: in [kfcv_train]
    every fold hands the supplied features to the trainer with the supplied
    labels as the folds have standardized them, in [full_train] the trainer
    and the evaluation get the supplied features and the supplied labels
    standardized with the training statistics. *)
Theorem test_data_overrides_split (x : array2) (y : array1)
    (names : list string) (folds : Z) (test_split tr : Py.num)
    (xt : array2) (yt : array1) (save_names : bool) (pw : option string)
    (ts : Settings) (s : state) (d : string) :
  out_dir s = Some d ->
  (let '(_, _, x_tv, y_tv, _, _) :=
     split_test_from_train_and_val x y names 7 (Py.Int 0) in
   let '(fxs, fys) := prepare_folded_data x_tv y_tv folds 2 in
   let r := kfcv_train x y names folds test_split tr (Some (xt, yt))
              save_names pw ts s in
   fst r = Ok tt /\
   exists evs,
     journal (snd r) = journal s ++ SplitCall 7 (Py.Int 0) :: evs /\
     folds_events fxs fys tr xt ts (Py.range folds) yt evs /\
     split_calls evs = [] /\
     Forall (fun c => tc_x_test c = xt) (train_calls evs) /\
     map tc_y_test (train_calls evs)
       = restandardized fxs fys tr (Py.range folds) yt) /\
  (let '(_, _, x_tr, y_tr, _, _) :=
     split_test_from_train_and_val x y names 7 (Py.Float 0) in
   let '(x_train, x_inner_val, y_train, y_inner_val) :=
     split_inner_val_from_train_data x_tr y_tr 77 tr in
   let mu := mean y_train in
   let sd := std y_train in
   let c :=
     {| tc_model := model s; tc_x_train := x_train;
        tc_y_train := sub_div mu sd y_train;
        tc_x_inner_val := x_inner_val;
        tc_y_inner_val := sub_div mu sd y_inner_val;
        tc_x_test := xt; tc_y_test := sub_div mu sd yt;
        tc_x_outer_val := None; tc_y_outer_val := None;
        tc_settings := ts |} in
   let r := full_train x y names test_split tr (Some (xt, yt)) save_names ts s in
   fst r = Ok tt /\
   journal (snd r)
     = journal s ++ SplitCall 7 (Py.Float 0) :: TrainCall c :: full_report c sd).
Proof.
  intros Hd. split.
  - pose proof (kfcv_train_run x y names folds test_split tr (Some (xt, yt))
                  save_names pw ts s d Hd) as H.
    cbv zeta in H.
    destruct (split_test_from_train_and_val x y names 7 (Py.Int 0))
      as [[[[[x_test y_test] x_tv] y_tv] names_test] names_train].
    destruct (prepare_folded_data x_tv y_tv folds 2) as [fxs fys].
    destruct H as (s' & evs & Hrun & Hj & Hev). cbv zeta. rewrite Hrun.
    split; [reflexivity|]. exists evs. split; [exact Hj|]. split; [exact Hev|].
    destruct (folds_events_calls _ _ _ _ _ _ _ _ Hev) as (Hs & _ & Hx & Hy & _).
    auto.
  - pose proof (full_train_run x y names test_split tr (Some (xt, yt))
                  save_names ts s d Hd) as H.
    cbv zeta in H.
    destruct (split_test_from_train_and_val x y names 7 (Py.Float 0))
      as [[[[[x_test y_test] x_tr] y_tr] names_test] names_train].
    destruct (split_inner_val_from_train_data x_tr y_tr 77 tr)
      as [[[x_train x_inner_val] y_train] y_inner_val].
    destruct H as (s' & Hrun & Hj). cbv zeta. rewrite Hrun. auto.
Qed.

(** C9. With an output directory set, [kfcv_train] returns after one call of
    the trainer per fold, and the test labels passed to the trainer in fold
    [i], and to [evaluate] if the test set has elements, are the test labels
    that entered the loop standardized [i + 1] times in succession, with the
    statistics of fold [0], then of fold [1], up to fold [i].  Standardizing
    twice is not standardizing once with the later statistics. *)
Theorem kfcv_test_labels_restandardized (x : array2) (y : array1)
    (names : list string) (folds : Z) (test_split tr : Py.num)
    (test_data : option (array2 * array1)) (save_names : bool)
    (pw : option string) (ts : Settings) (s : state) (d : string) :
  out_dir s = Some d ->
  (let ratio :=
     match test_data with Some _ => Py.Int 0 | None => test_split end in
   let '(x_test, y_test, x_tv, y_tv, _, _) :=
     split_test_from_train_and_val x y names 7 ratio in
   let '(x_test, y_test) :=
     match test_data with Some td => td | None => (x_test, y_test) end in
   let '(fxs, fys) := prepare_folded_data x_tv y_tv folds 2 in
   let r := kfcv_train x y names folds test_split tr test_data save_names
              pw ts s in
   fst r = Ok tt /\
   exists calls,
     train_calls (journal (snd r)) = train_calls (journal s) ++ calls /\
     length calls = Z.to_nat folds /\
     forall (i : nat) c, calls !! i = Some c ->
       tc_y_test c
         = fold_left (fun y_test fold => fold_standardized fxs fys tr fold y_test)
             (Py.range (Z.of_nat i + 1)) y_test /\
       (Py.truth (size x_test) = true ->
        let y_pred := flatten (model_predict (trained c) x_test) in
        MetricCall RMSE (tc_y_test c) y_pred ∈ journal (snd r) /\
        MetricCall MAE (tc_y_test c) y_pred ∈ journal (snd r))) /\
  (exists y_train0 y_train1 y_test : array1,
     sub_div (mean y_train1) (std y_train1)
       (sub_div (mean y_train0) (std y_train0) y_test)
     <> sub_div (mean y_train1) (std y_train1) y_test).
Proof.
  intros Hd. split.
  - pose proof (kfcv_train_run x y names folds test_split tr test_data
                  save_names pw ts s d Hd) as H.
    cbv zeta in *.
    destruct (split_test_from_train_and_val x y names 7 _)
      as [[[[[x_test y_test] x_tv] y_tv] names_test] names_train].
    destruct (match test_data with Some td => td | None => (x_test, y_test) end)
      as [x_test' y_test'].
    destruct (prepare_folded_data x_tv y_tv folds 2) as [fxs fys].
    destruct H as (s' & evs & Hrun & Hj & Hev). rewrite Hrun. cbn [fst snd].
    split; [reflexivity|].
    destruct (folds_events_calls _ _ _ _ _ _ _ _ Hev) as (_ & Hl & _ & Hy & Hm).
    exists (train_calls evs). split; [|split].
    + rewrite Hj. unfold train_calls. rewrite omap_app. reflexivity.
    + rewrite Hl. unfold Py.range. apply length_seqZ.
    + intros i c Hc.
      assert (Hi : i < length (Py.range folds)).
      { rewrite <- Hl. apply lookup_lt_Some with c. exact Hc. }
      split.
      * assert (Hyi : map tc_y_test (train_calls evs) !! i = Some (tc_y_test c))
          by (rewrite list_lookup_fmap, Hc; reflexivity).
        rewrite Hy, (restandardized_lookup _ _ _ _ _ _ Hi) in Hyi.
        rewrite take_range in Hyi
          by (unfold Py.range in Hi; rewrite length_seqZ in Hi; lia).
        congruence.
      * intros Hsize. cbv zeta. rewrite Hj.
        destruct (Hm Hsize c) as [H1 H2].
        { apply list_elem_of_lookup. eauto. }
        rewrite !elem_of_app, !elem_of_cons. tauto.
  - exists [1; 3]%float, [0; 4]%float, [7]%float.
    intros H.
    apply (f_equal (fun a => match a with
                             | [v] => PrimFloat.eqb v 1.5%float
                             | _ => false
                             end)) in H.
    vm_compute in H. discriminate H.
Qed.

End TrainingFacts.

(** *** Training runs on the sample framework *)

Section SampleTraining.
Import Numpy cnn_framework util Predictor Spec.
Local Existing Instance Sample.framework.
Local Existing Instance numpy_metrics.
Local Existing Instance Sample.power.

(** A fold whose outer validation subset has no rows, the three other
    subsets having some. *)
Lemma kfcv_fold_guards_witness :
  let r := kfcv_fold Sample.folded_xs_gap Sample.folded_ys_gap (Py.Float 0.5)
             Sample.x_held None tt 1 Sample.y_held Sample.built in
  let c : @train_call Sample.framework :=
    {| tc_model := Some 1%float; tc_x_train := [[-1]; [1]]%float;
       tc_y_train := [-1; 1]%float;
       tc_x_inner_val := [[3]]%float; tc_y_inner_val := [3]%float;
       tc_x_test := [[4]]%float; tc_y_test := [5]%float;
       tc_x_outer_val := Some []; tc_y_outer_val := Some [];
       tc_settings := (tt : @Settings Sample.framework) |} in
  journal (snd r)
    = [TrainCall c;
       MetricCall RMSE [-1; 1]%float [-1; 1]%float;
       MetricCall MAE [-1; 1]%float [-1; 1]%float;
       MetricCall RMSE [3]%float [3]%float;
       MetricCall MAE [3]%float [3]%float;
       MetricCall RMSE [] []; MetricCall MAE [] [];
       MetricCall RMSE [5]%float [4]%float;
       MetricCall MAE [5]%float [4]%float;
       FinalStatistics
         [("Train", (0, 0)%float); ("Inner val", (0, 0)%float);
          ("Outer val", (NaN, NaN)); ("Test", (1, 1)%float)]].
Proof.
  exact (proj1 (kfcv_fold_guards Sample.folded_xs_gap Sample.folded_ys_gap
                  (Py.Float 0.5) Sample.x_held None tt 1 Sample.y_held
                  Sample.built)).
Defined.

(** C4 as stated fails: the metric functions are called on an outer
    validation subset without rows, and on a training subset without rows
    (a run with a single fold, which leaves all rows to the outer
    validation). *)
Lemma kfcv_evaluates_empty_subsets :
  (let r := kfcv_fold Sample.folded_xs_gap Sample.folded_ys_gap (Py.Float 0.5)
              Sample.x_held None tt 1 Sample.y_held Sample.built in
   prepare_data_one_fold Sample.folded_xs_gap Sample.folded_ys_gap 1 4
       (Py.Float 0.5)
     = ([[-1]; [1]], [[3]], [], [1; 3], [5], [])%float /\
   fst r = Ok [5]%float /\
   MetricCall RMSE [] [] ∈ journal (snd r) /\
   MetricCall MAE [] [] ∈ journal (snd r)) /\
  (let r := kfcv_train Sample.x6 Sample.y6 Sample.names6 1 (Py.Float 0.25)
              (Py.Float 0.5) (Some (Sample.x_held, Sample.y_held)) false None
              tt Sample.built in
   let c : @train_call Sample.framework :=
     {| tc_model := Some 1%float; tc_x_train := []; tc_y_train := [];
        tc_x_inner_val := []; tc_y_inner_val := [];
        tc_x_test := Sample.x_held; tc_y_test := [NaN];
        tc_x_outer_val := Some Sample.x6;
        tc_y_outer_val := Some [NaN; NaN; NaN; NaN; NaN; NaN];
        tc_settings := (tt : @Settings Sample.framework) |} in
   fst r = Ok tt /\
   journal (snd r)
     = [SplitCall 7 (Py.Int 0); TrainCall c;
        MetricCall RMSE [] []; MetricCall MAE [] [];
        MetricCall RMSE [NaN; NaN; NaN; NaN; NaN; NaN] [6; 4; 0; 1; 4; 3]%float;
        MetricCall MAE [NaN; NaN; NaN; NaN; NaN; NaN] [6; 4; 0; 1; 4; 3]%float;
        MetricCall RMSE [NaN] [4]%float; MetricCall MAE [NaN] [4]%float;
        FinalStatistics
          [("Train", (NaN, NaN)); ("Inner val", (NaN, NaN));
           ("Outer val", (NaN, NaN)); ("Test", (NaN, NaN))]]).
Proof.
  split; cbv zeta.
  - split; [reflexivity|]. split; [reflexivity|].
    split; apply list_elem_of_In; vm_compute; tauto.
  - split; vm_compute; reflexivity.
Qed.

Lemma test_data_overrides_split_witness :
  out_dir Sample.built = Some "out" /\
  (let r := kfcv_train Sample.x6 Sample.y6 Sample.names6 2 (Py.Float 0.25)
              (Py.Float 0.5) (Some (Sample.x_held, Sample.y_held)) true None
              tt Sample.built in
   fst r = Ok tt /\
   split_calls (journal (snd r)) = [(7%Z, Py.Int 0)] /\
   map tc_x_test (train_calls (journal (snd r))) = [[[4]]; [[4]]]%float /\
   map tc_y_test (train_calls (journal (snd r))) = [[5]; [1.5]]%float) /\
  (let r := full_train Sample.x6 Sample.y6 Sample.names6 (Py.Float 0.25)
              (Py.Float 0.5) (Some (Sample.x_held, Sample.y_held)) true
              tt Sample.built in
   fst r = Ok tt /\
   split_calls (journal (snd r)) = [(7%Z, Py.Float 0)] /\
   map tc_x_test (train_calls (journal (snd r))) = [[[4]]]%float).
Proof.
  split; [reflexivity|].
  destruct (test_data_overrides_split (F := Sample.framework) Sample.x6 Sample.y6 Sample.names6 2
              (Py.Float 0.25) (Py.Float 0.5) Sample.x_held Sample.y_held
              true None tt Sample.built "out" eq_refl)
    as [(Hk & _) (Hf & _)].
  split.
  - split; [exact Hk|]. repeat split; reflexivity.
  - split; [exact Hf|]. repeat split; reflexivity.
Defined.

Lemma kfcv_test_labels_restandardized_witness :
  out_dir Sample.built = Some "out" /\
  (let r := kfcv_train Sample.x6 Sample.y6 Sample.names6 2 (Py.Float 0.25)
              (Py.Float 0.5) (Some (Sample.x_held, Sample.y_held)) false None
              tt Sample.built in
   fst r = Ok tt /\
   map tc_y_test (train_calls (journal (snd r))) = [[5]; [1.5]]%float /\
   sub_div (mean [0; 4]%float) (std [0; 4]%float) Sample.y_held = [2.5]%float).
Proof.
  split; [reflexivity|].
  destruct (kfcv_test_labels_restandardized (F := Sample.framework) Sample.x6 Sample.y6 Sample.names6 2
              (Py.Float 0.25) (Py.Float 0.5)
              (Some (Sample.x_held, Sample.y_held)) false None
              tt Sample.built "out" eq_refl)
    as [(Hk & _) _].
  split; [exact Hk|]. split; reflexivity.
Defined.

End SampleTraining.

(** ** Sanity checks of the embedding on concrete data *)

Section Examples.
Import Numpy cnn_framework util Predictor Spec.
Local Existing Instance Sample.framework.
Local Existing Instance numpy_metrics.
Local Existing Instance Sample.power.

Example mean_of_three : mean [1; 2; 3]%float = 2%float.
Proof. reflexivity. Qed.

Example std_is_the_population_one : std [0; 4]%float = 2%float.
Proof. reflexivity. Qed.

Example mean_of_nothing : isnan (mean []) = true /\ isnan (std []) = true.
Proof. split; reflexivity. Qed.

Example metrics_of_nothing : isnan (rmse [] []) = true /\ isnan (mae [] []) = true.
Proof. split; reflexivity. Qed.

Example size_counts_elements :
  size [[1; 2]; [3; 4]]%float = 4 /\ size [[]; []] = 0 /\ size [] = 0.
Proof. repeat split; reflexivity. Qed.

Example os_path_join_samples :
  Py.os_path_join "out" "model_fold_0" = "out/model_fold_0" /\
  Py.os_path_join "out/" "model" = "out/model" /\
  Py.os_path_join "" "model" = "model".
Proof. repeat split; reflexivity. Qed.

Example model_path_of_fold :
  "model_fold_" +:+ Py.format_int 12 = "model_fold_12" /\
  Py.range 3 = [0; 1; 2]%Z /\ Py.range (-1) = [].
Proof. repeat split; reflexivity. Qed.

Example normalize_sample :
  normalize [1; 3]%float [[7]; [2; 2]]%float Sample.built
  = (Ok ([-1; 1], [[5]; [0; 0]])%float,
     set_y_std (Some 1%float) (set_y_mean (Some 2%float) Sample.built)).
Proof. reflexivity. Qed.

Example predict_sample :
  fst (predict Sample.x2 true Sample.fitted) = Ok [3; 7]%float /\
  fst (predict Sample.x2 false Sample.fitted) = Ok [16; 24]%float.
Proof. split; reflexivity. Qed.

Example evaluate_sample :
  fst (evaluate Sample.x2 [3; 9]%float true Sample.fitted)
  = Ok ((4 * sqrt 2)%float, 4%float).
Proof. reflexivity. Qed.

(** Six molecules, a test split that holds one of them out, two folds: one
    artifact of three files per fold, and one call of the trainer per fold. *)
Example kfcv_two_folds :
  let r := kfcv_train Sample.x6 Sample.y6 Sample.names6 2 (Py.Float 0.25)
             (Py.Float 0.5) None false None tt Sample.built in
  fst r = Ok tt /\
  length (map_to_list (files (snd r))) = 6 /\
  forallb (fun p => bool_decide (is_Some (files (snd r) !! p)))
    ["out/model_fold_0.json"; "out/model_fold_0.h5"; "out/model_fold_0.attr";
     "out/model_fold_1.json"; "out/model_fold_1.h5"; "out/model_fold_1.attr"]
    = true /\
  length (train_calls (journal (snd r))) = 2.
Proof. cbv zeta. repeat split; vm_compute; reflexivity. Qed.

(** Without an output directory the first fold fails when it comes to
    saving, after its statistics have been logged. *)
Example kfcv_without_out_dir :
  let s := set_model (Some 1%float) (init None ∅) in
  let r := kfcv_train Sample.x6 Sample.y6 Sample.names6 2 (Py.Float 0.25)
             (Py.Float 0.5) None false None tt s in
  fst r = Raise (Py.AttributeError "endswith") /\
  length (train_calls (journal (snd r))) = 1.
Proof. cbv zeta. split; vm_compute; reflexivity. Qed.

End Examples.

(** * Further properties of the class *)

(** ** The state of the predictor through a training run *)

Section RunFacts.
Import Numpy cnn_framework util Predictor Spec.
Context `{F : Framework} `{U : Metrics} `{P : Power}.

Lemma state_ext (a b : state) :
  model a = model b -> out_dir a = out_dir b ->
  y_mean a = y_mean b -> y_std a = y_std b ->
  files a = files b -> journal a = journal b -> a = b.
Proof. destruct a, b. cbn. intros. congruence. Qed.

Ltac run :=
  erewrite bind_ok
    by first [ apply normalize_run
             | apply evaluate_norm_run; reflexivity
             | apply guarded_run; reflexivity
             | apply save_model_run
             | reflexivity ].

Lemma kfcv_fold_outcome fxs fys tr x_test pw ts fold y_test s :
  kfcv_fold fxs fys tr x_test pw ts fold y_test s =
    match out_dir s with
    | Some d =>
        (Ok (fold_standardized fxs fys tr fold y_test),
         after_fold d pw fxs fys tr x_test ts fold y_test s)
    | None =>
        (Raise (Py.AttributeError "endswith"),
         after_unsaved_fold fxs fys tr x_test ts fold y_test s)
    end.
Proof.
  unfold kfcv_fold, after_fold, after_unsaved_fold, fold_path, saved, losses,
    fold_events, fold_call, fold_standardized, fold_statistics.
  destruct (prepare_data_one_fold fxs fys fold 4 tr)
    as [[[[[x_train x_inner_val] x_outer_val] y_train] y_inner_val] y_outer_val].
  cbv zeta. cbn [fst snd].
  run. cbn [map]. run.
  set (mu := mean y_train). set (sd := std y_train).
  unfold fold_report, trained.
  cbn [tc_model tc_x_train tc_y_train tc_x_inner_val tc_y_inner_val tc_x_test
       tc_y_test tc_x_outer_val tc_y_outer_val tc_settings].
  change (model (set_y_std (Some sd) (set_y_mean (Some mu) s))) with (model s).
  destruct (train_model (model s) x_train (sub_div mu sd y_train) x_inner_val
              (sub_div mu sd y_inner_val) x_test (sub_div mu sd y_test)
              (Some x_outer_val) (Some (sub_div mu sd y_outer_val)) ts)
    as [[[[m' loss] il] o] t].
  cbv zeta. do 7 run.
  destruct (out_dir s) as [d|] eqn:Hd.
  - erewrite bind_ok
      by (rewrite join_out_dir_run;
          cbn [out_dir extend record set_model set_y_std set_y_mean];
          rewrite Hd; reflexivity).
    run.
    destruct pw as [w|].
    + unfold load_weights. run. cbn [model set_files set_model].
      unfold bind, modify, ret.
      f_equal; apply state_ext;
      cbn [model out_dir y_mean y_std files journal set_model set_files
           record extend set_y_std set_y_mean fst snd];
      rewrite ?Hd, <- ?app_assoc; reflexivity.
    + unfold reset_model, bind, modify, ret.
      f_equal; apply state_ext;
      cbn [model out_dir y_mean y_std files journal set_model set_files
           record extend set_y_std set_y_mean fst snd];
      rewrite ?Hd, <- ?app_assoc; reflexivity.
  - erewrite bind_raise
      by (rewrite join_out_dir_run;
          cbn [out_dir extend record set_model set_y_std set_y_mean];
          rewrite Hd; reflexivity).
    f_equal; apply state_ext;
    cbn [model out_dir y_mean y_std files journal set_model set_files
       record extend set_y_std set_y_mean fst snd];
    rewrite ?Hd, <- ?app_assoc; reflexivity.
Qed.

Lemma after_fold_out_dir d pw fxs fys tr x_test ts fold y_test s :
  out_dir (after_fold d pw fxs fys tr x_test ts fold y_test s) = out_dir s.
Proof. reflexivity. Qed.

Lemma for_each_outcome fxs fys tr x_test pw ts fl : forall y_test s d,
  out_dir s = Some d ->
  for_each fl (kfcv_fold fxs fys tr x_test pw ts) y_test s
    = (Ok (fold_left (fun y f => fold_standardized fxs fys tr f y) fl y_test),
       after_folds d pw fxs fys tr x_test ts fl y_test s).
Proof.
  induction fl as [|f r IH]; intros y_test s d Hd; [reflexivity|].
  cbn [for_each fold_left after_folds].
  erewrite bind_ok by (rewrite kfcv_fold_outcome, Hd; reflexivity).
  apply IH. exact Hd.
Qed.


Lemma split_test_outcome x y names ratio save_names s :
  split_test x y names ratio save_names s =
    (match save_names, out_dir s with
     | true, None => Raise (Py.AttributeError "endswith")
     | _, _ =>
         Ok (let '(x_test, y_test, x_train, y_train, _, _) :=
               split_test_from_train_and_val x y names 7 ratio in
             (x_test, y_test, x_train, y_train))
     end,
     after_split x y names ratio save_names s).
Proof.
  unfold split_test, after_split. run.
  destruct (split_test_from_train_and_val x y names 7 ratio)
    as [[[[[x_test y_test] x_train] y_train] names_test] names_train].
  destruct save_names; [|run; reflexivity].
  destruct (out_dir s) as [d|] eqn:Hd.
  - erewrite bind_ok; [reflexivity|].
    erewrite bind_ok by (rewrite join_out_dir_run; cbn; rewrite Hd; reflexivity).
    erewrite bind_ok by (rewrite join_out_dir_run; cbn; rewrite Hd; reflexivity).
    unfold write_lines, lines_text. run. reflexivity.
  - erewrite bind_raise; [reflexivity|].
    erewrite bind_raise
      by (rewrite join_out_dir_run; cbn; rewrite Hd; reflexivity).
    reflexivity.
Qed.

Lemma after_split_fields x y names ratio save_names s :
  let s' := after_split x y names ratio save_names s in
  model s' = model s /\ out_dir s' = out_dir s /\
  y_mean s' = y_mean s /\ y_std s' = y_std s /\
  journal s' = journal s ++ [SplitCall 7 ratio].
Proof.
  unfold after_split.
  destruct (split_test_from_train_and_val x y names 7 ratio)
    as [[[[[? ?] ?] ?] ?] ?].
  destruct save_names, (out_dir s) eqn:Hd; repeat split;
    first [reflexivity | exact Hd].
Qed.

(** [kfcv_train] with an output directory: the split, then the folds. *)
Lemma kfcv_train_outcome x y names folds test_split tr test_data save_names pw ts
    s d :
  out_dir s = Some d ->
  let ratio := match test_data with Some _ => Py.Int 0 | None => test_split end in
  let '(x_test, y_test, x_tv, y_tv, _, _) :=
    split_test_from_train_and_val x y names 7 ratio in
  let '(x_test, y_test) :=
    match test_data with Some td => td | None => (x_test, y_test) end in
  let '(fxs, fys) := prepare_folded_data x_tv y_tv folds 2 in
  kfcv_train x y names folds test_split tr test_data save_names pw ts s
    = (Ok tt,
       after_folds d pw fxs fys tr x_test ts (Py.range folds) y_test
         (after_split x y names ratio save_names s)).
Proof.
  intros Hd ratio. unfold kfcv_train. fold ratio.
  pose proof (split_test_outcome x y names ratio save_names s) as Hrun.
  pose proof (after_split_fields x y names ratio save_names s) as (_ & Ho & _).
  rewrite Hd in Hrun, Ho.
  destruct (split_test_from_train_and_val x y names 7 ratio)
    as [[[[[x_test y_test] x_tv] y_tv] names_test] names_train].
  replace (match save_names with true | _ => Ok (x_test, y_test, x_tv, y_tv) end)
    with (Ok (A := array2 * array1 * array2 * array1) (x_test, y_test, x_tv, y_tv))
    in Hrun by (destruct save_names; reflexivity).
  erewrite bind_ok by exact Hrun. cbv beta iota.
  destruct (match test_data with Some td => td | None => (x_test, y_test) end)
    as [x_test' y_test'].
  destruct (prepare_folded_data x_tv y_tv folds 2) as [fxs fys].
  erewrite bind_ok by (apply for_each_outcome; exact Ho).
  reflexivity.
Qed.


(** ** [split_test] *)

Lemma os_path_join_inj d a b :
  Py.starts_with_slash a = false -> Py.starts_with_slash b = false ->
  Py.os_path_join d a = Py.os_path_join d b -> a = b.
Proof.
  unfold Py.os_path_join. intros -> ->.
  destruct (bool_decide (d = "") || Py.ends_with_slash d); intros H.
  - exact (String.app_inj d _ _ H).
  - apply String.app_inj in H. exact (String.app_inj "/" _ _ H).
Qed.

(** X1. With an output directory [d], [split_test(..., save_names=True)]
    returns the four arrays of the splitter (called with seed 7 and the given
    ratio) and leaves two files in [d]: [names_test.txt] holds the test names
    and [names_train.txt] the training names, each name followed by a
    newline, replacing what was there; no other path of the file system
    changes. *)
Theorem split_test_writes_names (x : array2) (y : array1)
    (names : list string) (ratio : Py.num) (s : state) (d : string) :
  out_dir s = Some d ->
  let '(x_test, y_test, x_train, y_train, names_test, names_train) :=
    split_test_from_train_and_val x y names 7 ratio in
  let r := split_test x y names ratio true s in
  fst r = Ok (x_test, y_test, x_train, y_train) /\
  files (snd r) !! Py.os_path_join d "names_test.txt"
    = Some (Text (lines_text names_test)) /\
  files (snd r) !! Py.os_path_join d "names_train.txt"
    = Some (Text (lines_text names_train)) /\
  (forall q, q <> Py.os_path_join d "names_test.txt" ->
             q <> Py.os_path_join d "names_train.txt" ->
             files (snd r) !! q = files s !! q).
Proof.
  intros Hd. rewrite split_test_outcome, Hd. unfold after_split. rewrite Hd.
  destruct (split_test_from_train_and_val x y names 7 ratio)
    as [[[[[x_test y_test] x_train] y_train] names_test] names_train].
  cbn [fst snd files set_files]. split; [reflexivity|].
  assert (Hne : Py.os_path_join d "names_train.txt"
                <> Py.os_path_join d "names_test.txt").
  { intros H. apply os_path_join_inj in H; [discriminate|reflexivity..]. }
  split; [|split].
  - rewrite lookup_insert_ne by exact Hne. apply lookup_insert_eq.
  - apply lookup_insert_eq.
  - intros q Hq1 Hq2. rewrite !lookup_insert_ne by congruence. reflexivity.
Qed.

(** X2. Without [save_names], [split_test] returns the four arrays of the
    splitter and changes nothing of the predictor: no file is written.  With
    [save_names] on a predictor without an output directory it raises the
    attribute error of [None] that [os.path.join(None, ...)] ends in, after
    the splitter has run and before any file is opened.  In every case the
    splitter is called exactly once, with seed 7 and the given ratio, and
    the model, the statistics and the output directory stay as they were. *)
Theorem split_test_without_names_or_out_dir (x : array2) (y : array1)
    (names : list string) (ratio : Py.num) (save_names : bool) (s : state) :
  let r := split_test x y names ratio save_names s in
  let '(x_test, y_test, x_train, y_train, _, _) :=
    split_test_from_train_and_val x y names 7 ratio in
  (save_names = false ->
     r = (Ok (x_test, y_test, x_train, y_train),
          record (SplitCall 7 ratio) s)) /\
  (save_names = true -> out_dir s = None ->
     r = (Raise (Py.AttributeError "endswith"),
          record (SplitCall 7 ratio) s)) /\
  journal (snd r) = journal s ++ [SplitCall 7 ratio] /\
  model (snd r) = model s /\ y_mean (snd r) = y_mean s /\
  y_std (snd r) = y_std s /\ out_dir (snd r) = out_dir s.
Proof.
  cbv zeta. rewrite split_test_outcome.
  pose proof (after_split_fields x y names ratio save_names s)
    as (Hm & Ho & Hmu & Hsd & Hj).
  cbv zeta in *. cbn [snd]. rewrite Hm, Ho, Hmu, Hsd, Hj.
  unfold after_split.
  destruct (split_test_from_train_and_val x y names 7 ratio)
    as [[[[[x_test y_test] x_train] y_train] names_test] names_train].
  split; [|split]; [| |auto 10].
  - intros ->. reflexivity.
  - intros -> ->. reflexivity.
Qed.


(** ** [full_train] *)

Lemma full_train_outcome x y names test_split tr test_data save_names ts s :
  let ratio :=
    match test_data with Some _ => Py.Float 0 | None => test_split end in
  let s1 := after_split x y names ratio save_names s in
  let c := full_call (model s) x y names test_split tr test_data ts in
  let st := full_statistics x y names test_split tr test_data in
  let trained_state fs :=
    {| model := Some (trained c); out_dir := out_dir s;
       y_mean := Some (fst st); y_std := Some (snd st); files := fs;
       journal := journal s1 ++ TrainCall c :: full_report c (snd st) |} in
  full_train x y names test_split tr test_data save_names ts s =
    match out_dir s with
    | Some d =>
        (Ok tt,
         trained_state
           (saved (Some (trained c)) (Some (fst st), Some (snd st)) (losses c)
              (Py.os_path_join d "model") (files s1)))
    | None =>
        if save_names
        then (Raise (Py.AttributeError "endswith"), s1)
        else (Raise (Py.AttributeError "endswith"),
              trained_state (files s1))
    end.
Proof.
  intros ratio s1 c st trained_state.
  unfold full_train. fold ratio.
  pose proof (split_test_outcome x y names ratio save_names s) as Hrun.
  pose proof (after_split_fields x y names ratio save_names s)
    as (Hm & Ho & _).
  fold s1 in Hrun, Hm, Ho. cbv zeta in Hm, Ho.
  subst c st trained_state. unfold full_call, full_statistics, saved, losses.
  fold ratio.
  destruct (split_test_from_train_and_val x y names 7 ratio)
    as [[[[[x_test y_test] x_tr] y_tr] names_test] names_train].
  destruct (out_dir s) as [d|] eqn:Hd; [|destruct save_names].
  2:{ erewrite bind_raise by exact Hrun. reflexivity. }
  1: replace (match save_names with true | _ => Ok (x_test, y_test, x_tr, y_tr) end)
    with (Ok (A := array2 * array1 * array2 * array1) (x_test, y_test, x_tr, y_tr))
    in Hrun by (destruct save_names; reflexivity).
  all: erewrite bind_ok by exact Hrun; cbv beta iota.
  all: destruct (match test_data with Some td => td | None => (x_test, y_test) end)
    as [x_test' y_test'].
  all: destruct (split_inner_val_from_train_data x_tr y_tr 77 tr)
    as [[[x_train x_inner_val] y_train] y_inner_val].
  all: cbv zeta; run; cbn [map]; run.
  all: set (mu := mean y_train); set (sd := std y_train).
  all: unfold full_report, trained;
    cbn [tc_model tc_x_train tc_y_train tc_x_inner_val tc_y_inner_val tc_x_test
         tc_y_test tc_x_outer_val tc_y_outer_val tc_settings fst snd].
  all: change (model (set_y_std (Some sd) (set_y_mean (Some mu) s1)))
         with (model s1); rewrite Hm.
  all: destruct (train_model (model s) x_train (sub_div mu sd y_train) x_inner_val
              (sub_div mu sd y_inner_val) x_test' (sub_div mu sd y_test')
              None None ts)
    as [[[[m' loss] il] o] t].
  all: do 6 run.
  - erewrite bind_ok
      by (rewrite join_out_dir_run;
          cbn [out_dir extend record set_model set_y_std set_y_mean];
          rewrite Ho; reflexivity).
    rewrite save_model_run.
    f_equal; apply state_ext;
      cbn [model out_dir y_mean y_std files journal set_model set_files
           record extend set_y_std set_y_mean fst snd];
      rewrite ?Ho, ?Hd, <- ?app_assoc; reflexivity.
  - erewrite bind_raise
      by (rewrite join_out_dir_run;
          cbn [out_dir extend record set_model set_y_std set_y_mean];
          rewrite Ho; reflexivity).
    f_equal; apply state_ext;
      cbn [model out_dir y_mean y_std files journal set_model set_files
           record extend set_y_std set_y_mean fst snd];
      rewrite ?Ho, ?Hd, <- ?app_assoc; reflexivity.
Qed.


(** X3. With an output directory, [full_train] returns, and what it does is,
    in order: one split (ratio [0.0] when test data are given), one call of
    the trainer, without outer validation data; the two metrics of the
    trained model on the training subset, unconditionally; those on the inner
    validation subset and on the test subset, each only if it has elements
    (not-a-number is reported otherwise); the three reported rows, the
    metrics rescaled by the square of the training deviation. *)
Theorem full_train_evaluates (x : array2) (y : array1) (names : list string)
    (test_split tr : Py.num) (test_data : option (array2 * array1))
    (save_names : bool) (ts : Settings) (s : state) (d : string) :
  out_dir s = Some d ->
  let ratio :=
    match test_data with Some _ => Py.Float 0 | None => test_split end in
  let c := full_call (model s) x y names test_split tr test_data ts in
  let sd := snd (full_statistics x y names test_split tr test_data) in
  let m := trained c in
  let train := (metric_calls m (tc_x_train c) (tc_y_train c),
                rescaled sd m (tc_x_train c) (tc_y_train c)) in
  let inner_val :=
    if Py.truth (size (tc_x_inner_val c))
    then (metric_calls m (tc_x_inner_val c) (tc_y_inner_val c),
          rescaled sd m (tc_x_inner_val c) (tc_y_inner_val c))
    else ([], (NaN, NaN)) in
  let test :=
    if Py.truth (size (tc_x_test c))
    then (metric_calls m (tc_x_test c) (tc_y_test c),
          rescaled sd m (tc_x_test c) (tc_y_test c))
    else ([], (NaN, NaN)) in
  let r := full_train x y names test_split tr test_data save_names ts s in
  fst r = Ok tt /\
  tc_x_outer_val c = None /\ tc_y_outer_val c = None /\
  journal (snd r)
    = journal s
      ++ [SplitCall 7 ratio; TrainCall c]
      ++ fst train ++ fst inner_val ++ fst test
      ++ [FinalStatistics
            [("Train", snd train); ("Inner val", snd inner_val);
             ("Test", snd test)]].
Proof.
  intros Hd. cbv zeta.
  rewrite full_train_outcome, Hd. cbn [fst snd journal].
  pose proof (after_split_fields x y names
                (match test_data with Some _ => Py.Float 0 | None => test_split end)
                save_names s) as (_ & _ & _ & _ & Hj).
  cbv zeta in Hj. rewrite Hj, <- app_assoc.
  split; [reflexivity|].
  unfold full_report, guarded, full_call.
  destruct (split_test_from_train_and_val x y names 7 _)
    as [[[[[x_test y_test] x_tr] y_tr] names_test] names_train].
  destruct (match test_data with Some td => td | None => (x_test, y_test) end)
    as [x_test' y_test'].
  destruct (split_inner_val_from_train_data x_tr y_tr 77 tr)
    as [[[x_train x_inner_val] y_train] y_inner_val].
  cbv zeta. cbn [tc_x_outer_val tc_y_outer_val]. auto.
Qed.

(** X4. After [full_train] with an output directory [d] the predictor holds
    the trained model and the mean and deviation of the training labels,
    [d/model.attr] holds the same two statistics, and [predict(x)] returns
    the output of the trained model times that deviation plus that mean. *)
Theorem full_train_then_predict (x : array2) (y : array1) (names : list string)
    (test_split tr : Py.num) (test_data : option (array2 * array1))
    (save_names : bool) (ts : Settings) (s : state) (d : string) :
  out_dir s = Some d ->
  let c := full_call (model s) x y names test_split tr test_data ts in
  let st := full_statistics x y names test_split tr test_data in
  let s' := snd (full_train x y names test_split tr test_data save_names ts s) in
  model s' = Some (trained c) /\
  y_mean s' = Some (fst st) /\
  y_std s' = Some (snd st) /\
  files s' !! (Py.os_path_join d "model" +:+ ".attr")
    = Some (Pickled (Some (fst st)) (Some (snd st))) /\
  (forall x', predict x' false s'
     = (Ok (map (fun v => (v * snd st + fst st)%float)
              (flatten (model_predict (trained c) x'))), s')).
Proof.
  intros Hd. cbv zeta. rewrite full_train_outcome, Hd. cbn [snd].
  set (s' := {| model := _ |}).
  split; [reflexivity|]. split; [reflexivity|]. split; [reflexivity|].
  split.
  - subst s'. cbn [files]. unfold saved.
    destruct (losses _) as [[[? ?] ?] ?]. apply lookup_insert_eq.
  - intros x'. rewrite (predict_run x' false s' (trained
      (full_call (model s) x y names test_split tr test_data ts)) eq_refl).
    reflexivity.
Qed.


(** ** The model and the statistics through the folds *)

Lemma after_fold_model d pw fxs fys tr x_test ts f y_test s :
  handed_on pw (fold_call (model s) fxs fys tr x_test ts f y_test)
    (model (after_fold d pw fxs fys tr x_test ts f y_test s)).
Proof.
  unfold handed_on, after_fold. cbn [model].
  destruct pw; [eexists|]; reflexivity.
Qed.

Lemma after_fold_calls d pw fxs fys tr x_test ts f y_test s :
  train_calls (journal (after_fold d pw fxs fys tr x_test ts f y_test s))
  = train_calls (journal s) ++ [fold_call (model s) fxs fys tr x_test ts f y_test].
Proof.
  unfold after_fold. cbn [journal]. unfold train_calls. rewrite omap_app.
  f_equal. apply fold_events_calls.
Qed.

Lemma after_folds_calls d pw fxs fys tr x_test ts fl : forall y_test s,
  exists calls,
    train_calls (journal (after_folds d pw fxs fys tr x_test ts fl y_test s))
      = train_calls (journal s) ++ calls /\
    length calls = length fl /\
    (forall c, calls !! 0 = Some c -> tc_model c = model s) /\
    (forall i c c', calls !! i = Some c -> calls !! S i = Some c' ->
       handed_on pw c (tc_model c')) /\
    (forall c, last calls = Some c ->
       handed_on pw c
         (model (after_folds d pw fxs fys tr x_test ts fl y_test s))).
Proof.
  induction fl as [|f r IH]; intros y_test s.
  - exists []. cbn. rewrite app_nil_r.
    repeat split; intros; discriminate.
  - cbn [after_folds].
    set (s1 := after_fold d pw fxs fys tr x_test ts f y_test s).
    set (c0 := fold_call (model s) fxs fys tr x_test ts f y_test).
    destruct (IH (fold_standardized fxs fys tr f y_test) s1)
      as (calls & Hj & Hl & Hhead & Hnext & Hlast).
    exists (c0 :: calls). split; [|split; [|split; [|split]]].
    + rewrite Hj. subst s1. rewrite after_fold_calls, <- app_assoc. reflexivity.
    + cbn. rewrite Hl. reflexivity.
    + intros c [= <-]. destruct (prepare_data_one_fold fxs fys f 4 tr)
        as [[[[[? ?] ?] ?] ?] ?] eqn:E.
      subst c0. unfold fold_call. rewrite E. reflexivity.
    + intros [|i] c c'.
      * intros [= <-] Hc'. cbn in Hc'. rewrite (Hhead _ Hc').
        apply after_fold_model.
      * cbn. apply Hnext.
    + destruct calls as [|c1 calls'].
      * intros c [= <-]. destruct r; [|discriminate Hl].
        cbn [after_folds]. apply after_fold_model.
      * intros c Hc. apply Hlast. exact Hc.
Qed.


(** X5. With an output directory, [kfcv_train] calls the trainer once per
    fold.  The first call is handed the model of the predictor; every later
    call is handed, not the model trained in the fold before, but its reset
    or, with pretrained weights, that model with the pretrained weights
    loaded again; the model left in the predictor after the last fold is
    the reset or reloaded one as well. *)
Theorem kfcv_models_between_folds (x : array2) (y : array1)
    (names : list string) (folds : Z) (test_split tr : Py.num)
    (test_data : option (array2 * array1)) (save_names : bool)
    (pw : option string) (ts : Settings) (s : state) (d : string) :
  out_dir s = Some d ->
  let r := kfcv_train x y names folds test_split tr test_data save_names
             pw ts s in
  exists calls,
    train_calls (journal (snd r)) = train_calls (journal s) ++ calls /\
    length calls = Z.to_nat folds /\
    (forall c, calls !! 0 = Some c -> tc_model c = model s) /\
    (forall (i : nat) c c', calls !! i = Some c -> calls !! S i = Some c' ->
       match pw with
       | None =>
           tc_model c' = Some (cnn_framework.reset_model (Some (trained c)))
       | Some w =>
           exists fs, tc_model c' = Some (model_load_weights (trained c) w fs)
       end) /\
    (forall c, last calls = Some c ->
       match pw with
       | None =>
           model (snd r) = Some (cnn_framework.reset_model (Some (trained c)))
       | Some w =>
           exists fs, model (snd r) = Some (model_load_weights (trained c) w fs)
       end).
Proof.
  intros Hd. cbv zeta.
  pose proof (kfcv_train_outcome x y names folds test_split tr test_data
                save_names pw ts s d Hd) as H.
  cbv zeta in H.
  pose proof (after_split_fields x y names
                (match test_data with Some _ => Py.Int 0 | None => test_split end)
                save_names s) as (Hm & _ & _ & _ & Hj).
  cbv zeta in Hm, Hj.
  destruct (split_test_from_train_and_val x y names 7 _)
    as [[[[[x_test y_test] x_tv] y_tv] names_test] names_train].
  destruct (match test_data with Some td => td | None => (x_test, y_test) end)
    as [x_test' y_test'].
  destruct (prepare_folded_data x_tv y_tv folds 2) as [fxs fys].
  rewrite H. cbn [snd].
  destruct (after_folds_calls d pw fxs fys tr x_test' ts (Py.range folds) y_test'
              (after_split x y names
                 (match test_data with Some _ => Py.Int 0 | None => test_split end)
                 save_names s))
    as (calls & Hc & Hl & Hhead & Hnext & Hlast).
  exists calls. rewrite Hc, Hj, Hm in *.
  split; [|split; [|split; [|split]]].
  - unfold train_calls. rewrite omap_app. cbn. rewrite app_nil_r. reflexivity.
  - rewrite Hl. unfold Py.range. apply length_seqZ.
  - exact Hhead.
  - exact Hnext.
  - exact Hlast.
Qed.

Lemma after_folds_snoc d pw fxs fys tr x_test ts pre f : forall y_test s,
  after_folds d pw fxs fys tr x_test ts (pre ++ [f]) y_test s
  = after_fold d pw fxs fys tr x_test ts f
      (fold_left (fun y f => fold_standardized fxs fys tr f y) pre y_test)
      (after_folds d pw fxs fys tr x_test ts pre y_test s).
Proof.
  induction pre as [|g pre IH]; intros y_test s; [reflexivity|].
  cbn [app after_folds fold_left]. apply IH.
Qed.

Lemma range_snoc (n : Z) :
  (0 < n)%Z -> Py.range n = Py.range (n - 1) ++ [(n - 1)%Z].
Proof.
  intros Hn. unfold Py.range.
  replace n with ((n - 1) + 1)%Z at 1 by lia.
  rewrite seqZ_app by lia. reflexivity.
Qed.

(** X6. After [kfcv_train] with an output directory [d] and at least one
    fold, the statistics of the predictor are those of the training labels
    of the last fold, [d/model_fold_<folds-1>.attr] holds them, and the model
    is a reset (or reloaded) one: what the predictor predicts afterwards is
    not the prediction of a trained model. *)
Theorem kfcv_train_leaves_last_fold (x : array2) (y : array1)
    (names : list string) (folds : Z) (test_split tr : Py.num)
    (test_data : option (array2 * array1)) (save_names : bool)
    (pw : option string) (ts : Settings) (s : state) (d : string) :
  out_dir s = Some d ->
  (0 < folds)%Z ->
  let ratio :=
    match test_data with Some _ => Py.Int 0 | None => test_split end in
  let '(_, _, x_tv, y_tv, _, _) :=
    split_test_from_train_and_val x y names 7 ratio in
  let '(fxs, fys) := prepare_folded_data x_tv y_tv folds 2 in
  let st := fold_statistics fxs fys tr (folds - 1) in
  let s' := snd (kfcv_train x y names folds test_split tr test_data save_names
                   pw ts s) in
  y_mean s' = Some (fst st) /\
  y_std s' = Some (snd st) /\
  files s' !! (fold_path d (folds - 1) +:+ ".attr")
    = Some (Pickled (Some (fst st)) (Some (snd st))) /\
  match pw with
  | None => exists m, model s' = Some (cnn_framework.reset_model (Some m))
  | Some w => exists m fs, model s' = Some (model_load_weights m w fs)
  end.
Proof.
  intros Hd Hfolds. cbv zeta.
  pose proof (kfcv_train_outcome x y names folds test_split tr test_data
                save_names pw ts s d Hd) as H.
  cbv zeta in H.
  destruct (split_test_from_train_and_val x y names 7 _)
    as [[[[[x_test y_test] x_tv] y_tv] names_test] names_train].
  destruct (match test_data with Some td => td | None => (x_test, y_test) end)
    as [x_test' y_test'].
  destruct (prepare_folded_data x_tv y_tv folds 2) as [fxs fys].
  rewrite H, (range_snoc folds Hfolds), after_folds_snoc. cbn [snd].
  unfold after_fold. cbn [y_mean y_std files model].
  split; [reflexivity|]. split; [reflexivity|]. split.
  - unfold saved. destruct (losses _) as [[[? ?] ?] ?]. apply lookup_insert_eq.
  - destruct pw; eauto.
Qed.


Lemma train_calls_after_split x y names ratio save_names s :
  train_calls (journal (after_split x y names ratio save_names s))
  = train_calls (journal s).
Proof.
  destruct (after_split_fields x y names ratio save_names s)
    as (_ & _ & _ & _ & Hj).
  rewrite Hj. unfold train_calls. rewrite omap_app. cbn. apply app_nil_r.
Qed.

Lemma files_after_split_unsaved x y names ratio save_names s :
  out_dir s = None ->
  files (after_split x y names ratio save_names s) = files s.
Proof.
  intros Hd. unfold after_split. rewrite Hd.
  destruct (split_test_from_train_and_val x y names 7 ratio)
    as [[[[[? ?] ?] ?] ?] ?].
  destruct save_names; reflexivity.
Qed.

(** X7. On a predictor without an output directory no training method
    writes a file, and what fails, fails with the attribute error of [None]
    that [os.path.join(None, ...)] ends in.  With [save_names] both methods
    fail in [split_test], before the trainer is called, and the model is
    untouched.  Without [save_names], [full_train] fails at its save, and
    [kfcv_train] with at least one fold at the save of fold 0: the trainer
    has run once and the predictor holds the trained model.  Without
    [save_names] and with no fold to run ([folds <= 0]) [kfcv_train] returns,
    without a call of the trainer. *)
Theorem training_without_out_dir (x : array2) (y : array1)
    (names : list string) (folds : Z) (test_split tr : Py.num)
    (test_data : option (array2 * array1)) (pw : option string)
    (ts : Settings) (s : state) :
  out_dir s = None ->
  (let r := full_train x y names test_split tr test_data false ts s in
   let c := full_call (model s) x y names test_split tr test_data ts in
   fst r = Raise (Py.AttributeError "endswith") /\
   train_calls (journal (snd r)) = train_calls (journal s) ++ [c] /\
   model (snd r) = Some (trained c) /\
   files (snd r) = files s) /\
  ((0 < folds)%Z ->
   let ratio :=
     match test_data with Some _ => Py.Int 0 | None => test_split end in
   let '(x_test, y_test, x_tv, y_tv, _, _) :=
     split_test_from_train_and_val x y names 7 ratio in
   let '(x_test, y_test) :=
     match test_data with Some td => td | None => (x_test, y_test) end in
   let '(fxs, fys) := prepare_folded_data x_tv y_tv folds 2 in
   let r := kfcv_train x y names folds test_split tr test_data false pw ts s in
   let c := fold_call (model s) fxs fys tr x_test ts 0 y_test in
   fst r = Raise (Py.AttributeError "endswith") /\
   train_calls (journal (snd r)) = train_calls (journal s) ++ [c] /\
   model (snd r) = Some (trained c) /\
   files (snd r) = files s) /\
  ((folds <= 0)%Z ->
   let r := kfcv_train x y names folds test_split tr test_data false pw ts s in
   fst r = Ok tt /\
   train_calls (journal (snd r)) = train_calls (journal s) /\
   model (snd r) = model s /\ files (snd r) = files s) /\
  (let r := full_train x y names test_split tr test_data true ts s in
   fst r = Raise (Py.AttributeError "endswith") /\
   train_calls (journal (snd r)) = train_calls (journal s) /\
   model (snd r) = model s /\ files (snd r) = files s) /\
  (let r := kfcv_train x y names folds test_split tr test_data true pw ts s in
   fst r = Raise (Py.AttributeError "endswith") /\
   train_calls (journal (snd r)) = train_calls (journal s) /\
   model (snd r) = model s /\ files (snd r) = files s).
Proof.
  intros Hd. split; [|split; [|split; [|split]]].
  - cbv zeta. rewrite full_train_outcome, Hd. cbn [fst snd journal model files].
    split; [reflexivity|]. split; [|split; [reflexivity|]].
    + unfold train_calls at 1. rewrite omap_app.
      fold (train_calls (journal (after_split x y names
        (match test_data with Some _ => Py.Float 0 | None => test_split end)
        false s))).
      rewrite train_calls_after_split. f_equal.
      unfold full_report, guarded, metric_calls. cbn [omap].
      destruct (Py.truth _), (Py.truth _); reflexivity.
    + apply files_after_split_unsaved. exact Hd.
  - intros Hfolds. cbv zeta. unfold kfcv_train.
    set (ratio := match test_data with Some _ => Py.Int 0 | None => test_split end).
    pose proof (split_test_outcome x y names ratio false s) as Hrun.
    pose proof (after_split_fields x y names ratio false s)
      as (Hm & Ho & _).
    cbv zeta in Hm, Ho. rewrite Hd in Ho.
    pose proof (train_calls_after_split x y names ratio false s) as Hc.
    pose proof (files_after_split_unsaved x y names ratio false s Hd) as Hf.
    destruct (split_test_from_train_and_val x y names 7 ratio)
      as [[[[[x_test y_test] x_tv] y_tv] names_test] names_train].
    cbn iota in Hrun. erewrite bind_ok by exact Hrun. cbv beta iota.
    destruct (match test_data with Some td => td | None => (x_test, y_test) end)
      as [x_test' y_test'].
    destruct (prepare_folded_data x_tv y_tv folds 2) as [fxs fys].
    unfold Py.range. rewrite seqZ_cons by exact Hfolds. cbn [for_each].
    erewrite bind_raise
      by (erewrite bind_raise; [reflexivity|];
          rewrite kfcv_fold_outcome, Ho; reflexivity).
    cbn [fst snd]. unfold after_unsaved_fold. cbn [journal model files].
    rewrite Hm. split; [reflexivity|]. split; [|split; [reflexivity|exact Hf]].
    unfold train_calls at 1. rewrite omap_app.
    fold (train_calls (journal (after_split x y names ratio false s))).
    rewrite Hc. f_equal. apply fold_events_calls.
  - intros Hfolds. cbv zeta. unfold kfcv_train.
    set (ratio := match test_data with Some _ => Py.Int 0 | None => test_split end).
    pose proof (split_test_outcome x y names ratio false s) as Hrun.
    pose proof (after_split_fields x y names ratio false s) as (Hm & _).
    cbv zeta in Hm.
    pose proof (train_calls_after_split x y names ratio false s) as Hc.
    pose proof (files_after_split_unsaved x y names ratio false s Hd) as Hf.
    destruct (split_test_from_train_and_val x y names 7 ratio)
      as [[[[[x_test y_test] x_tv] y_tv] names_test] names_train].
    cbn iota in Hrun. erewrite bind_ok by exact Hrun. cbv beta iota.
    destruct (match test_data with Some td => td | None => (x_test, y_test) end)
      as [x_test' y_test'].
    destruct (prepare_folded_data x_tv y_tv folds 2) as [fxs fys].
    unfold Py.range. rewrite seqZ_nil by exact Hfolds. cbn. auto.
  - cbv zeta. rewrite full_train_outcome, Hd. cbn [fst snd].
    destruct (after_split_fields x y names
      (match test_data with Some _ => Py.Float 0 | None => test_split end) true s)
      as (Hm & _).
    rewrite train_calls_after_split, files_after_split_unsaved by exact Hd.
    auto.
  - cbv zeta. unfold kfcv_train.
    set (ratio := match test_data with Some _ => Py.Int 0 | None => test_split end).
    erewrite bind_raise
      by (rewrite split_test_outcome, Hd; reflexivity).
    cbn [fst snd].
    destruct (after_split_fields x y names ratio true s) as (Hm & _).
    rewrite train_calls_after_split, files_after_split_unsaved by exact Hd.
    auto.
Qed.

End RunFacts.

(** ** Not-a-number statistics *)

Lemma isnan_mul_l a r :
  Numpy.isnan a = true -> Numpy.isnan (a * r)%float = true.
Proof.
  rewrite !isnan_spec, FloatAxioms.mul_spec. intros ->. reflexivity.
Qed.

Lemma isnan_sub_r a r :
  Numpy.isnan r = true -> Numpy.isnan (a - r)%float = true.
Proof.
  rewrite !isnan_spec, FloatAxioms.sub_spec. intros ->.
  destruct (Prim2SF a); reflexivity.
Qed.

Lemma isnan_div_l a r :
  Numpy.isnan a = true -> Numpy.isnan (a / r)%float = true.
Proof.
  rewrite !isnan_spec, FloatAxioms.div_spec. intros ->. reflexivity.
Qed.

Lemma isnan_div_r a r :
  Numpy.isnan r = true -> Numpy.isnan (a / r)%float = true.
Proof.
  rewrite !isnan_spec, FloatAxioms.div_spec. intros ->.
  destruct (Prim2SF a); reflexivity.
Qed.

Lemma isnan_add_l a r :
  Numpy.isnan a = true -> Numpy.isnan (a + r)%float = true.
Proof.
  rewrite !isnan_spec, FloatAxioms.add_spec. intros ->. reflexivity.
Qed.

Lemma isnan_add_r a r :
  Numpy.isnan r = true -> Numpy.isnan (a + r)%float = true.
Proof.
  rewrite !isnan_spec, FloatAxioms.add_spec. intros ->.
  destruct (Prim2SF a); reflexivity.
Qed.

Lemma isnan_sqrt a : Numpy.isnan a = true -> Numpy.isnan (PrimFloat.sqrt a) = true.
Proof.
  rewrite !isnan_spec, FloatAxioms.sqrt_spec. intros ->. reflexivity.
Qed.

Section NanFacts.
Import Numpy cnn_framework util Predictor Spec.
Context `{F : Framework} `{U : Metrics} `{P : Power}.

Lemma fold_add_nan a : forall acc,
  isnan acc = true \/ Exists (fun v => isnan v = true) a ->
  isnan (fold_left PrimFloat.add a acc) = true.
Proof.
  induction a as [|v a IH]; intros acc [Hacc|Hex]; cbn [fold_left].
  - exact Hacc.
  - inversion Hex.
  - apply IH. left. apply isnan_add_l. exact Hacc.
  - apply IH. inversion Hex as [? ? Hv|? ? Hr]; subst.
    + left. apply isnan_add_r. exact Hv.
    + right. exact Hr.
Qed.

(** Not-a-number is absorbing for numpy's sum, whatever the order of the
    additions is. *)
Lemma zip_add_nan (rs vs : list float) :
  length rs = length vs ->
  Exists (fun v => isnan v = true) rs \/ Exists (fun v => isnan v = true) vs ->
  Exists (fun v => isnan v = true) (zip_with PrimFloat.add rs vs).
Proof.
  revert vs. induction rs as [|r rs IH]; intros [|v vs] Hl H; try discriminate.
  - destruct H as [H|H]; inversion H.
  - cbn [zip_with]. rewrite Exists_cons.
    destruct H as [H|H]; apply Exists_cons in H as [H|H].
    + left. apply isnan_add_l. exact H.
    + right. apply IH; [cbn in Hl; lia | left; exact H].
    + left. apply isnan_add_r. exact H.
    + right. apply IH; [cbn in Hl; lia | right; exact H].
Qed.

Lemma accumulators_nan (r0 r1 r2 r3 r4 r5 r6 r7 : float) :
  Exists (fun v => isnan v = true) [r0; r1; r2; r3; r4; r5; r6; r7] ->
  isnan (((r0 + r1) + (r2 + r3)) + ((r4 + r5) + (r6 + r7)))%float = true.
Proof.
  rewrite !Exists_cons, Exists_nil.
  intros [H|[H|[H|[H|[H|[H|[H|[H|[]]]]]]]]].
  - apply isnan_add_l, isnan_add_l, isnan_add_l, H.
  - apply isnan_add_l, isnan_add_l, isnan_add_r, H.
  - apply isnan_add_l, isnan_add_r, isnan_add_l, H.
  - apply isnan_add_l, isnan_add_r, isnan_add_r, H.
  - apply isnan_add_r, isnan_add_l, isnan_add_l, H.
  - apply isnan_add_r, isnan_add_l, isnan_add_r, H.
  - apply isnan_add_r, isnan_add_r, isnan_add_l, H.
  - apply isnan_add_r, isnan_add_r, isnan_add_r, H.
Qed.

Lemma unrolled_nan (n : nat) : forall a r0 r1 r2 r3 r4 r5 r6 r7,
  (length a <= n)%nat ->
  Exists (fun v => isnan v = true) ([r0; r1; r2; r3; r4; r5; r6; r7] ++ a) ->
  isnan (fold_left PrimFloat.add
           (snd (unrolled r0 r1 r2 r3 r4 r5 r6 r7 a))
           (fst (unrolled r0 r1 r2 r3 r4 r5 r6 r7 a))) = true.
Proof.
  assert (Hshort : forall a r0 r1 r2 r3 r4 r5 r6 r7,
            Exists (fun v => isnan v = true)
              ([r0; r1; r2; r3; r4; r5; r6; r7] ++ a) ->
            isnan (fold_left PrimFloat.add a
                     (((r0 + r1) + (r2 + r3)) + ((r4 + r5) + (r6 + r7)))%float)
              = true).
  { intros a r0 r1 r2 r3 r4 r5 r6 r7 H. apply fold_add_nan.
    apply Exists_app in H as [H|H]; [left|right; exact H].
    apply accumulators_nan. exact H. }
  induction n as [|n IH]; intros a r0 r1 r2 r3 r4 r5 r6 r7 Hn H.
  - destruct a; [|cbn in Hn; lia]. apply Hshort. exact H.
  - do 8 (destruct a as [|? a]; [apply Hshort; exact H|]).
    cbn [unrolled]. apply IH; [cbn [length] in Hn; lia|].
    change (Exists (fun v => isnan v = true)
              ([r0; r1; r2; r3; r4; r5; r6; r7]
               ++ [f; f0; f1; f2; f3; f4; f5; f6] ++ a)) in H.
    change (Exists (fun v => isnan v = true)
              (zip_with PrimFloat.add [r0; r1; r2; r3; r4; r5; r6; r7]
                 [f; f0; f1; f2; f3; f4; f5; f6] ++ a)).
    rewrite Exists_app. rewrite !Exists_app in H.
    destruct H as [H|[H|H]]; [left|left|right; exact H];
      apply zip_add_nan; auto.
Qed.

Lemma pairwise_block_nan a :
  Exists (fun v => isnan v = true) a -> isnan (pairwise_block a) = true.
Proof.
  intros H. unfold pairwise_block.
  do 8 (destruct a as [|? a]; [apply fold_add_nan; right; exact H|]).
  pose proof (unrolled_nan (length a) a f f0 f1 f2 f3 f4 f5 f6 (Nat.le_refl _) H)
    as Hu.
  destruct (unrolled f f0 f1 f2 f3 f4 f5 f6 a) as [res rest]. exact Hu.
Qed.

Lemma pairwise_sum_nan d : forall a,
  Exists (fun v => isnan v = true) a -> isnan (pairwise_sum d a) = true.
Proof.
  induction d as [|d IH]; intros a H; cbn [pairwise_sum];
    [apply pairwise_block_nan; exact H|].
  destruct (128 <? length a)%nat; [|apply pairwise_block_nan; exact H].
  cbv zeta.
  rewrite <- (take_drop (length a / 2 - (length a / 2) mod 8) a) in H.
  apply Exists_app in H as [H|H].
  - apply isnan_add_l, IH. exact H.
  - apply isnan_add_r, IH. exact H.
Qed.

Lemma sum_nan a :
  Exists (fun v => isnan v = true) a -> isnan (sum a) = true.
Proof.
  intros H. unfold sum. apply isnan_add_r, pairwise_sum_nan. exact H.
Qed.

Lemma mean_nan a :
  a = [] \/ Exists (fun v => isnan v = true) a -> isnan (mean a) = true.
Proof.
  intros [->|Hex]; [reflexivity|].
  unfold mean. apply isnan_div_l, sum_nan. exact Hex.
Qed.

Lemma std_nan a :
  a = [] \/ Exists (fun v => isnan v = true) a -> isnan (std a) = true.
Proof.
  intros H. pose proof (mean_nan a H) as Hmu.
  destruct a as [|v a]; [reflexivity|].
  unfold std, var. cbv zeta. apply isnan_sqrt, isnan_div_l, sum_nan.
  cbn [map]. apply Exists_cons_hd.
  apply isnan_mul_l, isnan_sub_r. exact Hmu.
Qed.

Lemma sub_div_nan mu sd a :
  isnan mu = true \/ isnan sd = true -> Forall (fun v => isnan v = true) (sub_div mu sd a).
Proof.
  intros H. unfold sub_div. apply Forall_map, Forall_forall.
  intros v _. destruct H as [H|H].
  - apply isnan_div_l, isnan_sub_r. exact H.
  - apply isnan_div_r. exact H.
Qed.

Lemma mul_add_nan sd mu a :
  isnan mu = true \/ isnan sd = true -> Forall (fun v => isnan v = true) (mul_add sd mu a).
Proof.
  intros H. unfold mul_add. apply Forall_map, Forall_forall.
  intros v _. destruct H as [H|H].
  - apply isnan_add_r. exact H.
  - apply isnan_add_l, isnan_mul_r. exact H.
Qed.

(** X8. If the training labels are empty, or one of them is not-a-number,
    [normalize] still returns, but both statistics it stores are
    not-a-number and every label it returns (of the training labels and of
    each other array, whose lengths are kept) is not-a-number. *)
Theorem normalize_spreads_nan (y_train : array1) (other_ys : list array1)
    (s : state) :
  y_train = [] \/ Exists (fun v => isnan v = true) y_train ->
  let r := normalize y_train other_ys s in
  (exists mu sd,
      y_mean (snd r) = Some mu /\ y_std (snd r) = Some sd /\
      isnan mu = true /\ isnan sd = true) /\
  (exists y_train' other_ys',
      fst r = Ok (y_train', other_ys') /\
      length y_train' = length y_train /\
      map (length (A := float)) other_ys' = map (length (A := float)) other_ys /\
      Forall (fun v => isnan v = true) y_train' /\
      Forall (Forall (fun v => isnan v = true)) other_ys').
Proof.
  intros H. cbv zeta. rewrite normalize_run. cbn [fst snd y_mean y_std set_y_std set_y_mean].
  pose proof (mean_nan y_train H) as Hmu. pose proof (std_nan y_train H) as Hsd.
  split.
  - exists (mean y_train), (std y_train). auto.
  - eexists _, _. split; [reflexivity|].
    split; [apply length_map|]. split.
    + rewrite map_map. apply map_ext. intros a. apply length_map.
    + split; [apply sub_div_nan; auto|].
      apply Forall_map, Forall_forall. intros a _. apply sub_div_nan. auto.
Qed.

(** X9. Not-a-number statistics are never detected.  With a not-a-number
    deviation [evaluate(norm=True)] returns a pair of not-a-numbers whatever
    the data and the metric functions are; with a not-a-number mean or
    deviation [predict(norm=False)] returns, with the length of the model
    output, only not-a-numbers.  Both happen after [normalize] on empty
    training labels. *)
Theorem nan_statistics_spoil_results (s : state) (m : Model) :
  model s = Some m ->
  (forall sd, y_std s = Some sd -> isnan sd = true ->
     forall x y, nan_pair (fst (evaluate x y true s))) /\
  (forall mu sd, y_mean s = Some mu -> y_std s = Some sd ->
     isnan mu = true \/ isnan sd = true ->
     forall x, exists y_pred,
       fst (predict x false s) = Ok y_pred /\
       length y_pred = length (flatten (model_predict m x)) /\
       Forall (fun v => isnan v = true) y_pred) /\
  (forall other_ys x y,
     let s' := snd (normalize [] other_ys s) in
     nan_pair (fst (evaluate x y true s')) /\
     exists y_pred,
       fst (predict x false s') = Ok y_pred /\
       Forall (fun v => isnan v = true) y_pred).
Proof.
  intros Hm.
  assert (Heval : forall s0 sd, model s0 = Some m -> y_std s0 = Some sd ->
            isnan sd = true -> forall x y, nan_pair (fst (evaluate x y true s0))).
  { intros s0 sd Hm0 Hs Hnan x y.
    erewrite evaluate_run by (apply (predict_run _ true _ _ Hm0)).
    cbv zeta. rewrite Hs. cbn [fst].
    eexists _, _. split; [reflexivity|].
    split; apply isnan_mul_l, pow_nan; first [exact Hnan | reflexivity]. }
  assert (Hpred : forall s0 mu sd, model s0 = Some m -> y_mean s0 = Some mu ->
            y_std s0 = Some sd -> isnan mu = true \/ isnan sd = true ->
            forall x, exists y_pred,
              fst (predict x false s0) = Ok y_pred /\
              length y_pred = length (flatten (model_predict m x)) /\
              Forall (fun v => isnan v = true) y_pred).
  { intros s0 mu sd Hm0 Hmu Hs Hnan x.
    rewrite (predict_run _ _ _ _ Hm0), Hmu, Hs. cbn [fst].
    eexists. split; [reflexivity|]. split; [apply length_map|].
    apply mul_add_nan. exact Hnan. }
  split; [|split].
  - intros sd Hs Hnan. apply (Heval s sd Hm Hs Hnan).
  - intros mu sd. apply (Hpred s mu sd Hm).
  - intros other_ys x y. cbv zeta. rewrite normalize_run. cbn [snd]. split.
    + apply (Heval _ (std [])); reflexivity || exact Hm.
    + destruct (Hpred (set_y_std (Some (std [])) (set_y_mean (Some (mean [])) s))
                  (mean []) (std []) Hm eq_refl eq_refl (or_introl eq_refl) x)
        as (y_pred & Hp & _ & Hall).
      eauto.
Qed.

End NanFacts.

(** ** Building the model, and the life of a predictor *)

Section BuildFacts.
Import Numpy cnn_framework util Predictor Spec.
Context `{F : Framework} `{U : Metrics} `{P : Power} `{B : !Builder}.

(** X10. A new predictor has no model: [predict], [evaluate] and
    [load_weights] fail with the attribute error of [None], changing
    nothing.  [build_model] reads the two flags of the tensor settings, the
    atom flag first: a missing flag is a key error naming it and leaves the
    predictor as it was; with both present the model built for the size
    these flags give is stored.  Then [predict(norm=True)] returns the
    flattened model output, [predict] and [evaluate] without [norm] fail with
    the usage error, and after [normalize] [predict] returns the output times
    the deviation plus the mean of the training labels. *)
Theorem predictor_needs_model_then_statistics (out : option string)
    (fs : gmap string (content Blob)) (tensor_settings : gmap string bool)
    (model_settings : ModelSettings) (atom bond : bool) :
  tensor_settings !! "add_extra_atom_attribute" = Some atom ->
  tensor_settings !! "add_extra_bond_attribute" = Some bond ->
  let s0 := init out fs in
  let m := cnn_framework.build_model
             (get_attribute_vector_size atom bond) model_settings in
  let s1 := set_model (Some m) s0 in
  (forall x norm, predict x norm s0 = (Raise (Py.AttributeError "predict"), s0)) /\
  (forall x y norm,
     evaluate x y norm s0 = (Raise (Py.AttributeError "predict"), s0)) /\
  (forall w, load_weights w s0 = (Raise (Py.AttributeError "load_weights"), s0)) /\
  (forall settings,
     settings !! "add_extra_atom_attribute" = None ->
     build_model settings model_settings s0
       = (inl (KeyError "add_extra_atom_attribute"), s0)) /\
  (forall settings,
     is_Some (settings !! "add_extra_atom_attribute") ->
     settings !! "add_extra_bond_attribute" = None ->
     build_model settings model_settings s0
       = (inl (KeyError "add_extra_bond_attribute"), s0)) /\
  build_model tensor_settings model_settings s0 = (inr tt, s1) /\
  (forall x, predict x true s1 = (Ok (flatten (model_predict m x)), s1)) /\
  (forall x, predict x false s1 = (Raise missing_statistics, s1)) /\
  (forall x y, evaluate x y false s1 = (Raise missing_statistics, s1)) /\
  (forall y_train other_ys x,
     fst (predict x false (snd (normalize y_train other_ys s1)))
       = Ok (map (fun v => (v * std y_train + mean y_train)%float)
               (flatten (model_predict m x)))).
Proof.
  intros Ha Hb. cbv zeta.
  split; [intros x norm; reflexivity|].
  split; [intros x y norm; reflexivity|].
  split; [intros w; reflexivity|].
  split; [intros settings Hn; unfold build_model; rewrite Hn; reflexivity|].
  split; [intros settings [a Hs] Hn; unfold build_model; rewrite Hs, Hn;
          reflexivity|].
  split; [unfold build_model; rewrite Ha, Hb; reflexivity|].
  split; [intros x; reflexivity|]. split; [intros x; reflexivity|].
  split; [intros x y; reflexivity|].
  intros y_train other_ys x. reflexivity.
Qed.

End BuildFacts.

(** ** Statistics on disk *)

Section StatisticsFacts.
Import Numpy cnn_framework util Predictor Spec.
Context `{F : Framework} `{U : Metrics} `{P : Power}.

Lemma lookup_attr_after_save p l il o t s :
  files (snd (save_model p l il o t s)) !! (p +:+ ".attr")
  = Some (Pickled (y_mean s) (y_std s)).
Proof.
  rewrite save_model_run. cbn [snd files set_files]. apply lookup_insert_eq.
Qed.

(** X11. The statistics file is written last, so whatever the framework's
    save routine does: on the files that [save_model(p, ...)] left,
    [load_mean_and_std(p + '.attr')] returns and restores exactly the
    statistics that the saving predictor had, changing neither the model,
    the files nor the journal; if both were set, [predict] then returns the
    model output times that deviation plus that mean. *)
Theorem saved_statistics_restore_prediction (p : string)
    (l il : list float) (o t : float) (s s' : state) (m : Model) :
  files s' = files (snd (save_model p l il o t s)) ->
  model s' = Some m ->
  exists s'',
    load_mean_and_std (p +:+ ".attr") s' = (Ok tt, s'') /\
    y_mean s'' = y_mean s /\ y_std s'' = y_std s /\
    model s'' = Some m /\ files s'' = files s' /\ journal s'' = journal s' /\
    (forall mu sd x, y_mean s = Some mu -> y_std s = Some sd ->
       fst (predict x false s'')
         = Ok (map (fun v => (v * sd + mu)%float)
                 (flatten (model_predict m x)))).
Proof.
  intros Hfs Hm.
  pose proof (lookup_attr_after_save p l il o t s) as Ha. rewrite <- Hfs in Ha.
  unfold load_mean_and_std, bind, gets, pickle_load. rewrite Ha.
  eexists. split; [reflexivity|].
  cbn [y_mean y_std model files journal set_y_mean set_y_std fst snd].
  repeat split; try assumption.
  intros mu sd x Hmu Hsd.
  erewrite predict_run by exact Hm.
  cbn [y_mean y_std set_y_mean set_y_std fst snd]. rewrite Hmu, Hsd. reflexivity.
Qed.

(** X12. [predict] never changes the predictor, whether it returns or
    raises.  [evaluate] changes neither the model, the output directory, the
    statistics nor the files; it calls the two metric functions, the root
    mean square error first, on the given labels and the prediction exactly
    when the prediction succeeded, and calls none otherwise. *)
Theorem predict_and_evaluate_read_only (x : array2) (y : array1) (norm : bool)
    (s : state) :
  snd (predict x norm s) = s /\
  let s' := snd (evaluate x y norm s) in
  model s' = model s /\ out_dir s' = out_dir s /\
  y_mean s' = y_mean s /\ y_std s' = y_std s /\ files s' = files s /\
  journal s' =
    match fst (predict x norm s) with
    | Ok y_pred =>
        journal s ++ [MetricCall RMSE y y_pred; MetricCall MAE y y_pred]
    | Raise _ => journal s
    end.
Proof.
  assert (Hp : snd (predict x norm s) = s).
  { unfold predict, bind, gets, ret, raise.
    destruct (model s); [|reflexivity].
    destruct norm; [reflexivity|].
    destruct (y_mean s), (y_std s); reflexivity. }
  split; [exact Hp|]. cbv zeta.
  destruct (predict x norm s) as [[y_pred|e] s0] eqn:E; cbn [snd fst] in *; subst s0.
  - rewrite (evaluate_run _ _ _ _ _ E). cbv zeta.
    destruct norm; [destruct (y_std s) eqn:Hs|]; cbn; rewrite <- app_assoc;
      repeat split; first [reflexivity | assumption].
  - unfold evaluate. erewrite bind_raise by exact E. cbn. auto 10.
Qed.

End StatisticsFacts.

(** ** The theorems above on the sample framework *)

Section SampleRuns.
Import Numpy cnn_framework util Predictor Spec.
Local Existing Instance Sample.framework.
Local Existing Instance numpy_metrics.
Local Existing Instance Sample.power.
Local Existing Instance Sample.builder.

Lemma split_test_writes_names_witness :
  out_dir Sample.built = Some "out" /\
  let r := split_test Sample.x6 Sample.y6 Sample.names6 (Py.Float 0.25) true
             Sample.built in
  fst r = Ok ([[6]], [6], [[4]; [0]; [1]; [4]; [3]], [4; 0; 1; 4; 3])%float /\
  files (snd r) !! "out/names_test.txt" = Some (Text (lines_text ["a"])) /\
  files (snd r) !! "out/names_train.txt"
    = Some (Text (lines_text ["b"; "c"; "d"; "e"; "f"])).
Proof.
  split; [reflexivity|].
  pose proof (split_test_writes_names (F := Sample.framework) Sample.x6
                Sample.y6 Sample.names6 (Py.Float 0.25) Sample.built "out"
                eq_refl) as H.
  hnf in H. destruct H as (H1 & H2 & H3 & _).
  split; [exact H1|]. split; [exact H2 | exact H3].
Defined.

Lemma split_test_without_names_or_out_dir_witness :
  (out_dir Sample.unhoused = None) /\
  split_test Sample.x6 Sample.y6 Sample.names6 (Py.Float 0.25) true
    Sample.unhoused
  = (Raise (Py.AttributeError "endswith"),
     record (SplitCall 7 (Py.Float 0.25)) Sample.unhoused) /\
  split_test Sample.x6 Sample.y6 Sample.names6 (Py.Float 0.25) false
    Sample.unhoused
  = (Ok ([[6]], [6], [[4]; [0]; [1]; [4]; [3]], [4; 0; 1; 4; 3])%float,
     record (SplitCall 7 (Py.Float 0.25)) Sample.unhoused).
Proof.
  split; [reflexivity|].
  pose proof (split_test_without_names_or_out_dir (F := Sample.framework)
                Sample.x6 Sample.y6 Sample.names6 (Py.Float 0.25) true
                Sample.unhoused) as H.
  pose proof (split_test_without_names_or_out_dir (F := Sample.framework)
                Sample.x6 Sample.y6 Sample.names6 (Py.Float 0.25) false
                Sample.unhoused) as K.
  hnf in H, K. destruct H as (_ & H & _). destruct K as (K & _).
  split; [exact (H eq_refl eq_refl) | exact (K eq_refl)].
Defined.

Lemma full_train_evaluates_witness :
  out_dir Sample.built = Some "out" /\
  let r := full_train Sample.x3 Sample.y3 Sample.names3 (Py.Float 0.25)
             (Py.Float 0.5) (Some (Sample.x_held, Sample.y_held)) true tt
             Sample.built in
  let c : @train_call Sample.framework :=
    {| tc_model := Some 1%float; tc_x_train := [[1]; [3]]%float;
       tc_y_train := [-1; 1]%float;
       tc_x_inner_val := [[5]]%float; tc_y_inner_val := [3]%float;
       tc_x_test := [[4]]%float; tc_y_test := [5]%float;
       tc_x_outer_val := None; tc_y_outer_val := None;
       tc_settings := (tt : @Settings Sample.framework) |} in
  fst r = Ok tt /\
  journal (snd r)
    = [SplitCall 7 (Py.Float 0); TrainCall c;
       MetricCall RMSE [-1; 1]%float [1; 3]%float;
       MetricCall MAE [-1; 1]%float [1; 3]%float;
       MetricCall RMSE [3]%float [5]%float;
       MetricCall MAE [3]%float [5]%float;
       MetricCall RMSE [5]%float [4]%float;
       MetricCall MAE [5]%float [4]%float;
       FinalStatistics
         [("Train", (2, 2)%float); ("Inner val", (2, 2)%float);
          ("Test", (1, 1)%float)]].
Proof.
  split; [reflexivity|].
  destruct (full_train_evaluates (F := Sample.framework) Sample.x3 Sample.y3
              Sample.names3 (Py.Float 0.25) (Py.Float 0.5)
              (Some (Sample.x_held, Sample.y_held)) true tt Sample.built "out"
              eq_refl) as (H1 & _ & _ & H4).
  split; [exact H1 | exact H4].
Defined.

Lemma full_train_then_predict_witness :
  out_dir Sample.built = Some "out" /\
  let s' := snd (full_train Sample.x3 Sample.y3 Sample.names3 (Py.Float 0.25)
                   (Py.Float 0.5) (Some (Sample.x_held, Sample.y_held)) true tt
                   Sample.built) in
  model s' = Some 1%float /\
  y_mean s' = Some 2%float /\ y_std s' = Some 1%float /\
  files s' !! "out/model.attr" = Some (Pickled (Some 2%float) (Some 1%float)) /\
  fst (predict [[4]]%float false s') = Ok [6]%float.
Proof.
  split; [reflexivity|].
  destruct (full_train_then_predict (F := Sample.framework) Sample.x3 Sample.y3
              Sample.names3 (Py.Float 0.25) (Py.Float 0.5)
              (Some (Sample.x_held, Sample.y_held)) true tt Sample.built "out"
              eq_refl) as (H1 & H2 & H3 & H4 & H5).
  split; [exact H1|]. split; [exact H2|]. split; [exact H3|].
  split; [exact H4|]. exact (f_equal fst (H5 [[4]]%float)).
Defined.

Lemma kfcv_models_between_folds_witness :
  out_dir Sample.built = Some "out" /\
  let r := kfcv_train Sample.x6 Sample.y6 Sample.names6 2 (Py.Float 0.25)
             (Py.Float 0.5) (Some (Sample.x_held, Sample.y_held)) false None
             tt Sample.built in
  exists calls,
    train_calls (journal (snd r)) = calls /\
    length calls = 2 /\
    map tc_model calls = [Some 1%float; Some 0%float] /\
    model (snd r) = Some 0%float.
Proof.
  split; [reflexivity|].
  destruct (kfcv_models_between_folds (F := Sample.framework) Sample.x6
              Sample.y6 Sample.names6 2 (Py.Float 0.25) (Py.Float 0.5)
              (Some (Sample.x_held, Sample.y_held)) false None tt Sample.built
              "out" eq_refl) as (calls & Hc & Hl & _).
  change (train_calls (journal Sample.built) ++ calls) with calls in Hc.
  exists calls. split; [exact Hc|]. split; [exact Hl|].
  rewrite <- Hc. split; reflexivity.
Defined.

Lemma kfcv_train_leaves_last_fold_witness :
  (out_dir Sample.built = Some "out" /\ (0 < 2)%Z) /\
  let s' := snd (kfcv_train Sample.x6 Sample.y6 Sample.names6 2 (Py.Float 0.25)
                   (Py.Float 0.5) (Some (Sample.x_held, Sample.y_held)) false
                   None tt Sample.built) in
  y_mean s' = Some 2%float /\ y_std s' = Some 2%float /\
  files s' !! "out/model_fold_1.attr"
    = Some (Pickled (Some 2%float) (Some 2%float)) /\
  model s' = Some 0%float.
Proof.
  split; [split; reflexivity|].
  pose proof (kfcv_train_leaves_last_fold (F := Sample.framework) Sample.x6
                Sample.y6 Sample.names6 2 (Py.Float 0.25) (Py.Float 0.5)
                (Some (Sample.x_held, Sample.y_held)) false None tt
                Sample.built "out" eq_refl eq_refl) as H.
  hnf in H. destruct H as (H1 & H2 & H3 & m & H4).
  split; [exact H1|]. split; [exact H2|]. split; [exact H3 | exact H4].
Defined.

Lemma training_without_out_dir_witness :
  (out_dir Sample.unhoused = None /\ (0 < 2)%Z /\ (0 <= 0)%Z) /\
  (let r := full_train Sample.x3 Sample.y3 Sample.names3 (Py.Float 0.25)
              (Py.Float 0.5) (Some (Sample.x_held, Sample.y_held)) false tt
              Sample.unhoused in
   fst r = Raise (Py.AttributeError "endswith") /\
   model (snd r) = Some 1%float /\ files (snd r) = ∅) /\
  (let r := kfcv_train Sample.x6 Sample.y6 Sample.names6 2 (Py.Float 0.25)
              (Py.Float 0.5) (Some (Sample.x_held, Sample.y_held)) false None
              tt Sample.unhoused in
   fst r = Raise (Py.AttributeError "endswith") /\
   length (train_calls (journal (snd r))) = 1 /\
   model (snd r) = Some 1%float /\ files (snd r) = ∅) /\
  (let r := kfcv_train Sample.x6 Sample.y6 Sample.names6 0 (Py.Float 0.25)
              (Py.Float 0.5) (Some (Sample.x_held, Sample.y_held)) false None
              tt Sample.unhoused in
   fst r = Ok tt /\
   train_calls (journal (snd r)) = [] /\
   model (snd r) = Some 1%float /\ files (snd r) = ∅).
Proof.
  split; [repeat split; discriminate|].
  destruct (training_without_out_dir (F := Sample.framework) Sample.x3
              Sample.y3 Sample.names3 2 (Py.Float 0.25) (Py.Float 0.5)
              (Some (Sample.x_held, Sample.y_held)) None tt Sample.unhoused
              eq_refl) as ((H1 & _ & H3 & H4) & _).
  destruct (training_without_out_dir (F := Sample.framework) Sample.x6
              Sample.y6 Sample.names6 2 (Py.Float 0.25) (Py.Float 0.5)
              (Some (Sample.x_held, Sample.y_held)) None tt Sample.unhoused
              eq_refl) as (_ & K & _).
  destruct (training_without_out_dir (F := Sample.framework) Sample.x6
              Sample.y6 Sample.names6 0 (Py.Float 0.25) (Py.Float 0.5)
              (Some (Sample.x_held, Sample.y_held)) None tt Sample.unhoused
              eq_refl) as (_ & _ & L & _).
  specialize (K eq_refl). hnf in K. destruct K as (K1 & K2 & K3 & K4).
  specialize (L (Z.le_refl 0)). destruct L as (L1 & L2 & L3 & L4).
  split; [split; [exact H1 | split; [exact H3 | exact H4]]|].
  split.
  - split; [exact K1|]. split; [rewrite K2; reflexivity|].
    split; [exact K3 | exact K4].
  - split; [exact L1|]. split; [exact L2|]. split; [exact L3 | exact L4].
Defined.

Lemma normalize_spreads_nan_witness :
  Exists (fun v => isnan v = true) [1; NaN; 3]%float /\
  let r := normalize [1; NaN; 3]%float [[2]%float] Sample.built in
  (exists mu sd,
      y_mean (snd r) = Some mu /\ y_std (snd r) = Some sd /\
      isnan mu = true /\ isnan sd = true) /\
  (exists y_train' other_ys',
      fst r = Ok (y_train', other_ys') /\
      length y_train' = 3 /\
      Forall (fun v => isnan v = true) y_train' /\
      Forall (Forall (fun v => isnan v = true)) other_ys').
Proof.
  assert (H : Exists (fun v => isnan v = true) [1; NaN; 3]%float)
    by (apply Exists_cons_tl, Exists_cons_hd; reflexivity).
  split; [exact H|].
  destruct (normalize_spreads_nan (F := Sample.framework) [1; NaN; 3]%float
              [[2]%float] Sample.built (or_intror H))
    as (Hs & y' & o' & Hr & Hl & _ & Hy & Ho).
  split; [exact Hs|]. exists y', o'. auto.
Defined.

Lemma nan_statistics_spoil_results_witness :
  let s := set_y_std (F := Sample.framework) (Some NaN) Sample.fitted in
  (model s = Some 1%float /\ y_std s = Some NaN /\ isnan NaN = true) /\
  nan_pair (fst (evaluate Sample.x2 Sample.y2 true s)) /\
  exists y_pred,
    fst (predict Sample.x2 false s) = Ok y_pred /\
    length y_pred = 2 /\
    Forall (fun v => isnan v = true) y_pred.
Proof.
  cbv zeta. split; [repeat split; reflexivity|].
  destruct (nan_statistics_spoil_results (F := Sample.framework)
              (set_y_std (F := Sample.framework) (Some NaN) Sample.fitted)
              1%float eq_refl) as (H1 & H2 & _).
  split; [exact (H1 NaN eq_refl eq_refl Sample.x2 Sample.y2)|].
  exact (H2 10%float NaN eq_refl eq_refl (or_intror eq_refl) Sample.x2).
Defined.

Lemma predictor_needs_model_then_statistics_witness :
  (Sample.tensor_settings !! "add_extra_atom_attribute" = Some true /\
   Sample.tensor_settings !! "add_extra_bond_attribute" = Some false) /\
  let s0 := init (F := Sample.framework) (Some "out") ∅ in
  let s1 := set_model (F := Sample.framework) (Some 12%float) s0 in
  build_model Sample.tensor_settings tt s0 = (inr tt, s1) /\
  build_model (delete "add_extra_bond_attribute" Sample.tensor_settings) tt s0
    = (inl (KeyError "add_extra_bond_attribute"), s0) /\
  predict Sample.x2 false s0 = (Raise (Py.AttributeError "predict"), s0) /\
  predict Sample.x2 true s1 = (Ok [36; 84]%float, s1) /\
  predict Sample.x2 false s1 = (Raise missing_statistics, s1) /\
  fst (predict Sample.x2 false (snd (normalize [1; 3]%float [] s1)))
    = Ok [38; 86]%float.
Proof.
  split; [split; reflexivity|].
  destruct (predictor_needs_model_then_statistics (F := Sample.framework)
              (B := Sample.builder) (Some "out") ∅ Sample.tensor_settings tt
              true false eq_refl eq_refl)
    as (H1 & _ & _ & _ & H5 & H6 & H7 & H8 & _ & H10).
  cbv zeta.
  split; [exact H6|].
  split; [exact (H5 (delete "add_extra_bond_attribute" Sample.tensor_settings)
                    (mk_is_Some _ true eq_refl) eq_refl)|].
  split; [exact (H1 Sample.x2 false)|].
  split; [exact (H7 Sample.x2)|].
  split; [exact (H8 Sample.x2)|].
  exact (H10 [1; 3]%float [] Sample.x2).
Defined.

Lemma saved_statistics_restore_prediction_witness :
  (files Sample.refitted
     = files (snd (save_model "out/model" [] [] 0 0 Sample.fitted)) /\
   model Sample.refitted = Some 5%float) /\
  exists s'',
    load_mean_and_std "out/model.attr" Sample.refitted = (Ok tt, s'') /\
    y_mean s'' = Some 10%float /\ y_std s'' = Some 2%float /\
    fst (predict Sample.x2 false s'') = Ok [40; 80]%float.
Proof.
  split; [split; reflexivity|].
  destruct (saved_statistics_restore_prediction (F := Sample.framework)
              "out/model" [] [] 0%float 0%float Sample.fitted Sample.refitted
              5%float eq_refl eq_refl)
    as (s'' & H1 & H2 & H3 & _ & _ & _ & H7).
  exists s''. split; [exact H1|]. split; [exact H2|]. split; [exact H3|].
  exact (H7 10%float 2%float Sample.x2 eq_refl eq_refl).
Defined.

End SampleRuns.
